(** * ROME: the data-access layer of the time-tracking application

    A shallow embedding of [src/lib/supabase.ts] (duration formatter,
    PIN authentication, worker creation, punches, verification codes,
    punch pairing and the weekly aggregator) and of [src/lib/timeoff.ts]
    (the time-off request workflow), followed by the properties the
    specification states about them.  Then come the other functions of
    [supabase.ts] (worker status, clock-in, production logs, the dashboard
    login), the functions of the components that feed the layer
    ([NumericKeypad], [AddWorker], [HoursSlider], the time-off page), and
    further properties of all of them.

    Conventions of the embedding.
    - A JavaScript [number] that holds a count of milliseconds is a [Z];
      the quotients [totalMs / 3_600_000] are exact rationals ([Q]), the
      idealisation of IEEE doubles.
    - A JavaScript string is the [string] of its code units, each below 256
      (the characters of ISO 8859-1; strings with other characters are not
      in the model), so that the length of the string is its number of
      characters; [null] is [None].
    - An [async] function is a program ([prog]) over the calls it awaits:
      the demo tables, the hosted store, the clock and [Math.random].
      A handler ([handle]) gives these calls their meaning on a [World].
      The functions of the second part make a few calls more ([kioskE]);
      their programs ([kprog]) run on a [Site], a [World] with the tables
      only they use. *)

From Stdlib Require Import ZArith QArith Qround Lia OrderedTypeEx Ascii String.
From Stdlib Require Import Sorting.Sorted Sorting.Permutation Lqa.
From stdpp Require Import base strings pretty list sorting gmap.

Open Scope string_scope.
Open Scope list_scope.
Open Scope Z_scope.

(* ================================================================== *)
(** * The host runtime: [Date], string collation                       *)
(* ================================================================== *)

(** The parts of the JavaScript runtime the code calls.  They are an
    interface of the embedding, not code of the repository. *)
Class JsRuntime := {
  (** [new Date(s).getTime()] for a timestamp or date string [s]. *)
  Date_getTime : string → Z;
  (** [new Date(t).toISOString()]. *)
  Date_toISOString : Z → string;
  (** Local time minus UTC, in milliseconds (one fixed offset: daylight
      saving changes are not modelled). *)
  tzOffsetMs : Z;
  (** [a.localeCompare(b)]: negative, zero or positive. *)
  localeCompare : string → string → Z;
}.

(** A concrete runtime for ISO-8601 strings, used to run the code on
    examples. *)
Module Iso.

Definition msPerDay : Z := 86400000.

(** Days since 1970-01-01 of a proleptic Gregorian date. *)
Definition days_from_civil (y m d : Z) : Z :=
  let y' := if m <=? 2 then y - 1 else y in
  let era := y' / 400 in
  let yoe := y' - era * 400 in
  let mp := if m >? 2 then m - 3 else m + 9 in
  let doy := (153 * mp + 2) / 5 + d - 1 in
  let doe := yoe * 365 + yoe / 4 - yoe / 100 + doy in
  era * 146097 + doe - 719468.

Definition civil_from_days (z : Z) : Z * Z * Z :=
  let z' := z + 719468 in
  let era := z' / 146097 in
  let doe := z' - era * 146097 in
  let yoe := (doe - doe / 1460 + doe / 36524 - doe / 146096) / 365 in
  let doy := doe - (365 * yoe + yoe / 4 - yoe / 100) in
  let mp := (5 * doy + 2) / 153 in
  let d := doy - (153 * mp + 2) / 5 + 1 in
  let m := if mp <? 10 then mp + 3 else mp - 9 in
  ((yoe + era * 400 + (if m <=? 2 then 1 else 0), m), d).

Fixpoint zeros (n : nat) : string :=
  match n with O => "" | S n' => String "0"%char (zeros n') end.

(** Decimal with at least [w] digits (non-negative [n]). *)
Definition pad (w : nat) (n : Z) : string :=
  let s := pretty n in
  zeros (w - String.length s)%nat +:+ s.

Definition toISOString (t : Z) : string :=
  let '(y, m, d) := civil_from_days (t / msPerDay) in
  let r := t mod msPerDay in
  pad 4 y +:+ "-" +:+ pad 2 m +:+ "-" +:+ pad 2 d +:+ "T" +:+
  pad 2 (r / 3600000) +:+ ":" +:+ pad 2 (r / 60000 mod 60) +:+ ":" +:+
  pad 2 (r / 1000 mod 60) +:+ "." +:+ pad 3 (r mod 1000) +:+ "Z".

Definition digit_val (c : ascii) : option Z :=
  let n := Z.of_nat (nat_of_ascii c) in
  if (48 <=? n) && (n <=? 57) then Some (n - 48) else None.

Fixpoint number_from (acc : Z) (s : string) : option Z :=
  match s with
  | "" => Some acc
  | String c s' =>
      match digit_val c with
      | Some v => number_from (acc * 10 + v) s'
      | None => None
      end
  end.

(** A non-empty string of decimal digits. *)
Definition number (s : string) : option Z :=
  match s with "" => None | _ => number_from 0 s end.

Definition field (from len : nat) (s : string) : option Z :=
  let f := String.substring from len s in
  if Nat.eqb (String.length f) len then number f else None.

Definition char_is (i : nat) (c : ascii) (s : string) : bool :=
  match String.get i s with
  | Some c' => if decide (c = c') then true else false
  | None => false
  end.

(** ["YYYY-MM-DD"]: midnight UTC of that date. *)
Definition parse_date (s : string) : option Z :=
  if char_is 4 "-"%char s && char_is 7 "-"%char s then
    y ← field 0 4 s; m ← field 5 2 s; d ← field 8 2 s;
    Some (days_from_civil y m d * msPerDay)
  else None.

(** The leading digits of [s] and the rest. *)
Fixpoint span_digits (s : string) : string * string :=
  match s with
  | "" => ("", "")
  | String c s' =>
      match digit_val c with
      | Some _ => let '(ds, r) := span_digits s' in (String c ds, r)
      | None => ("", s)
      end
  end.

(** [".fff..."]: the milliseconds (digits after the third are dropped)
    and the rest; no fraction gives 0. *)
Definition parse_fraction (s : string) : option (Z * string) :=
  match s with
  | String "."%char s' =>
      let '(ds, r) := span_digits s' in
      ms ← number (String.substring 0 3 (ds +:+ "00"));
      if Nat.eqb (String.length ds) 0 then None else Some (ms, r)
  | _ => Some (0, s)
  end.

(** ["Z"], ["+HH:MM"], ["-HH:MM"]: the offset of the written time from UTC;
    no zone: local time. *)
Definition parse_zone (tz : Z) (s : string) : option Z :=
  match s with
  | "" => Some tz
  | "Z" => Some 0
  | String sg r =>
      if Nat.eqb (String.length r) 5 && char_is 2 ":"%char r then
        h ← field 0 2 r; m ← field 3 2 r;
        if decide (sg = "+"%char) then Some (h * 3600000 + m * 60000)
        else if decide (sg = "-"%char) then Some (- (h * 3600000 + m * 60000))
        else None
      else None
  end.

(** ["YYYY-MM-DD"] or ["YYYY-MM-DDTHH:MM:SS[.fff][zone]"]. *)
Definition parse (tz : Z) (s : string) : option Z :=
  if Nat.eqb (String.length s) 10 then parse_date s
  else if char_is 10 "T"%char s && char_is 13 ":"%char s && char_is 16 ":"%char s then
    day ← parse_date (String.substring 0 10 s);
    h ← field 11 2 s; mi ← field 14 2 s; se ← field 17 2 s;
    '(ms, r) ← parse_fraction (String.substring 19 (String.length s - 19)%nat s);
    off ← parse_zone tz r;
    Some (day + h * 3600000 + mi * 60000 + se * 1000 + ms - off)
  else None.

(** An unparsable string is an Invalid Date in JavaScript ([NaN]); the
    stores only hand out well-formed timestamps, and the model maps the
    others to 0. *)
Definition getTime (tz : Z) (s : string) : Z := default 0 (parse tz s).

(** Code-unit order, which is the collation order on date strings
    (digits and hyphens in fixed places). *)
Definition compare (a b : string) : Z :=
  match String_as_OT.cmp a b with Lt => -1 | Eq => 0 | Gt => 1 end.

(** ["YYYY-MM-DD"] of an instant, in UTC. *)
Definition date (t : Z) : string :=
  let '(y, m, d) := civil_from_days (t / msPerDay) in
  pad 4 y +:+ "-" +:+ pad 2 m +:+ "-" +:+ pad 2 d.

(** A [TIMESTAMPTZ] as the store writes it in a row, in UTC:
    ["YYYY-MM-DDTHH:MM:SS[.fff]+00:00"]. *)
Definition timestamptz (t : Z) : string :=
  let r := t mod msPerDay in
  date t +:+ "T" +:+
  pad 2 (r / 3600000) +:+ ":" +:+ pad 2 (r / 60000 mod 60) +:+ ":" +:+
  pad 2 (r / 1000 mod 60) +:+
  (if r mod 1000 =? 0 then "" else "." +:+ pad 3 (r mod 1000)) +:+ "+00:00".

(** A date of the calendar written ["YYYY-MM-DD"] is read as it is; of the
    other spellings the store reads, this reader knows none. *)
Definition date_in (s : string) : option string :=
  t ← parse_date s;
  if decide (date t = s) then Some s else None.

End Iso.

(** The parts of the hosted store (PostgreSQL behind its REST interface) the
    rows depend on.  They too are an interface of the embedding. *)
Class Postgres := {
  (** The value of a [TIMESTAMPTZ DEFAULT NOW()] column as it comes back in
      a row, for a row inserted when the clock of the client reads [t]: the
      store reads its own clock and writes the instant in its own format. *)
  store_now : Z → string;
  (** What a [DATE] column makes of the string it is given: the date as it
      comes back in a row, or nothing when the store refuses the string. *)
  date_in : string → option string;
}.

(* ================================================================== *)
(** * [supabase.ts]: time formatting helper                            *)
(* ================================================================== *)

(** [Math.floor(x / d)] with [d > 0] is [Z.div]; the remainder [%] of
    JavaScript takes the sign of the dividend: [Z.rem]. *)
Definition formatDuration (ms : Z) : string :=
  let totalSeconds := ms / 1000 in
  let hours := totalSeconds / 3600 in
  let minutes := Z.rem totalSeconds 3600 / 60 in
  if hours >? 0 then pretty hours +:+ "h " +:+ pretty minutes +:+ "m"
  else pretty minutes +:+ " minutes".

(* ================================================================== *)
(** * Data model                                                       *)
(* ================================================================== *)

(** What a call of the data-access layer resolves to:
    [{ success: true, ... }] or [{ success: false, error }]. *)
Inductive result (A : Type) : Type :=
| Ok (payload : A)
| Fail (error : string).
Arguments Ok {A} payload.
Arguments Fail {A} error.

Definition success {A} (r : result A) : bool :=
  match r with Ok _ => true | Fail _ => false end.

(** What an awaited query of the hosted store resolves to: [data], or an
    [error] with its code. *)
Inductive Response (A : Type) : Type :=
| Data (data : A)
| Error (code : string).
Arguments Data {A} data.
Arguments Error {A} code.

(** [{ id, full_name, role }], the identity a login returns. *)
Module WorkerInfo.
Record t := mk { id : string; full_name : string; role : string }.
End WorkerInfo.

(** An entry of [DEMO_WORKERS]. *)
Module DemoWorker.
Record t := mk { id : string; pin : string; full_name : string; role : string }.
Definition info (w : t) : WorkerInfo.t :=
  WorkerInfo.mk (id w) (full_name w) (role w).
End DemoWorker.

(** A row of table [workers] ([reset.sql]). *)
Module Worker.
Record t := mk {
  id : string; pin : string; full_name : string; role : string;
  is_active : bool }.
Definition info (w : t) : WorkerInfo.t :=
  WorkerInfo.mk (id w) (full_name w) (role w).
Definition created (w : t) : DemoWorker.t :=
  DemoWorker.mk (id w) (pin w) (full_name w) (role w).
End Worker.

Inductive PunchType := IN | OUT.
#[global] Instance PunchType_eq_dec : EqDecision PunchType.
Proof. solve_decision. Defined.

(** A row of table [punches]; the timestamp is the ISO string the store
    hands out. *)
Module Punch.
Record t := mk {
  id : string; worker_id : string; type : PunchType; timestamp : string }.
End Punch.

(** [interface PunchPair]. *)
Module PunchPair.
Record t := mk {
  date : string;
  clockIn : option string;
  clockOut : option string;
  totalMs : Z }.
End PunchPair.

(** An entry of [demoState]. *)
Module DemoClock.
Record t := mk { isClockedIn : bool; clockInTime : option string }.
End DemoClock.

(** A row of table [verification_codes]; a timestamp the code only stores
    and compares is the instant it denotes. *)
Module Code.
Record t := mk {
  id : string; worker_id : string; code : string;
  expires_at : Z; used_at : option Z; created_at : Z }.
End Code.

Inductive TimeOffType := vacation | personal | sick | bereavement | unpaid.
Inductive RequestStatus := pending | approved | denied.
#[global] Instance RequestStatus_eq_dec : EqDecision RequestStatus.
Proof. solve_decision. Defined.

(** [interface TimeOffRequestData]; also a row of [time_off_requests]
    (where the two joined names are absent). *)
Module TimeOff.
Record t := mk {
  id : string;
  worker_id : string;
  worker_name : option string;
  type : TimeOffType;
  start_date : string;
  end_date : string;
  paid_hours : Q;
  unpaid_hours : Q;
  is_excused : bool;
  is_planned : bool;
  comments : option string;
  status : RequestStatus;
  reviewed_by : option string;
  reviewer_name : option string;
  reviewed_at : option Z;
  denial_reason : option string;
  created_at : Z }.

(** The [data] argument of [submitTimeOffRequest]. *)
Record input := mk_input {
  in_type : TimeOffType;
  in_start_date : string;
  in_end_date : string;
  in_paid_hours : Q;
  in_unpaid_hours : Q;
  in_comments : option string }.

(** The [updates] of [approveRequest] and [denyRequest]:
    [denial_reason] is a key of the object only in the second. *)
Record updates := mk_updates {
  u_status : RequestStatus;
  u_reviewed_by : string;
  u_reviewed_at : Z;
  u_denial_reason : option (option string) }.

(** [{ ...r, ...updates }]. *)
Definition apply (u : updates) (r : t) : t :=
  mk (id r) (worker_id r) (worker_name r) (type r) (start_date r)
     (end_date r) (paid_hours r) (unpaid_hours r) (is_excused r)
     (is_planned r) (comments r) (u_status u) (Some (u_reviewed_by u))
     (reviewer_name r) (Some (u_reviewed_at u))
     (match u_denial_reason u with Some d => d | None => denial_reason r end)
     (created_at r).

(** [{ ...r, worker_name, reviewer_name }]. *)
Definition with_names (wn rn : option string) (r : t) : t :=
  mk (id r) (worker_id r) wn (type r) (start_date r)
     (end_date r) (paid_hours r) (unpaid_hours r) (is_excused r)
     (is_planned r) (comments r) (status r) (reviewed_by r)
     rn (reviewed_at r) (denial_reason r) (created_at r).
End TimeOff.

(** [s || null] on an optional string: the empty string is falsy. *)
Definition or_null (s : option string) : option string :=
  match s with
  | Some x => if decide (x = "") then None else Some x
  | None => None
  end.

(** [{ totalMs, totalHours, dailyHours }] of [getWeeklyHours]. *)
Module Weekly.
Record t := mk {
  totalMs : Z;
  totalHours : Q;
  dailyHours : gmap string Q }.
End Weekly.


(* ================================================================== *)
(** * Programs over the awaited calls                                  *)
(* ================================================================== *)

(** The calls a function of the layer makes to the outside: the clock and
    the random source, the module-level demo tables, and the queries sent to
    the hosted store (one constructor per query the code builds). *)
Inductive storeE : Type → Type :=
(* runtime *)
| Delay (ms : Z) : storeE unit                      (* await delay(ms) *)
| DateNow : storeE Z                                (* new Date(), Date.now() *)
| MathRandom : storeE Q                             (* Math.random() *)
(* demo tables of supabase.ts *)
| ReadDemoWorkers : storeE (list DemoWorker.t)
| WriteDemoWorkers (ws : list DemoWorker.t) : storeE unit
| WriteDemoState (workerId : string) (s : DemoClock.t) : storeE unit
| ReadDemoCode (workerId : string) : storeE (option (string * Z))
| WriteDemoCode (workerId : string) (c : string * Z) : storeE unit
| DeleteDemoCode (workerId : string) : storeE unit
(* demo table of timeoff.ts *)
| ReadDemoRequests : storeE (list TimeOff.t)
| WriteDemoRequests (rs : list TimeOff.t) : storeE unit
(* workers *)
| SelectWorkerByPin (pin : string) : storeE (Response WorkerInfo.t)
| InsertWorker (pin full_name role : string) : storeE (Response Worker.t)
(* punches *)
| InsertPunch (worker_id : string) (type : PunchType) : storeE (Response Punch.t)
| SelectPunches (worker_id : string) (since : Z) : storeE (Response (list Punch.t))
(* verification_codes *)
| InsertCode (worker_id code : string) (expires_at : Z) : storeE (Response unit)
| SelectCode (worker_id code : string) : storeE (Response Code.t)
| MarkCodeUsed (id : string) (used_at : Z) : storeE (Response unit)
(* time_off_requests *)
| InsertRequest (worker_id : string) (d : TimeOff.input) : storeE (Response TimeOff.t)
| SelectRequestsOf (worker_id : string) : storeE (Response (list (TimeOff.t * option string)))
| SelectPendingRequests : storeE (Response (list (TimeOff.t * option string)))
| SelectAllRequests :
    storeE (Response (list (TimeOff.t * option string * option string)))
| UpdateRequest (id : string) (u : TimeOff.updates) : storeE (Response unit).

(** A program: it returns, or makes a call and continues with the answer. *)
Inductive prog (R : Type) : Type :=
| Ret (r : R)
| Vis {X : Type} (e : storeE X) (k : X → prog R).
Arguments Ret {R} r.
Arguments Vis {R X} e k.

Fixpoint bind {A B : Type} (m : prog A) (f : A → prog B) : prog B :=
  match m with
  | Ret a => f a
  | Vis e k => Vis e (λ x, bind (k x) f)
  end.

Definition call {X : Type} (e : storeE X) : prog X := Vis e Ret.

#[global] Instance prog_ret : MRet prog := @Ret.
#[global] Instance prog_bind : MBind prog := λ A B f m, bind m f.

(** A program that makes no call at all. *)
Definition silent {R : Type} (p : prog R) : Prop := ∃ r, p = Ret r.

(* ================================================================== *)
(** * Helpers of the runtime                                           *)
(* ================================================================== *)

Section Runtime.
Context {rt : JsRuntime} {pg : Postgres}.

(** The local calendar day of an instant, counted from 1970-01-01. *)
Definition Date_localDay (t : Z) : Z := (t + tzOffsetMs) / 86400000.

(** [d.getDay()]: 0 is Sunday (1970-01-01 was a Thursday). *)
Definition Date_getDay (t : Z) : Z := (Date_localDay t + 4) mod 7.

(** [d.setDate(d.getDate() + k)]: the same local time [k] days later. *)
Definition Date_addDays (t k : Z) : Z := t + k * 86400000.

(** [d.setHours(h, m, s, ms)]: that local time on the local day of [d]. *)
Definition Date_setHours (t h m s ms : Z) : Z :=
  Date_localDay t * 86400000 - tzOffsetMs
  + h * 3600000 + m * 60000 + s * 1000 + ms.

(** [d.toLocaleDateString("en-US", { weekday: "short" })]. *)
Definition weekdayShort (t : Z) : string :=
  match Date_getDay t with
  | 0 => "Sun" | 1 => "Mon" | 2 => "Tue" | 3 => "Wed"
  | 4 => "Thu" | 5 => "Fri" | _ => "Sat"
  end.
End Runtime.

(** [s.split("T")[0]]: the part of [s] before its first ["T"]. *)
Fixpoint split_T (s : string) : string :=
  match s with
  | "" => ""
  | String c s' =>
      if decide (c = "T"%char) then "" else String c (split_T s')
  end.

(** [/^\d{6}$/.test(pin)]. *)
Definition is_digit (c : ascii) : bool :=
  let n := nat_of_ascii c in (48 <=? n)%nat && (n <=? 57)%nat.

Definition six_digits (pin : string) : bool :=
  (String.length pin =? 6)%nat && forallb is_digit (list_ascii_of_string pin).

(** What [String.prototype.trim] strips (the white space and the line
    terminators of the language) among the code units below 256: tab, line
    feed, vertical tab, form feed, carriage return, space and no-break space
    (U+00A0). *)
Definition is_space (c : ascii) : bool :=
  let n := nat_of_ascii c in
  ((9 <=? n)%nat && (n <=? 13)%nat) || (n =? 32)%nat || (n =? 160)%nat.

Fixpoint trim_start (l : list ascii) : list ascii :=
  match l with
  | c :: l' => if is_space c then trim_start l' else l
  | [] => []
  end.

Definition trim (s : string) : string :=
  string_of_list_ascii
    (rev (trim_start (rev (trim_start (list_ascii_of_string s))))).

(** [requestId.startsWith("demo-")]. *)
Definition startsWith (p s : string) : bool := String.prefix p s.


(* ================================================================== *)
(** * [supabase.ts]                                                    *)
(* ================================================================== *)

(** [{ worker, isAdmin }] *)
Record AuthOk := mkAuthOk { auth_worker : WorkerInfo.t; isAdmin : bool }.

(** [{ punch, timeWorked, timeWorkedMs }] *)
Record ClockOutOk := mkClockOutOk {
  out_punch : Punch.t; timeWorked : string; timeWorkedMs : Z }.

Definition invalid_pin : string := "Invalid PIN. Please try again.".
Definition pin_format_error : string := "PIN must be exactly 6 digits.".
Definition name_required : string := "Name is required.".
Definition pin_in_use : string := "This PIN is already in use.".
Definition create_failed : string := "Failed to create worker. Please try again.".
Definition no_code_found : string := "No code found. Please request a new one.".
Definition invalid_code : string := "Invalid code. Please try again.".
Definition code_expired : string := "Code expired. Please request a new one.".

Section Supabase.
Context {rt : JsRuntime} {pg : Postgres}.

(** [const DEMO_MODE], computed once when the module is loaded. *)
Variable DEMO_MODE : bool.

(** ** Worker operations *)

Definition authenticateWorker (pin : string) : prog (result AuthOk) :=
  if decide (pin = "000000") then
    Ret (Ok (mkAuthOk (WorkerInfo.mk "admin" "Administrator" "admin") true))
  else if DEMO_MODE then
    _ ← call (Delay 500);
    ws ← call ReadDemoWorkers;
    match List.find (λ w, bool_decide (DemoWorker.pin w = pin)) ws with
    | None => Ret (Fail invalid_pin)
    | Some worker => Ret (Ok (mkAuthOk (DemoWorker.info worker) false))
    end
  else
    r ← call (SelectWorkerByPin pin);
    match r with
    | Error _ => Ret (Fail invalid_pin)
    | Data d => Ret (Ok (mkAuthOk d false))
    end.

(** ** Punch operations *)

Definition clockOut (workerId : string) (clockInTime : option string)
  : prog (result ClockOutOk) :=
  clockOutTime ← call DateNow;
  let '(timeWorkedMs, timeWorkedFormatted) :=
    match or_null clockInTime with
    | Some t =>
        let ms := clockOutTime - Date_getTime t in (ms, formatDuration ms)
    | None => (0, "Unknown")
    end in
  if DEMO_MODE then
    _ ← call (Delay 600);
    _ ← call (WriteDemoState workerId (DemoClock.mk false None));
    Ret (Ok (mkClockOutOk
               (Punch.mk "demo-punch" workerId OUT (Date_toISOString clockOutTime))
               timeWorkedFormatted timeWorkedMs))
  else
    r ← call (InsertPunch workerId OUT);
    match r with
    | Error _ => Ret (Fail "Failed to clock out. Please try again.")
    | Data d => Ret (Ok (mkClockOutOk d timeWorkedFormatted timeWorkedMs))
    end.

(** ** Worker management *)

Definition createWorker (pin fullName role : string)
  : prog (result DemoWorker.t) :=
  if negb (six_digits pin) then Ret (Fail pin_format_error)
  else if decide (trim fullName = "") then Ret (Fail name_required)
  else if DEMO_MODE then
    _ ← call (Delay 600);
    ws ← call ReadDemoWorkers;
    if existsb (λ w, bool_decide (DemoWorker.pin w = pin)) ws then
      Ret (Fail pin_in_use)
    else
      t ← call DateNow;
      let newWorker :=
        DemoWorker.mk ("demo-" +:+ pretty t) pin (trim fullName) role in
      ws' ← call ReadDemoWorkers;
      _ ← call (WriteDemoWorkers (ws' ++ [newWorker]));
      Ret (Ok newWorker)
  else
    r ← call (InsertWorker pin (trim fullName) role);
    match r with
    | Error code =>
        if decide (code = "23505") then Ret (Fail pin_in_use)
        else Ret (Fail create_failed)
    | Data d => Ret (Ok (Worker.created d))
    end.

(** ** Dashboard authentication: verification codes *)

Definition sendVerificationCode (workerId email : string)
  : prog (result string) :=
  rnd ← call MathRandom;
  let code := pretty (Qfloor (100000 + rnd * 900000)) in
  t ← call DateNow;
  let expiresAt := t + 10 * 60 * 1000 in
  if DEMO_MODE then
    _ ← call (Delay 500);
    _ ← call (WriteDemoCode workerId (code, expiresAt));
    Ret (Ok "Code sent!")
  else
    r ← call (InsertCode workerId code expiresAt);
    match r with
    | Error _ => Ret (Fail "Failed to send code. Please try again.")
    | Data _ => Ret (Ok "Code sent!")
    end.

Definition verifyCode (workerId code : string) : prog (result unit) :=
  if DEMO_MODE then
    _ ← call (Delay 500);
    stored ← call (ReadDemoCode workerId);
    match stored with
    | None => Ret (Fail no_code_found)
    | Some (c, expiresAt) =>
        if decide (c ≠ code) then Ret (Fail invalid_code)
        else
          t ← call DateNow;
          if t >? expiresAt then Ret (Fail code_expired)
          else
            _ ← call (DeleteDemoCode workerId);
            Ret (Ok ())
    end
  else
    r ← call (SelectCode workerId code);
    match r with
    | Error _ => Ret (Fail invalid_code)
    | Data d =>
        t ← call DateNow;
        if Code.expires_at d <? t then Ret (Fail code_expired)
        else
          t' ← call DateNow;
          _ ← call (MarkCodeUsed (Code.id d) t');
          Ret (Ok ())
    end.


(** ** Punch history and hours *)

(** [new Map<string, { ins: string[]; outs: string[] }>()], in insertion
    order. *)
Definition PunchMap : Type := list (string * (list string * list string)).

Definition pm_has (date : string) (m : PunchMap) : bool :=
  existsb (λ e, bool_decide (e.1 = date)) m.

(** [entry.ins.push(ts)] or [entry.outs.push(ts)] on the entry of [date]. *)
Definition pm_push (date : string) (ty : PunchType) (ts : string)
    (m : PunchMap) : PunchMap :=
  map (λ e, if decide (e.1 = date)
            then (e.1, match ty with
                       | IN => (e.2.1 ++ [ts], e.2.2)
                       | OUT => (e.2.1, e.2.2 ++ [ts])
                       end)
            else e) m.

(** The body of the loop over the fetched punches. *)
Definition add_punch (m : PunchMap) (punch : Punch.t) : PunchMap :=
  let date := split_T (Punch.timestamp punch) in
  let m1 := if pm_has date m then m else m ++ [(date, ([], []))] in
  pm_push date (Punch.type punch) (Punch.timestamp punch) m1.

(** The body of the loop over the map. *)
Definition toPair (e : string * (list string * list string)) : PunchPair.t :=
  let clockIn := or_null (head e.2.1) in
  let clockOut := or_null (last e.2.2) in
  let totalMs :=
    match clockIn, clockOut with
    | Some i, Some o => Date_getTime o - Date_getTime i
    | _, _ => 0
    end in
  PunchPair.mk e.1 clockIn clockOut totalMs.

(** [(a, b) => b.date.localeCompare(a.date)] puts [a] first when the
    result is not positive. *)
Definition date_desc (a b : PunchPair.t) : Prop :=
  localeCompare (PunchPair.date b) (PunchPair.date a) ≤ 0.

#[local] Instance date_desc_dec a b : Decision (date_desc a b) :=
  Z_le_dec _ _.

(** The pairing of a fetched sequence; [history.sort] is a merge sort. *)
Definition pairPunches (data : list Punch.t) : list PunchPair.t :=
  merge_sort date_desc (map toPair (foldl add_punch [] data)).

(** The loop that makes up a history in demo mode. *)
Fixpoint demoHistory (idx : list Z) (history : list PunchPair.t)
  : prog (list PunchPair.t) :=
  match idx with
  | [] => Ret history
  | i :: idx' =>
      t ← call DateNow;
      let date := Date_addDays t (- i) in
      if negb (Date_getDay date =? 0) && negb (Date_getDay date =? 6) then
        r1 ← call MathRandom;
        let clockIn := Date_setHours date 8 (Qfloor (r1 * 15)) 0 0 in
        r2 ← call MathRandom;
        let clockOut := Date_setHours date 16 (Qfloor (r2 * 45)) 0 0 in
        demoHistory idx'
          (history ++
             [PunchPair.mk (split_T (Date_toISOString date))
                (Some (Date_toISOString clockIn))
                (Some (Date_toISOString clockOut))
                (clockOut - clockIn)])
      else demoHistory idx' history
  end.

Definition getPunchHistory (workerId : string) (days : Z)
  : prog (result (list PunchPair.t)) :=
  t0 ← call DateNow;
  let startDate := Date_setHours (Date_addDays t0 (- days)) 0 0 0 0 in
  if DEMO_MODE then
    _ ← call (Delay 300);
    history ← demoHistory (seqZ 1 (Z.min days 7)) [];
    Ret (Ok history)
  else
    r ← call (SelectPunches workerId startDate);
    match r with
    | Error _ => Ret (Fail "Failed to load punch history.")
    | Data data => Ret (Ok (pairPunches data))
    end.

(** [startOfWeek] of [getWeeklyHours]. *)
Definition startOfWeek (now : Z) : Z :=
  let dayOfWeek := Date_getDay now in
  Date_setHours
    (Date_addDays now (- (if dayOfWeek =? 0 then 6 else dayOfWeek - 1)))
    0 0 0 0.

(** [new Date(punch.date) >= startOfWeek]. *)
Definition inWeek (start : Z) (punch : PunchPair.t) : bool :=
  Date_getTime (PunchPair.date punch) >=? start.

Definition hours (ms : Z) : Q := (inject_Z ms / 3600000)%Q.

(** The body of the loop over the history: [totalMs] and [dailyHours]. *)
Definition addDay (start : Z) (acc : Z * gmap string Q)
    (punch : PunchPair.t) : Z * gmap string Q :=
  if inWeek start punch then
    let dayName := weekdayShort (Date_getTime (PunchPair.date punch)) in
    (acc.1 + PunchPair.totalMs punch,
     <[dayName :=
         (default 0 (acc.2 !! dayName) + hours (PunchPair.totalMs punch))%Q]>
       acc.2)
  else acc.

Definition weekly (start : Z) (history : list PunchPair.t) : Weekly.t :=
  let acc := foldl (addDay start) (0, ∅) history in
  Weekly.mk acc.1 (hours acc.1) acc.2.

Definition getWeeklyHours (workerId : string) : prog Weekly.t :=
  now ← call DateNow;
  result ← getPunchHistory workerId 7;
  match result with
  | Fail _ => Ret (Weekly.mk 0 0 ∅)
  | Ok history => Ret (weekly (startOfWeek now) history)
  end.

End Supabase.


(* ================================================================== *)
(** * [timeoff.ts]                                                     *)
(* ================================================================== *)

Section TimeOffRequests.

(** [isDemoMode() || !supabase]: the client is [null] exactly in demo
    mode ([supabase-shared.ts]). *)
Variable DEMO_MODE : bool.

Definition createDemoRequest (workerId : string) (data : TimeOff.input)
  : prog TimeOff.t :=
  t ← call DateNow;
  t' ← call DateNow;
  Ret (TimeOff.mk ("demo-req-" +:+ pretty t) workerId None
         (TimeOff.in_type data) (TimeOff.in_start_date data)
         (TimeOff.in_end_date data) (TimeOff.in_paid_hours data)
         (TimeOff.in_unpaid_hours data) true true
         (or_null (TimeOff.in_comments data)) pending None None None None t').

(** The demo branch of [submitTimeOffRequest], repeated as its fallback:
    [DEMO_REQUESTS = [newRequest, ...DEMO_REQUESTS]]. *)
Definition addDemoRequest (workerId : string) (data : TimeOff.input)
  : prog (result TimeOff.t) :=
  newRequest ← createDemoRequest workerId data;
  rs ← call ReadDemoRequests;
  _ ← call (WriteDemoRequests (newRequest :: rs));
  Ret (Ok newRequest).

Definition submitTimeOffRequest (workerId : string) (data : TimeOff.input)
  : prog (result TimeOff.t) :=
  if DEMO_MODE then
    _ ← call (Delay 600);
    addDemoRequest workerId data
  else
    r ← call (InsertRequest workerId
                (TimeOff.mk_input (TimeOff.in_type data)
                   (TimeOff.in_start_date data) (TimeOff.in_end_date data)
                   (TimeOff.in_paid_hours data) (TimeOff.in_unpaid_hours data)
                   (or_null (TimeOff.in_comments data))));
    match r with
    | Error _ => addDemoRequest workerId data
    | Data d => Ret (Ok d)
    end.

(** The demo branch of [getMyTimeOffRequests], repeated as its fallback. *)
Definition demoRequestsOf (workerId : string) : prog (result (list TimeOff.t)) :=
  rs ← call ReadDemoRequests;
  Ret (Ok (filter (λ r, TimeOff.worker_id r = workerId) rs)).

Definition getMyTimeOffRequests (workerId : string)
  : prog (result (list TimeOff.t)) :=
  if DEMO_MODE then
    _ ← call (Delay 300);
    demoRequestsOf workerId
  else
    r ← call (SelectRequestsOf workerId);
    match r with
    | Error _ => demoRequestsOf workerId
    | Data rows =>
        Ret (Ok (map (λ '(r, reviewer),
                    TimeOff.with_names (TimeOff.worker_name r)
                      (or_null reviewer) r) rows))
    end.

(** The demo branch of [getAllPendingRequests], repeated as its fallback. *)
Definition demoPending : prog (result (list TimeOff.t)) :=
  rs ← call ReadDemoRequests;
  Ret (Ok (filter (λ r, TimeOff.status r = pending) rs)).

Definition getAllPendingRequests : prog (result (list TimeOff.t)) :=
  if DEMO_MODE then
    _ ← call (Delay 300);
    demoPending
  else
    r ← call SelectPendingRequests;
    match r with
    | Error _ => demoPending
    | Data rows =>
        Ret (Ok (map (λ '(r, worker),
                    TimeOff.with_names
                      (Some (default "Unknown" (or_null worker)))
                      (TimeOff.reviewer_name r) r) rows))
    end.

(** The demo branch of [getAllTimeOffRequests], repeated as its fallback. *)
Definition demoAll : prog (result (list TimeOff.t)) :=
  rs ← call ReadDemoRequests;
  Ret (Ok rs).

Definition getAllTimeOffRequests : prog (result (list TimeOff.t)) :=
  if DEMO_MODE then
    _ ← call (Delay 300);
    demoAll
  else
    r ← call SelectAllRequests;
    match r with
    | Error _ => demoAll
    | Data rows =>
        Ret (Ok (map (λ '(r, worker, reviewer),
                    TimeOff.with_names
                      (Some (default "Unknown" (or_null worker)))
                      (or_null reviewer) r) rows))
    end.

Definition updateDemoRequest (requestId : string) (u : TimeOff.updates)
  : prog unit :=
  rs ← call ReadDemoRequests;
  call (WriteDemoRequests
          (map (λ r, if decide (TimeOff.id r = requestId)
                     then TimeOff.apply u r else r) rs)).

Definition approveRequest (requestId managerId : string)
  : prog (result unit) :=
  t ← call DateNow;
  let updates := TimeOff.mk_updates approved managerId t None in
  if DEMO_MODE || startsWith "demo-" requestId then
    _ ← call (Delay 500);
    _ ← updateDemoRequest requestId updates;
    Ret (Ok ())
  else
    t' ← call DateNow;
    r ← call (UpdateRequest requestId
                (TimeOff.mk_updates approved managerId t' None));
    match r with
    | Error _ =>
        _ ← updateDemoRequest requestId updates;
        Ret (Ok ())
    | Data _ => Ret (Ok ())
    end.

Definition denyRequest (requestId managerId : string)
    (reason : option string) : prog (result unit) :=
  t ← call DateNow;
  let updates :=
    TimeOff.mk_updates denied managerId t (Some (or_null reason)) in
  if DEMO_MODE || startsWith "demo-" requestId then
    _ ← call (Delay 500);
    _ ← updateDemoRequest requestId updates;
    Ret (Ok ())
  else
    t' ← call DateNow;
    r ← call (UpdateRequest requestId
                (TimeOff.mk_updates denied managerId t' (Some (or_null reason))));
    match r with
    | Error _ =>
        _ ← updateDemoRequest requestId updates;
        Ret (Ok ())
    | Data _ => Ret (Ok ())
    end.

(** The two reviews differ in the status and in the [denial_reason] key
    only; [review] is their common shape. *)
Definition review (st : RequestStatus) (reason : option (option string))
    (requestId managerId : string) : prog (result unit) :=
  t ← call DateNow;
  let updates := TimeOff.mk_updates st managerId t reason in
  if DEMO_MODE || startsWith "demo-" requestId then
    _ ← call (Delay 500);
    _ ← updateDemoRequest requestId updates;
    Ret (Ok ())
  else
    t' ← call DateNow;
    r ← call (UpdateRequest requestId
                (TimeOff.mk_updates st managerId t' reason));
    match r with
    | Error _ =>
        _ ← updateDemoRequest requestId updates;
        Ret (Ok ())
    | Data _ => Ret (Ok ())
    end.

End TimeOffRequests.


(* ================================================================== *)
(** * The world the calls act on                                       *)
(* ================================================================== *)

(** The clock, the random source, the demo tables of the two modules and
    the tables of the hosted store ([reset.sql], migration 001). *)
Record World := mkWorld {
  clock : Z;
  randoms : list Q;
  DEMO_WORKERS : list DemoWorker.t;
  demoState : gmap string DemoClock.t;
  demoVerificationCodes : gmap string (string * Z);
  DEMO_REQUESTS : list TimeOff.t;
  (** whether the hosted store answers; when it does not, every query
      resolves to an error *)
  store_up : bool;
  (** source of the identifiers [uuid_generate_v4()] gives to new rows *)
  next_id : nat;
  workers : list Worker.t;
  punches : list Punch.t;
  verification_codes : list Code.t;
  time_off_requests : list TimeOff.t }.

Definition set_clock (t : Z) (w : World) : World :=
  mkWorld t (randoms w) (DEMO_WORKERS w) (demoState w)
    (demoVerificationCodes w) (DEMO_REQUESTS w) (store_up w) (next_id w)
    (workers w) (punches w) (verification_codes w) (time_off_requests w).

Definition set_randoms (qs : list Q) (w : World) : World :=
  mkWorld (clock w) qs (DEMO_WORKERS w) (demoState w)
    (demoVerificationCodes w) (DEMO_REQUESTS w) (store_up w) (next_id w)
    (workers w) (punches w) (verification_codes w) (time_off_requests w).

Definition set_DEMO_WORKERS (ws : list DemoWorker.t) (w : World) : World :=
  mkWorld (clock w) (randoms w) ws (demoState w)
    (demoVerificationCodes w) (DEMO_REQUESTS w) (store_up w) (next_id w)
    (workers w) (punches w) (verification_codes w) (time_off_requests w).

Definition set_demoState (m : gmap string DemoClock.t) (w : World) : World :=
  mkWorld (clock w) (randoms w) (DEMO_WORKERS w) m
    (demoVerificationCodes w) (DEMO_REQUESTS w) (store_up w) (next_id w)
    (workers w) (punches w) (verification_codes w) (time_off_requests w).

Definition set_demoVerificationCodes (m : gmap string (string * Z))
    (w : World) : World :=
  mkWorld (clock w) (randoms w) (DEMO_WORKERS w) (demoState w)
    m (DEMO_REQUESTS w) (store_up w) (next_id w)
    (workers w) (punches w) (verification_codes w) (time_off_requests w).

Definition set_DEMO_REQUESTS (rs : list TimeOff.t) (w : World) : World :=
  mkWorld (clock w) (randoms w) (DEMO_WORKERS w) (demoState w)
    (demoVerificationCodes w) rs (store_up w) (next_id w)
    (workers w) (punches w) (verification_codes w) (time_off_requests w).

(** A row was inserted: the table changes and an identifier is used up. *)
Definition add_worker (r : Worker.t) (w : World) : World :=
  mkWorld (clock w) (randoms w) (DEMO_WORKERS w) (demoState w)
    (demoVerificationCodes w) (DEMO_REQUESTS w) (store_up w) (S (next_id w))
    (workers w ++ [r]) (punches w) (verification_codes w) (time_off_requests w).

Definition add_punch_row (r : Punch.t) (w : World) : World :=
  mkWorld (clock w) (randoms w) (DEMO_WORKERS w) (demoState w)
    (demoVerificationCodes w) (DEMO_REQUESTS w) (store_up w) (S (next_id w))
    (workers w) (punches w ++ [r]) (verification_codes w) (time_off_requests w).

Definition add_code (r : Code.t) (w : World) : World :=
  mkWorld (clock w) (randoms w) (DEMO_WORKERS w) (demoState w)
    (demoVerificationCodes w) (DEMO_REQUESTS w) (store_up w) (S (next_id w))
    (workers w) (punches w) (verification_codes w ++ [r]) (time_off_requests w).

Definition add_request (r : TimeOff.t) (w : World) : World :=
  mkWorld (clock w) (randoms w) (DEMO_WORKERS w) (demoState w)
    (demoVerificationCodes w) (DEMO_REQUESTS w) (store_up w) (S (next_id w))
    (workers w) (punches w) (verification_codes w) (time_off_requests w ++ [r]).

Definition set_verification_codes (cs : list Code.t) (w : World) : World :=
  mkWorld (clock w) (randoms w) (DEMO_WORKERS w) (demoState w)
    (demoVerificationCodes w) (DEMO_REQUESTS w) (store_up w) (next_id w)
    (workers w) (punches w) cs (time_off_requests w).

Definition set_time_off_requests (rs : list TimeOff.t) (w : World) : World :=
  mkWorld (clock w) (randoms w) (DEMO_WORKERS w) (demoState w)
    (demoVerificationCodes w) (DEMO_REQUESTS w) (store_up w) (next_id w)
    (workers w) (punches w) (verification_codes w) rs.


Section Store.
Context {rt : JsRuntime} {pg : Postgres}.

(** The identifier of the [n]-th inserted row.  It stands for a UUID: all
    that matters is that it never starts with ["demo-"] and is new. *)
Definition fresh_id (n : nat) : string := "uuid-" +:+ pretty n.

Definition connection_failure : string := "08006".
Definition unique_violation : string := "23505".
Definition foreign_key_violation : string := "23503".
Definition string_too_long : string := "22001".
Definition not_a_single_row : string := "PGRST116".

(** A query of a store that does not answer resolves to an error. *)
Definition query {A : Type} (w : World) (answer : Response A * World)
  : Response A * World :=
  if store_up w then answer else (Error connection_failure, w).

Definition has_worker (workerId : string) (w : World) : bool :=
  existsb (λ r, bool_decide (Worker.id r = workerId)) (workers w).

(** The embedded [workers(full_name)] of a foreign key. *)
Definition joined_name (workerId : option string) (w : World) : option string :=
  match workerId with
  | Some i =>
      Worker.full_name <$>
        List.find (λ r, bool_decide (Worker.id r = i)) (workers w)
  | None => None
  end.

(** [.single()]: exactly one row, or an error. *)
Definition single {A : Type} (rows : list A) : Response A :=
  match rows with
  | [r] => Data r
  | _ => Error not_a_single_row
  end.

(** [.eq("pin", pin).eq("is_active", true).single()] *)
Definition selectWorkerByPin (pin : string) (w : World)
  : Response WorkerInfo.t :=
  match single (filter (λ r, Worker.pin r = pin ∧ Worker.is_active r = true)
                  (workers w)) with
  | Data r => Data (Worker.info r)
  | Error c => Error c
  end.

(** [pin CHAR(6) NOT NULL UNIQUE], [full_name VARCHAR(100)],
    [role VARCHAR(50)], [is_active] defaults to true. *)
Definition insertWorker (pin full_name role : string) (w : World)
  : Response Worker.t * World :=
  if negb ((String.length pin <=? 6)%nat && (String.length full_name <=? 100)%nat
           && (String.length role <=? 50)%nat)
  then (Error string_too_long, w)
  else if existsb (λ r, bool_decide (Worker.pin r = pin)) (workers w)
  then (Error unique_violation, w)
  else
    let row := Worker.mk (fresh_id (next_id w)) pin full_name role true in
    (Data row, add_worker row w).

(** [worker_id] references [workers(id)]; [timestamp] defaults to NOW():
    the store stamps the row, not the client. *)
Definition insertPunch (workerId : string) (ty : PunchType) (w : World)
  : Response Punch.t * World :=
  if has_worker workerId w then
    let row := Punch.mk (fresh_id (next_id w)) workerId ty
                 (store_now (clock w)) in
    (Data row, add_punch_row row w)
  else (Error foreign_key_violation, w).

Definition earlier (a b : Punch.t) : Prop :=
  Date_getTime (Punch.timestamp a) ≤ Date_getTime (Punch.timestamp b).
#[local] Instance earlier_dec a b : Decision (earlier a b) := Z_le_dec _ _.

(** [.eq("worker_id", id).gte("timestamp", since).order("timestamp")] *)
Definition selectPunches (workerId : string) (since : Z) (w : World)
  : Response (list Punch.t) :=
  Data (merge_sort earlier
          (filter (λ p, Punch.worker_id p = workerId
                        ∧ since ≤ Date_getTime (Punch.timestamp p))
             (punches w))).

(** [code CHAR(6)], [worker_id] references [workers(id)]. *)
Definition insertCode (workerId code : string) (expires_at : Z) (w : World)
  : Response unit * World :=
  if negb (String.length code <=? 6)%nat then (Error string_too_long, w)
  else if has_worker workerId w then
    (Data (), add_code (Code.mk (fresh_id (next_id w)) workerId code
                          expires_at None (clock w)) w)
  else (Error foreign_key_violation, w).

Definition newer_code (a b : Code.t) : Prop :=
  Code.created_at b ≤ Code.created_at a.
#[local] Instance newer_code_dec a b : Decision (newer_code a b) :=
  Z_le_dec _ _.

(** [.eq("worker_id", id).eq("code", code).is("used_at", null)
     .order("created_at", { ascending: false }).limit(1).single()] *)
Definition selectCode (workerId code : string) (w : World) : Response Code.t :=
  single (take 1
    (merge_sort newer_code
       (filter (λ c, Code.worker_id c = workerId ∧ Code.code c = code
                     ∧ Code.used_at c = None)
          (verification_codes w)))).

(** [.update({ used_at }).eq("id", id)] *)
Definition markCodeUsed (id : string) (used_at : Z) (w : World) : World :=
  set_verification_codes
    (map (λ c, if decide (Code.id c = id)
               then Code.mk (Code.id c) (Code.worker_id c) (Code.code c)
                      (Code.expires_at c) (Some used_at) (Code.created_at c)
               else c)
       (verification_codes w)) w.

(** [DECIMAL(5,2)]: the number rounded to two decimals, a half away from
    zero; it is refused when the rounded number needs more than three digits
    before the point. *)
Definition round_half_away (q : Q) : Z :=
  if Qle_bool 0 q then Qfloor (q + (1 # 2)) else Qceiling (q - (1 # 2)).

Definition decimal_5_2 (q : Q) : option Q :=
  let cents := round_half_away (q * 100) in
  if Z.abs cents <? 100000 then Some (Qred (cents # 100)) else None.

Definition invalid_datetime_format : string := "22007".
Definition numeric_value_out_of_range : string := "22003".

(** [worker_id] references [workers(id)]; [start_date] and [end_date] are
    [DATE], [paid_hours] and [unpaid_hours] are [DECIMAL(5,2)]: the row holds
    what the columns make of the values, or the insert is refused.  The
    defaults of the table: excused, planned, pending, created NOW(). *)
Definition insertRequest (workerId : string) (d : TimeOff.input) (w : World)
  : Response TimeOff.t * World :=
  match date_in (TimeOff.in_start_date d), date_in (TimeOff.in_end_date d) with
  | Some start_date, Some end_date =>
      match decimal_5_2 (TimeOff.in_paid_hours d),
            decimal_5_2 (TimeOff.in_unpaid_hours d) with
      | Some paid_hours, Some unpaid_hours =>
          if has_worker workerId w then
            let row :=
              TimeOff.mk (fresh_id (next_id w)) workerId None (TimeOff.in_type d)
                start_date end_date paid_hours unpaid_hours true true
                (TimeOff.in_comments d) pending None None None None (clock w) in
            (Data row, add_request row w)
          else (Error foreign_key_violation, w)
      | _, _ => (Error numeric_value_out_of_range, w)
      end
  | _, _ => (Error invalid_datetime_format, w)
  end.

Definition older (a b : TimeOff.t) : Prop :=
  TimeOff.created_at a ≤ TimeOff.created_at b.
#[local] Instance older_dec a b : Decision (older a b) := Z_le_dec _ _.

Definition newer (a b : TimeOff.t) : Prop :=
  TimeOff.created_at b ≤ TimeOff.created_at a.
#[local] Instance newer_dec a b : Decision (newer a b) := Z_le_dec _ _.

(** [.eq("worker_id", id).order("created_at", { ascending: false })] *)
Definition selectRequestsOf (workerId : string) (w : World)
  : list (TimeOff.t * option string) :=
  map (λ r, (r, joined_name (TimeOff.reviewed_by r) w))
    (merge_sort newer
       (filter (λ r, TimeOff.worker_id r = workerId) (time_off_requests w))).

(** [.eq("status", "pending").order("created_at", { ascending: true })] *)
Definition selectPendingRequests (w : World)
  : list (TimeOff.t * option string) :=
  map (λ r, (r, joined_name (Some (TimeOff.worker_id r)) w))
    (merge_sort older
       (filter (λ r, TimeOff.status r = pending) (time_off_requests w))).

(** [.order("created_at", { ascending: false }).limit(50)] *)
Definition selectAllRequests (w : World)
  : list (TimeOff.t * option string * option string) :=
  map (λ r, (r, joined_name (Some (TimeOff.worker_id r)) w,
             joined_name (TimeOff.reviewed_by r) w))
    (take 50 (merge_sort newer (time_off_requests w))).

(** [.update({ ... }).eq("id", id)]; [reviewed_by] references
    [workers(id)], which is checked when a row is written. *)
Definition updateRequest (id : string) (u : TimeOff.updates) (w : World)
  : Response unit * World :=
  if negb (existsb (λ r, bool_decide (TimeOff.id r = id)) (time_off_requests w))
  then (Data (), w)
  else if has_worker (TimeOff.u_reviewed_by u) w then
    (Data (),
     set_time_off_requests
       (map (λ r, if decide (TimeOff.id r = id) then TimeOff.apply u r else r)
          (time_off_requests w)) w)
  else (Error foreign_key_violation, w).


(** What each call answers and how it changes the world. *)
Definition handle {X : Type} (e : storeE X) (w : World) : X * World :=
  match e in storeE X return X * World with
  | Delay ms => ((), set_clock (clock w + ms) w)
  | DateNow => (clock w, w)
  | MathRandom =>
      match randoms w with
      | [] => (0%Q, w)
      | q :: qs => (q, set_randoms qs w)
      end
  | ReadDemoWorkers => (DEMO_WORKERS w, w)
  | WriteDemoWorkers ws => ((), set_DEMO_WORKERS ws w)
  | WriteDemoState workerId s =>
      ((), set_demoState (<[workerId := s]> (demoState w)) w)
  | ReadDemoCode workerId => (demoVerificationCodes w !! workerId, w)
  | WriteDemoCode workerId c =>
      ((), set_demoVerificationCodes
             (<[workerId := c]> (demoVerificationCodes w)) w)
  | DeleteDemoCode workerId =>
      ((), set_demoVerificationCodes
             (delete workerId (demoVerificationCodes w)) w)
  | ReadDemoRequests => (DEMO_REQUESTS w, w)
  | WriteDemoRequests rs => ((), set_DEMO_REQUESTS rs w)
  | SelectWorkerByPin pin => query w (selectWorkerByPin pin w, w)
  | InsertWorker pin full_name role => query w (insertWorker pin full_name role w)
  | InsertPunch workerId ty => query w (insertPunch workerId ty w)
  | SelectPunches workerId since => query w (selectPunches workerId since w, w)
  | InsertCode workerId code expires_at =>
      query w (insertCode workerId code expires_at w)
  | SelectCode workerId code => query w (selectCode workerId code w, w)
  | MarkCodeUsed id used_at => query w (Data (), markCodeUsed id used_at w)
  | InsertRequest workerId d => query w (insertRequest workerId d w)
  | SelectRequestsOf workerId => query w (Data (selectRequestsOf workerId w), w)
  | SelectPendingRequests => query w (Data (selectPendingRequests w), w)
  | SelectAllRequests => query w (Data (selectAllRequests w), w)
  | UpdateRequest id u => query w (updateRequest id u w)
  end.

(** Running a program: its value and the world it leaves. *)
Fixpoint run {R : Type} (p : prog R) (w : World) : R * World :=
  match p with
  | Ret r => (r, w)
  | Vis e k => let '(x, w') := handle e w in run (k x) w'
  end.

End Store.

(** The runtime used on examples: ISO timestamps, a fixed offset [tz] from
    UTC, code-unit collation. *)
Definition iso_runtime (tz : Z) : JsRuntime :=
  {| Date_getTime := Iso.getTime tz;
     Date_toISOString := Iso.toISOString;
     tzOffsetMs := tz;
     localeCompare := Iso.compare |}.

(** The store used on examples: its clock is the client's, it writes
    timestamps in UTC and reads the dates written ["YYYY-MM-DD"]. *)
Definition iso_store : Postgres :=
  {| store_now := Iso.timestamptz;
     date_in := Iso.date_in |}.

(* ================================================================== *)
(** * Vocabulary of the properties                                     *)
(* ================================================================== *)

(** The identity the admin PIN gives. *)
Definition admin : AuthOk :=
  mkAuthOk (WorkerInfo.mk "admin" "Administrator" "admin") true.



(** The rows [verifyCode] can match in live mode: the worker's unused rows
    holding the submitted code. *)
Definition matches (workerId code : string) (c : Code.t) : Prop :=
  Code.worker_id c = workerId ∧ Code.code c = code ∧ Code.used_at c = None.

(** The operations of the time-off workflow, and what may happen around
    them: the store going down or coming back, time passing. *)
Inductive op :=
| Submit (workerId : string) (data : TimeOff.input)
| Approve (requestId managerId : string)
| Deny (requestId managerId : string) (reason : option string)
| Outage (up : bool)
| Wait (ms : Z).

Definition set_store_up (b : bool) (w : World) : World :=
  mkWorld (clock w) (randoms w) (DEMO_WORKERS w) (demoState w)
    (demoVerificationCodes w) (DEMO_REQUESTS w) b (next_id w)
    (workers w) (punches w) (verification_codes w) (time_off_requests w).

Section Workflow.
Context {rt : JsRuntime} {pg : Postgres}.
Variable DEMO_MODE : bool.

Definition step (w : World) (o : op) : World :=
  match o with
  | Submit workerId data =>
      (run (submitTimeOffRequest DEMO_MODE workerId data) w).2
  | Approve requestId managerId =>
      (run (approveRequest DEMO_MODE requestId managerId) w).2
  | Deny requestId managerId reason =>
      (run (denyRequest DEMO_MODE requestId managerId reason) w).2
  | Outage up => set_store_up up w
  | Wait ms => set_clock (clock w + ms) w
  end.

Definition exec (ops : list op) (w : World) : World := foldl step w ops.

End Workflow.

(** The demo requests, oldest first ([DEMO_REQUESTS] grows at its head). *)
Definition demo_requests (w : World) : list TimeOff.t := rev (DEMO_REQUESTS w).

(** [r'] is the request [r] at a later time: what a review never touches. *)
Definition same_request (r r' : TimeOff.t) : Prop :=
  TimeOff.id r' = TimeOff.id r ∧ TimeOff.worker_id r' = TimeOff.worker_id r
  ∧ TimeOff.type r' = TimeOff.type r
  ∧ TimeOff.start_date r' = TimeOff.start_date r
  ∧ TimeOff.end_date r' = TimeOff.end_date r
  ∧ TimeOff.created_at r' = TimeOff.created_at r.

Definition reviewed (r : TimeOff.t) : Prop := TimeOff.status r ≠ pending.

(** Every request of [l] is still in [l'], at its place, and is still
    reviewed if it was. *)
Definition keeps (l l' : list TimeOff.t) : Prop :=
  ∀ (k : nat) (r : TimeOff.t), l !! k = Some r →
    ∃ r', l' !! k = Some r' ∧ same_request r r' ∧ (reviewed r → reviewed r').

(** The claim that a reviewed request keeps its status for ever (demo
    mode, requests taken at their place in the demo table). *)
Definition terminal_is_final `{rt : JsRuntime} `{pg : Postgres} : Prop :=
  ∀ (ops : list op) (w : World) (k : nat) (r r' : TimeOff.t),
    demo_requests w !! k = Some r → reviewed r →
    demo_requests (exec true ops w) !! k = Some r' →
    TimeOff.status r' = TimeOff.status r.

Section Vocabulary.
Context {rt : JsRuntime} {pg : Postgres}.

Definition result_map {A B : Type} (f : A → B) (r : result A) : result B :=
  match r with Ok a => Ok (f a) | Fail e => Fail e end.

(** [{ ...r, ...updates }] on the request with the given id. *)
Definition review_one (requestId : string) (u : TimeOff.updates) (r : TimeOff.t)
  : TimeOff.t :=
  if decide (TimeOff.id r = requestId) then TimeOff.apply u r else r.

(** The request [createDemoRequest] builds at time [t]. *)
Definition demo_request (workerId : string) (data : TimeOff.input) (t : Z)
  : TimeOff.t :=
  TimeOff.mk ("demo-req-" +:+ pretty t) workerId None
    (TimeOff.in_type data) (TimeOff.in_start_date data)
    (TimeOff.in_end_date data) (TimeOff.in_paid_hours data)
    (TimeOff.in_unpaid_hours data) true true
    (or_null (TimeOff.in_comments data)) pending None None None None t.

(** The row the store makes of a submission, when it takes it: the store
    answers, the worker is a row of [workers], the dates are dates and the
    hours fit their columns. *)
Definition accepted (workerId : string) (data : TimeOff.input) (w : World)
  : option TimeOff.t :=
  if store_up w && has_worker workerId w then
    start_date ← date_in (TimeOff.in_start_date data);
    end_date ← date_in (TimeOff.in_end_date data);
    paid_hours ← decimal_5_2 (TimeOff.in_paid_hours data);
    unpaid_hours ← decimal_5_2 (TimeOff.in_unpaid_hours data);
    Some (TimeOff.mk (fresh_id (next_id w)) workerId None (TimeOff.in_type data)
            start_date end_date paid_hours unpaid_hours true true
            (or_null (TimeOff.in_comments data)) pending None None None None
            (clock w))
  else None.

(** The names a listing joins to a row. *)
Definition named_pending (w : World) (r : TimeOff.t) : TimeOff.t :=
  TimeOff.with_names
    (Some (default "Unknown"
             (or_null (joined_name (Some (TimeOff.worker_id r)) w))))
    (TimeOff.reviewer_name r) r.

Definition named_all (w : World) (r : TimeOff.t) : TimeOff.t :=
  TimeOff.with_names
    (Some (default "Unknown"
             (or_null (joined_name (Some (TimeOff.worker_id r)) w))))
    (or_null (joined_name (TimeOff.reviewed_by r) w)) r.

Definition named_mine (w : World) (r : TimeOff.t) : TimeOff.t :=
  TimeOff.with_names (TimeOff.worker_name r)
    (or_null (joined_name (TimeOff.reviewed_by r) w)) r.


(** A store with one worker and one manager, in demo and in live mode. *)
Definition office : World :=
  mkWorld 1705510800000 []
    [DemoWorker.mk "demo-1" "123456" "John Smith" "worker";
     DemoWorker.mk "demo-3" "345678" "James Wilson" "supervisor"] ∅ ∅ []
    true 2
    [Worker.mk "uuid-0" "123456" "John Smith" "worker" true;
     Worker.mk "uuid-1" "345678" "James Wilson" "manager" true] [] [] [].

Definition a_week_off : TimeOff.input :=
  TimeOff.mk_input vacation "2024-07-01" "2024-07-05" 40 0 None.

(** The calendar date of a punch: the date segment of its timestamp. *)
Definition dateOf (p : Punch.t) : string := split_T (Punch.timestamp p).

(** The timestamps of the punches of type [ty] on date [d], in the order of
    the sequence. *)
Definition stamps (ty : PunchType) (d : string) (data : list Punch.t)
  : list string :=
  map Punch.timestamp (filter (λ p, dateOf p = d ∧ Punch.type p = ty) data).

(** What the map holds once the punches [data] have gone through the loop. *)
Definition pairs_of (data : list Punch.t) (m : PunchMap) : Prop :=
  NoDup (map fst m)
  ∧ (∀ d, d ∈ map fst m ↔ ∃ p, p ∈ data ∧ dateOf p = d)
  ∧ (∀ e, e ∈ m → e.2 = (stamps IN e.1 data, stamps OUT e.1 data)).

(** The pairs the loop keeps, in the order of the history. *)
Definition kept (start : Z) (history : list PunchPair.t) : list PunchPair.t :=
  filter (λ p, inWeek start p = true) history.

Definition dayName (p : PunchPair.t) : string :=
  weekdayShort (Date_getTime (PunchPair.date p)).

Definition sum_ms (l : list PunchPair.t) : Z :=
  foldl (λ t p, t + PunchPair.totalMs p) 0 l.

(** The hours of the pairs filed under [name], added up in their order. *)
Definition day_hours (name : string) (l : list PunchPair.t) : option Q :=
  match filter (λ p, dayName p = name) l with
  | [] => None
  | ps => Some (foldl (λ q p, (q + hours (PunchPair.totalMs p))%Q) 0%Q ps)
  end.

(** A worker five hours west of Greenwich who worked Monday 15, Tuesday 16
    and Wednesday 17 January 2024, 09:00 to 17:00 local time on the first two
    days; the dashboard is opened on Wednesday at noon. *)
Definition new_york : JsRuntime := iso_runtime (-18000000).

Definition wednesday_noon : Z := 1705510800000.

Definition this_week : World :=
  mkWorld wednesday_noon [] [] ∅ ∅ [] true 7
    [Worker.mk "uuid-0" "123456" "John Smith" "worker" true]
    [Punch.mk "uuid-1" "uuid-0" IN "2024-01-15T14:00:00+00:00";
     Punch.mk "uuid-2" "uuid-0" OUT "2024-01-15T22:00:00+00:00";
     Punch.mk "uuid-3" "uuid-0" IN "2024-01-16T14:00:00+00:00";
     Punch.mk "uuid-4" "uuid-0" OUT "2024-01-16T22:00:00+00:00";
     Punch.mk "uuid-5" "uuid-0" IN "2024-01-17T14:00:00+00:00";
     Punch.mk "uuid-6" "uuid-0" OUT "2024-01-17T16:30:00+00:00"] [] [].

End Vocabulary.

(* ================================================================== *)
(** * More of [supabase.ts]: status, clock-in, production, dashboard    *)
(* ================================================================== *)

(** [type ProductionEntry]; a quantity is a [number]. *)
Module ProductionEntry.
Record t := mk { taskName : string; quantity : Q }.
End ProductionEntry.

#[global] Instance Qlt_decision (x y : Q) : Decision (x < y)%Q :=
  match Qlt_le_dec x y with
  | left H => left H
  | right H => right (Qle_not_lt _ _ H)
  end.

(** A row of table [production_logs], and what the demo branch returns. *)
Module ProductionLog.
Record t := mk {
  id : string; worker_id : string; task_name : string; quantity : Q;
  timestamp : string }.
End ProductionLog.

(** [{ isClockedIn, clockInTime, lastPunch }] of [getWorkerStatus];
    [lastPunch] is the selected [{ type, timestamp }]. *)
Module Status.
Record t := mk {
  isClockedIn : bool;
  clockInTime : option string;
  lastPunch : option (PunchType * string) }.
End Status.

(** [{ id, full_name, role, email }] of [authenticateWorkerForDashboard]. *)
Module DashboardWorker.
Record t := mk { info : WorkerInfo.t; email : string }.
End DashboardWorker.

Definition clock_in_failed : string := "Failed to clock in. Please try again.".
Definition no_tasks : string := "No tasks to log. Please add quantities.".
Definition log_failed : string := "Failed to log production. Please try again.".
Definition no_email : string :=
  "No email registered. Please contact your manager.".

(** The calls of these functions: those already described, and the reads
    and queries only they make. *)
Inductive kioskE : Type → Type :=
| Core {X : Type} (e : storeE X) : kioskE X
| ReadDemoState (workerId : string) : kioskE (option DemoClock.t)
| ReadDemoEmail (workerId : string) : kioskE (option string)
(* punches: .select("type, timestamp").eq("worker_id", id)
            .order("timestamp", { ascending: false }).limit(1).single() *)
| SelectLastPunch (workerId : string) : kioskE (Response (PunchType * string))
(* production_logs: .insert(rows).select(), rows of (worker, task, quantity) *)
| InsertProductionLogs (rows : list (string * string * Q))
  : kioskE (Response (list ProductionLog.t))
(* workers: .select("id, full_name, role, email").eq("pin", pin)
            .eq("is_active", true).single() *)
| SelectWorkerWithEmail (pin : string)
  : kioskE (Response (WorkerInfo.t * option string)).

Inductive kprog (R : Type) : Type :=
| KRet (r : R)
| KVis {X : Type} (e : kioskE X) (k : X → kprog R).
Arguments KRet {R} r.
Arguments KVis {R X} e k.

Fixpoint kbind {A B : Type} (m : kprog A) (f : A → kprog B) : kprog B :=
  match m with
  | KRet a => f a
  | KVis e k => KVis e (λ x, kbind (k x) f)
  end.

Definition kcall {X : Type} (e : kioskE X) : kprog X := KVis e KRet.

#[global] Instance kprog_ret : MRet kprog := @KRet.
#[global] Instance kprog_bind : MBind kprog := λ A B f m, kbind m f.

(** A program of the first kind, as one of the second. *)
Fixpoint lift {R : Type} (p : prog R) : kprog R :=
  match p with
  | Ret r => KRet r
  | Vis e k => KVis (Core e) (λ x, lift (k x))
  end.

Section Kiosk.
Context {rt : JsRuntime} {pg : Postgres}.
Variable DEMO_MODE : bool.

Definition getWorkerStatus (workerId : string) : kprog Status.t :=
  if DEMO_MODE then
    _ ← kcall (Core (Delay 200));
    state ← kcall (ReadDemoState workerId);
    KRet (Status.mk
            (match state with
             | Some s => DemoClock.isClockedIn s
             | None => false
             end)
            (match state with
             | Some s => DemoClock.clockInTime s
             | None => None
             end)
            None)
  else
    r ← kcall (SelectLastPunch workerId);
    match r with
    | Error _ => KRet (Status.mk false None None)
    | Data d =>
        let clockInTime :=
          if decide (d.1 = IN) then Some d.2 else None in
        KRet (Status.mk (bool_decide (d.1 = IN)) clockInTime (Some d))
    end.

Definition clockIn (workerId : string) : prog (result Punch.t) :=
  t ← call DateNow;
  let clockInTime := Date_toISOString t in
  if DEMO_MODE then
    _ ← call (Delay 600);
    _ ← call (WriteDemoState workerId (DemoClock.mk true (Some clockInTime)));
    Ret (Ok (Punch.mk "demo-punch" workerId IN clockInTime))
  else
    r ← call (InsertPunch workerId IN);
    match r with
    | Error _ => Ret (Fail clock_in_failed)
    | Data d => Ret (Ok d)
    end.

(** [validEntries.map((e, i) => ({ id: `demo-log-${i}`, ...,
    timestamp: new Date().toISOString() }))] from index [i] on. *)
Fixpoint demoLogs (workerId : string) (i : nat)
    (entries : list ProductionEntry.t) : kprog (list ProductionLog.t) :=
  match entries with
  | [] => KRet []
  | e :: es =>
      t ← kcall (Core DateNow);
      logs ← demoLogs workerId (S i) es;
      KRet (ProductionLog.mk ("demo-log-" +:+ pretty i) workerId
              (ProductionEntry.taskName e) (ProductionEntry.quantity e)
              (Date_toISOString t) :: logs)
  end.

Definition validEntries (entries : list ProductionEntry.t)
  : list ProductionEntry.t :=
  filter (λ e, (0 < ProductionEntry.quantity e)%Q) entries.

Definition logProduction (workerId : string) (entries : list ProductionEntry.t)
  : kprog (result (list ProductionLog.t)) :=
  if (length (validEntries entries) =? 0)%nat then KRet (Fail no_tasks)
  else if DEMO_MODE then
    _ ← kcall (Core (Delay 800));
    logs ← demoLogs workerId 0 (validEntries entries);
    KRet (Ok logs)
  else
    r ← kcall (InsertProductionLogs
                 (map (λ entry, (workerId, ProductionEntry.taskName entry,
                                 ProductionEntry.quantity entry))
                    (validEntries entries)));
    match r with
    | Error _ => KRet (Fail log_failed)
    | Data d => KRet (Ok d)
    end.

Definition authenticateWorkerForDashboard (pin : string)
  : kprog (result DashboardWorker.t) :=
  if DEMO_MODE then
    _ ← kcall (Core (Delay 500));
    ws ← kcall (Core ReadDemoWorkers);
    match List.find (λ w, bool_decide (DemoWorker.pin w = pin)) ws with
    | None => KRet (Fail invalid_pin)
    | Some worker =>
        e ← kcall (ReadDemoEmail (DemoWorker.id worker));
        let email := default "test@example.com" (or_null e) in
        KRet (Ok (DashboardWorker.mk (DemoWorker.info worker) email))
    end
  else
    r ← kcall (SelectWorkerWithEmail pin);
    match r with
    | Error _ => KRet (Fail invalid_pin)
    | Data d =>
        match or_null d.2 with
        | None => KRet (Fail no_email)
        | Some email => KRet (Ok (DashboardWorker.mk d.1 email))
        end
    end.

End Kiosk.


(** The world of these functions: the one already described, the demo
    e-mail table, and of the hosted store the [email] column of [workers]
    (by row id, absent when null) and table [production_logs]. *)
Record Site := mkSite {
  core : World;
  DEMO_EMAILS : gmap string string;
  worker_emails : gmap string string;
  production_logs : list ProductionLog.t }.

Definition set_core (w : World) (s : Site) : Site :=
  mkSite w (DEMO_EMAILS s) (worker_emails s) (production_logs s).

Definition set_next_id (n : nat) (w : World) : World :=
  mkWorld (clock w) (randoms w) (DEMO_WORKERS w) (demoState w)
    (demoVerificationCodes w) (DEMO_REQUESTS w) (store_up w) n
    (workers w) (punches w) (verification_codes w) (time_off_requests w).

Section KioskStore.
Context {rt : JsRuntime} {pg : Postgres}.

Definition check_violation : string := "23514".

Definition later (a b : Punch.t) : Prop :=
  Date_getTime (Punch.timestamp b) ≤ Date_getTime (Punch.timestamp a).
#[local] Instance later_dec a b : Decision (later a b) := Z_le_dec _ _.

(** The worker's punches, most recent first. *)
Definition punchesOf (workerId : string) (w : World) : list Punch.t :=
  merge_sort later (filter (λ p, Punch.worker_id p = workerId) (punches w)).

Definition selectLastPunch (workerId : string) (w : World)
  : Response (PunchType * string) :=
  match single (take 1 (punchesOf workerId w)) with
  | Data p => Data (Punch.type p, Punch.timestamp p)
  | Error c => Error c
  end.

(** [INTEGER]: a whole number from -2^31 to 2^31 - 1; any other number is
    refused. *)
Definition integer (q : Q) : option Z :=
  let n := Qfloor q in
  if Qeq_bool q (inject_Z n) && (-2147483648 <=? n) && (n <=? 2147483647)
  then Some n else None.

(** [worker_id] references [workers(id)], [task_name VARCHAR(50)],
    [quantity INTEGER NOT NULL CHECK (quantity > 0)]. *)
Definition log_row_ok (w : World) (row : string * string * Q) : bool :=
  has_worker row.1.1 w && (String.length row.1.2 <=? 50)%nat
  && match integer row.2 with Some n => 0 <? n | None => false end.

(** The rows as stored: identifiers in order, the quantity as the column
    holds it, [timestamp] NOW(). *)
Fixpoint logRows (n : nat) (t : string) (rows : list (string * string * Q))
  : list ProductionLog.t :=
  match rows with
  | [] => []
  | row :: rows' =>
      ProductionLog.mk (fresh_id n) row.1.1 row.1.2
        (inject_Z (default 0 (integer row.2))) t
        :: logRows (S n) t rows'
  end.

(** One statement: all the rows are inserted, or none. *)
Definition insertProductionLogs (rows : list (string * string * Q)) (s : Site)
  : Response (list ProductionLog.t) * Site :=
  if forallb (log_row_ok (core s)) rows then
    let new := logRows (next_id (core s)) (store_now (clock (core s))) rows in
    (Data new,
     mkSite (set_next_id (next_id (core s) + length rows)%nat (core s))
       (DEMO_EMAILS s) (worker_emails s) (production_logs s ++ new))
  else (Error check_violation, s).

Definition selectWorkerWithEmail (pin : string) (s : Site)
  : Response (WorkerInfo.t * option string) :=
  match selectWorkerByPin pin (core s) with
  | Data i => Data (i, worker_emails s !! WorkerInfo.id i)
  | Error c => Error c
  end.

Definition kquery {A : Type} (s : Site) (answer : Response A * Site)
  : Response A * Site :=
  if store_up (core s) then answer else (Error connection_failure, s).

Definition khandle {X : Type} (e : kioskE X) (s : Site) : X * Site :=
  match e in kioskE X return X * Site with
  | Core e => let '(x, w') := handle e (core s) in (x, set_core w' s)
  | ReadDemoState workerId => (demoState (core s) !! workerId, s)
  | ReadDemoEmail workerId => (DEMO_EMAILS s !! workerId, s)
  | SelectLastPunch workerId => kquery s (selectLastPunch workerId (core s), s)
  | InsertProductionLogs rows => kquery s (insertProductionLogs rows s)
  | SelectWorkerWithEmail pin => kquery s (selectWorkerWithEmail pin s, s)
  end.

Fixpoint krun {R : Type} (p : kprog R) (s : Site) : R * Site :=
  match p with
  | KRet r => (r, s)
  | KVis e k => let '(x, s') := khandle e s in krun (k x) s'
  end.

End KioskStore.


(* ================================================================== *)
(** * The components that feed the layer                               *)
(* ================================================================== *)

(** [s.slice(0, -1)]: [s] without its last character. *)
Definition drop_last (s : string) : string :=
  String.substring 0 (String.length s - 1)%nat s.

(** [/^[0-9]$/.test(key)] *)
Definition one_digit (key : string) : bool :=
  match key with
  | String c "" => is_digit c
  | _ => false
  end.

(** [NumericKeypad.tsx].  A handler gives the argument of [onChange] when it
    calls it. *)
Module Keypad.

Definition handleDigitPress (value : string) (maxLength : nat)
    (isLoading : bool) (digit : string) : option string :=
  if (String.length value <? maxLength)%nat && negb isLoading
  then Some (value +:+ digit) else None.

Definition handleBackspace (value : string) (isLoading : bool) : option string :=
  if negb isLoading then Some (drop_last value) else None.

Definition handleClear (isLoading : bool) : option string :=
  if negb isLoading then Some "" else None.

Definition handleKeyDown (value : string) (maxLength : nat) (isLoading : bool)
    (key : string) : option string :=
  if isLoading then None
  else if one_digit key then handleDigitPress value maxLength isLoading key
  else if bool_decide (key = "Backspace") || bool_decide (key = "Delete")
  then handleBackspace value isLoading
  else None.

(** The labels of the ten digit buttons, in the order of the grid. *)
Definition digitButtons : list string :=
  ["1"; "2"; "3"; "4"; "5"; "6"; "7"; "8"; "9"; "0"].

(** What the user does: a digit button (by its place), Clear, Backspace, or
    a key of the keyboard. *)
Inductive input :=
| Digit (i : nat)
| Clear
| Backspace
| Key (key : string).

(** The new [value]: the parent stores what [onChange] is given. *)
Definition press (maxLength : nat) (value : string) (e : bool * input) : string :=
  let '(isLoading, i) := e in
  default value
    match i with
    | Digit n =>
        d ← digitButtons !! n; handleDigitPress value maxLength isLoading d
    | Clear => handleClear isLoading
    | Backspace => handleBackspace value isLoading
    | Key key => handleKeyDown value maxLength isLoading key
    end.

(** The condition under which the effect calls [onSubmit]. *)
Definition submits (maxLength : nat) (value : string) (isLoading submitted : bool)
  : bool :=
  (String.length value =? maxLength)%nat && negb isLoading && negb submitted.

End Keypad.

(** [AddWorker] (the form that calls [createWorker]). *)
Module AddWorker.

(** [value.replace(/\D/g, "").slice(0, 6)] *)
Definition handlePinChange (value : string) : string :=
  String.substring 0 6
    (string_of_list_ascii (List.filter is_digit (list_ascii_of_string value))).

(** [handleSubmit]: the error it sets, or the arguments of [onSubmit]. *)
Definition handleSubmit (pin name role : string)
  : string + (string * string * string) :=
  if negb (String.length pin =? 6)%nat then inl "PIN must be exactly 6 digits"
  else if decide (trim name = "") then inl "Name is required"
  else inr (pin, trim name, role).

End AddWorker.

Section Dates.
Context {rt : JsRuntime} {pg : Postgres}.

(** The loop of [calculateWorkDays] ([HoursSlider.tsx]); [None] when the
    fuel does not cover the range. *)
Fixpoint workDaysLoop (fuel : nat) (current end_ count : Z) : option Z :=
  match fuel with
  | O => None
  | S fuel' =>
      if current <=? end_ then
        let day := Date_getDay current in
        workDaysLoop fuel' (Date_addDays current 1) end_
          (if negb (day =? 0) && negb (day =? 6) then count + 1 else count)
      else Some count
  end.

Definition calculateWorkDays (fuel : nat) (startDate endDate : string)
  : option Z :=
  if bool_decide (startDate = "") || bool_decide (endDate = "") then Some 1
  else
    count ← workDaysLoop fuel (Date_getTime startDate) (Date_getTime endDate) 0;
    Some (Z.max count 1).

(** [suggestedTotal] *)
Definition suggestedTotal (fuel : nat) (startDate endDate : string) : option Z :=
  if bool_decide (startDate = "") || bool_decide (endDate = "") then Some 8
  else workDays ← calculateWorkDays fuel startDate endDate; Some (workDays * 8).

(** [getDayCount] of the time-off page; [Math.ceil(x / d)] is
    [- ((- x) / d)]. *)
Definition getDayCount (start end_ : string) : string :=
  let diffTime := Z.abs (Date_getTime end_ - Date_getTime start) in
  let diffDays := - ((- diffTime) / (1000 * 60 * 60 * 24)) + 1 in
  if diffDays =? 1 then "1 day" else pretty diffDays +:+ " days".

End Dates.


(** The office with its e-mail tables and an empty production log. *)
Definition shop : Site :=
  mkSite office {[ "demo-1" := "john.smith@example.com" ]}
    {[ "uuid-0" := "john.smith@example.com" ]} [].

(** Time passes. *)
Definition wait (ms : Z) (s : Site) : Site :=
  set_core (set_clock (clock (core s) + ms) (core s)) s.

(** The instant of a punch. *)
Definition punchTime `{rt : JsRuntime} (p : Punch.t) : Z :=
  Date_getTime (Punch.timestamp p).


(** A working day of the local calendar. *)
Definition isWeekday `{rt : JsRuntime} (t : Z) : bool :=
  negb (Date_getDay t =? 0) && negb (Date_getDay t =? 6).

(** A day of the made-up history: in from 08:00 to 08:14, out from 16:00 to
    16:44. *)
Definition demo_shift (p : PunchPair.t) : Prop :=
  is_Some (PunchPair.clockIn p) ∧ is_Some (PunchPair.clockOut p)
  ∧ 27960000 ≤ PunchPair.totalMs p ≤ 31440000.


(** A string of decimal digits. *)
Definition all_digits (s : string) : bool :=
  forallb is_digit (list_ascii_of_string s).

(** The instants [t], [t] + 1 day, ..., [n] of them. *)
Fixpoint daysFrom `{rt : JsRuntime} (n : nat) (t : Z) : list Z :=
  match n with
  | O => []
  | S n' => t :: daysFrom n' (Date_addDays t 1)
  end.

(** How many of the instants [start], [start] + 1 day, ... are not after
    [end_]. *)
Definition daysUpTo (start end_ : Z) : nat :=
  Z.to_nat ((end_ - start) / 86400000 + 1).

(** Those of them that fall on a working day of the local calendar. *)
Definition workDays `{rt : JsRuntime} (start end_ : Z) : list Z :=
  filter (λ t, isWeekday t = true) (daysFrom (daysUpTo start end_) start).


(* ================================================================== *)
(** * Properties                                                       *)
(* ================================================================== *)

(** The examples run on the example store. *)
#[global] Existing Instance iso_store.

(** ** The duration formatter *)





(** ** Running programs *)

Lemma run_bind {rt : JsRuntime} {pg : Postgres} {A B : Type} (m : prog A) (f : A → prog B) (w : World) :
  run (bind m f) w = let '(a, w') := run m w in run (f a) w'.
Proof.
  revert w. induction m as [a | X e k IH]; intros w; simpl; [reflexivity |].
  destruct (handle e w) as [x w']. apply IH.
Qed.

(** ** PIN authentication *)

Section Authentication.
Context {rt : JsRuntime} {pg : Postgres}.

Lemma find_pin (pin : string) (ws : list DemoWorker.t) :
  match List.find (λ w, bool_decide (DemoWorker.pin w = pin)) ws with
  | Some x => x ∈ ws ∧ DemoWorker.pin x = pin
  | None => ∀ x, x ∈ ws → DemoWorker.pin x ≠ pin
  end.
Proof.
  destruct (List.find _ ws) as [x |] eqn:E.
  - apply find_some in E as [Hin Hp].
    apply bool_decide_eq_true in Hp. rewrite <- list_elem_of_In in Hin. auto.
  - intros x Hin Hp. rewrite list_elem_of_In in Hin.
    pose proof (find_none _ _ E x Hin) as Hn. simpl in Hn.
    apply bool_decide_eq_false in Hn. done.
Qed.

(** Under the UNIQUE constraint on [pin], at most one row has a given PIN. *)
Lemma filter_pin_unique (pin : string) (P : Worker.t → Prop)
    `{∀ x, Decision (P x)} (ws : list Worker.t) :
  NoDup (map Worker.pin ws) →
  (∀ x, P x → Worker.pin x = pin) →
  filter P ws = [] ∨ ∃ x, filter P ws = [x].
Proof.
  intros Hnd HP. induction ws as [| a ws IH]; [left; done |].
  simpl in Hnd. apply NoDup_cons in Hnd as [Hna Hnd].
  rewrite filter_cons. destruct (decide (P a)) as [Ha | Ha].
  - right. exists a. f_equal.
    destruct (filter P ws) as [| b l] eqn:E; [done |]. exfalso.
    assert (b ∈ filter P ws) as Hb by (rewrite E; left).
    apply list_elem_of_filter in Hb as [HPb Hb].
    apply Hna. rewrite (HP a Ha), <- (HP b HPb).
    apply list_elem_of_fmap. exists b. done.
  - apply IH, Hnd.
Qed.

(** C4. [authenticateWorker "000000"] returns the admin identity without
    any call (no demo table, no store, no delay), in demo and in live mode.
    For every other PIN the call either succeeds with a non-admin identity
    or fails with the invalid-PIN error; in demo mode it succeeds exactly when
    a demo worker has that PIN; in live mode, the store answering and PINs
    being unique there, exactly when an active worker has that PIN. *)
Theorem authenticateWorker_spec :
  (∀ demo, authenticateWorker demo "000000" = Ret (Ok admin))
  ∧ (∀ demo pin w, pin ≠ "000000" →
       let r := (run (authenticateWorker demo pin) w).1 in
       (∃ i, r = Ok (mkAuthOk i false)) ∨ r = Fail invalid_pin)
  ∧ (∀ pin w, pin ≠ "000000" →
       let r := (run (authenticateWorker true pin) w).1 in
       (∀ x, r = Ok x →
          ∃ d, d ∈ DEMO_WORKERS w ∧ DemoWorker.pin d = pin
               ∧ x = mkAuthOk (DemoWorker.info d) false)
       ∧ ((∃ d, d ∈ DEMO_WORKERS w ∧ DemoWorker.pin d = pin) → success r = true))
  ∧ (∀ pin w, pin ≠ "000000" → store_up w = true →
       NoDup (map Worker.pin (workers w)) →
       let r := (run (authenticateWorker false pin) w).1 in
       (∀ x, r = Ok x →
          ∃ d, d ∈ workers w ∧ Worker.pin d = pin ∧ Worker.is_active d = true
               ∧ x = mkAuthOk (Worker.info d) false)
       ∧ ((∃ d, d ∈ workers w ∧ Worker.pin d = pin ∧ Worker.is_active d = true)
          → success r = true)).
Proof.
  split; [| split; [| split]].
  - intros demo. reflexivity.
  - intros demo pin w Hp. unfold authenticateWorker.
    destruct (decide (pin = "000000")); [done |]. destruct demo; cbn.
    + destruct (List.find _ _); cbn; eauto.
    + unfold query. destruct (store_up w); cbn; [| eauto].
      destruct (selectWorkerByPin pin w); cbn; eauto.
  - intros pin w Hp. unfold authenticateWorker.
    destruct (decide (pin = "000000")); [done |]. cbn.
    pose proof (find_pin pin (DEMO_WORKERS w)) as Hf.
    destruct (List.find _ _) as [d |]; cbn; split.
    + intros x [= <-]. exists d. tauto.
    + done.
    + done.
    + intros (d & Hin & Hd). exfalso. exact (Hf d Hin Hd).
  - intros pin w Hp Hup Hnd. unfold authenticateWorker.
    destruct (decide (pin = "000000")); [done |]. cbn.
    unfold query. rewrite Hup. unfold selectWorkerByPin.
    destruct (filter_pin_unique pin
                (λ r, Worker.pin r = pin ∧ Worker.is_active r = true)
                (workers w) Hnd (λ x Hx, proj1 Hx)) as [E | [d E]]; rewrite E; cbn; split.
    + done.
    + intros (d & Hin & Hd & Ha).
      assert (d ∈ filter (λ r, Worker.pin r = pin ∧ Worker.is_active r = true)
                    (workers w)) as Hx by (apply list_elem_of_filter; done).
      rewrite E in Hx. inversion Hx.
    + intros x [= <-]. exists d.
      assert (d ∈ filter (λ r, Worker.pin r = pin ∧ Worker.is_active r = true)
                    (workers w)) as Hx by (rewrite E; left).
      apply list_elem_of_filter in Hx. tauto.
    + done.
Qed.

End Authentication.

Lemma authenticateWorker_spec_witness :
  let w := mkWorld 0 [] [] ∅ ∅ [] true 1
             [Worker.mk "uuid-0" "123456" "John Smith" "worker" true] [] [] [] in
  "123456" ≠ "000000" ∧ store_up w = true ∧ NoDup (map Worker.pin (workers w))
  ∧ success (run (rt := iso_runtime 0) (authenticateWorker false "123456") w).1
    = true.
Proof.
  intros w.
  assert (H1 : "123456" ≠ "000000") by discriminate.
  assert (H2 : store_up w = true) by reflexivity.
  assert (H3 : NoDup (map Worker.pin (workers w))).
  { simpl. apply NoDup_singleton. }
  split; [exact H1 | split; [exact H2 | split; [exact H3 |]]].
  apply (proj2 (proj2 (proj2 (authenticateWorker_spec (rt := iso_runtime 0))))
           "123456" w H1 H2 H3).
  eexists. split; [left | split; reflexivity].
Defined.

(** ** Worker creation *)

Section Creation.
Context {rt : JsRuntime} {pg : Postgres}.



Lemma existsb_pin_demo (pin : string) (ws : list DemoWorker.t) :
  existsb (λ w, bool_decide (DemoWorker.pin w = pin)) ws = true
  ↔ ∃ d, d ∈ ws ∧ DemoWorker.pin d = pin.
Proof.
  rewrite existsb_exists. split; intros (d & Hin & Hd); exists d.
  - apply bool_decide_eq_true in Hd. by rewrite list_elem_of_In.
  - rewrite <- list_elem_of_In. split; [done |]. by apply bool_decide_eq_true.
Qed.

Lemma existsb_pin (pin : string) (ws : list Worker.t) :
  existsb (λ w, bool_decide (Worker.pin w = pin)) ws = true
  ↔ ∃ d, d ∈ ws ∧ Worker.pin d = pin.
Proof.
  rewrite existsb_exists. split; intros (d & Hin & Hd); exists d.
  - apply bool_decide_eq_true in Hd. by rewrite list_elem_of_In.
  - rewrite <- list_elem_of_In. split; [done |]. by apply bool_decide_eq_true.
Qed.

Lemma six_digits_length (pin : string) :
  six_digits pin = true → String.length pin = 6%nat.
Proof.
  unfold six_digits. intros H. apply andb_true_iff in H as [H _].
  by apply Nat.eqb_eq.
Qed.


(** What [createWorker] does in demo mode once its two checks pass. *)
Lemma createWorker_demo (pin fullName role : string) (w : World) :
  six_digits pin = true → trim fullName ≠ "" →
  run (createWorker true pin fullName role) w =
    if existsb (λ d, bool_decide (DemoWorker.pin d = pin)) (DEMO_WORKERS w)
    then (Fail pin_in_use, set_clock (clock w + 600) w)
    else
      let d := DemoWorker.mk ("demo-" +:+ pretty (clock w + 600)) pin
                 (trim fullName) role in
      (Ok d, set_DEMO_WORKERS (DEMO_WORKERS w ++ [d]) (set_clock (clock w + 600) w)).
Proof.
  intros Hp Hn. unfold createWorker. rewrite Hp. simpl negb. cbv iota.
  destruct (decide (trim fullName = "")); [done |]. cbn.
  destruct (existsb _ (DEMO_WORKERS w)); reflexivity.
Qed.

(** What [createWorker] does in live mode once its two checks pass. *)
Lemma createWorker_live (pin fullName role : string) (w : World) :
  six_digits pin = true → trim fullName ≠ "" →
  run (createWorker false pin fullName role) w =
    if store_up w then
      match insertWorker pin (trim fullName) role w with
      | (Data d, w') => (Ok (Worker.created d), w')
      | (Error c, w') =>
          (Fail (if decide (c = "23505") then pin_in_use else create_failed), w')
      end
    else (Fail create_failed, w).
Proof.
  intros Hp Hn. unfold createWorker. rewrite Hp. simpl negb. cbv iota.
  destruct (decide (trim fullName = "")); [done |]. cbn. unfold query.
  destruct (store_up w); [| reflexivity].
  destruct (insertWorker pin (trim fullName) role w) as [[d | c] w']; cbn;
    [reflexivity |].
  destruct (decide (c = "23505")); reflexivity.
Qed.

(** [createWorker] keeps the PINs of the store unique, which is what the
    lookup by PIN of a login relies on in live mode. *)
Lemma createWorker_keeps_pins_unique (demo : bool) (pin fullName role : string)
    (w : World) :
  NoDup (map Worker.pin (workers w)) →
  NoDup (map Worker.pin (workers (run (createWorker demo pin fullName role) w).2)).
Proof.
  intros Hnd. unfold createWorker.
  destruct (negb (six_digits pin)); [done |].
  destruct (decide (trim fullName = "")); [done |].
  destruct demo; cbn.
  - by destruct (existsb _ (DEMO_WORKERS w)).
  - unfold query, insertWorker. destruct (store_up w); [| done].
    destruct (negb _); [done |].
    destruct (existsb _ (workers w)) eqn:E; [done |]. cbn.
    rewrite map_app. apply NoDup_app. split; [done |]. split.
    + intros p Hp Hp'. simpl in Hp'. apply list_elem_of_singleton in Hp' as ->.
      apply list_elem_of_fmap in Hp as (d & Hd & Hin).
      apply not_true_iff_false in E. apply E, existsb_pin. eauto.
    + simpl. apply NoDup_singleton.
Qed.


End Creation.


(** ** Clocking out *)

Section ClockOut.
Context {rt : JsRuntime} {pg : Postgres}.

(** C10. [clockOut] with a null [clockInTime] succeeds whenever the punch
    is recorded: in demo mode always (the worker's demo state becomes clocked
    out), in live mode when the insert succeeds (an OUT row of the worker is
    appended to [punches]).  It then returns [timeWorkedMs = 0] and the
    string ["Unknown"].  In every successful call the elapsed time is taken
    from the caller's timestamp exactly when that is a non-empty string (so
    never when it is null). *)
Theorem clockOut_null_clockIn :
  (∀ workerId w,
     let r := run (clockOut true workerId None) w in
     r.1 = Ok (mkClockOutOk
                 (Punch.mk "demo-punch" workerId OUT (Date_toISOString (clock w)))
                 "Unknown" 0)
     ∧ demoState r.2 !! workerId = Some (DemoClock.mk false None))
  ∧ (∀ workerId w, store_up w = true → has_worker workerId w = true →
       let r := run (clockOut false workerId None) w in
       ∃ p, r.1 = Ok (mkClockOutOk p "Unknown" 0)
            ∧ Punch.type p = OUT ∧ Punch.worker_id p = workerId
            ∧ punches r.2 = punches w ++ [p])
  ∧ (∀ demo workerId clockInTime w x,
       (run (clockOut demo workerId clockInTime) w).1 = Ok x →
       (timeWorkedMs x, timeWorked x) =
         match or_null clockInTime with
         | Some s => (clock w - Date_getTime s,
                      formatDuration (clock w - Date_getTime s))
         | None => (0, "Unknown")
         end).
Proof.
  split; [| split].
  - intros workerId w. cbn. split; [reflexivity |]. apply lookup_insert_eq.
  - intros workerId w Hup Hw. cbn. unfold query, insertPunch. rewrite Hup, Hw.
    cbn. eexists. repeat split; reflexivity.
  - intros demo workerId clockInTime w x. unfold clockOut. cbn.
    destruct (or_null clockInTime) as [s |]; destruct demo; cbn.
    + by intros [= <-].
    + unfold query. destruct (store_up w); [| done].
      destruct (insertPunch workerId OUT w) as [[p | c] w']; [| done].
      by intros [= <-].
    + by intros [= <-].
    + unfold query. destruct (store_up w); [| done].
      destruct (insertPunch workerId OUT w) as [[p | c] w']; [| done].
      by intros [= <-].
Qed.

End ClockOut.

Lemma clockOut_null_clockIn_witness :
  let w := mkWorld 1705510800000 [] [] ∅ ∅ [] true 7
             [Worker.mk "uuid-0" "123456" "John Smith" "worker" true] [] [] [] in
  store_up w = true ∧ has_worker "uuid-0" w = true
  ∧ ∃ p, (run (rt := iso_runtime 0) (clockOut (rt := iso_runtime 0) false "uuid-0" None) w).1
         = Ok (mkClockOutOk p "Unknown" 0)
         ∧ Punch.type p = OUT ∧ Punch.worker_id p = "uuid-0"
         ∧ punches (run (rt := iso_runtime 0) (clockOut (rt := iso_runtime 0) false "uuid-0" None) w).2
           = punches w ++ [p].
Proof.
  intros w.
  assert (H1 : store_up w = true) by reflexivity.
  assert (H2 : has_worker "uuid-0" w = true) by reflexivity.
  split; [exact H1 | split; [exact H2 |]].
  exact (proj1 (proj2 (clockOut_null_clockIn (rt := iso_runtime 0))) "uuid-0" w H1 H2).
Defined.

(** ** Verification codes *)

Section Verification.
Context {rt : JsRuntime} {pg : Postgres}.

Lemma filter_nil_iff {A : Type} (P : A → Prop) `{∀ x, Decision (P x)} (l : list A) :
  filter P l = [] ↔ ∀ x, x ∈ l → ¬ P x.
Proof.
  split.
  - intros E x Hx HP.
    assert (x ∈ filter P l) as Hin by (apply list_elem_of_filter; done).
    rewrite E in Hin. inversion Hin.
  - intros Hn. induction l as [| a l IH]; [done |].
    rewrite filter_cons. destruct (decide (P a)) as [Ha | Ha].
    + exfalso. apply (Hn a); [left | done].
    + apply IH. intros x Hx. apply Hn. by right.
Qed.

(** Demo mode: the three failures have three errors, and a verified code is
    deleted, so that it cannot be verified again. *)
Lemma verifyCode_demo (workerId code : string) (w : World) :
  let r := run (verifyCode true workerId code) w in
  match demoVerificationCodes w !! workerId with
  | None => r.1 = Fail no_code_found
  | Some (c, expiresAt) =>
      if decide (c ≠ code) then r.1 = Fail invalid_code
      else if clock w + 500 >? expiresAt then r.1 = Fail code_expired
      else r.1 = Ok ()
           ∧ demoVerificationCodes r.2 !! workerId = None
           ∧ (run (verifyCode true workerId code) r.2).1 = Fail no_code_found
  end.
Proof.
  cbn. destruct (demoVerificationCodes w !! workerId) as [[c e] |] eqn:E; cbn;
    [| reflexivity].
  destruct (decide (c ≠ code)); cbn; [reflexivity |].
  destruct (clock w + 500 >? e); cbn; [reflexivity |].
  rewrite lookup_delete_eq. done.
Qed.

(** A code is stored with an expiry ten minutes after it was generated. *)
Lemma sendVerificationCode_expiry (demo : bool) (workerId email : string)
    (w : World) :
  let s := run (sendVerificationCode demo workerId email) w in
  if demo then
    ∃ code, demoVerificationCodes s.2 !! workerId
            = Some (code, clock w + 600000)
  else
    ∀ c, c ∈ verification_codes s.2 → c ∉ verification_codes w →
         Code.worker_id c = workerId ∧ Code.expires_at c = clock w + 600000
         ∧ Code.used_at c = None.
Proof.
  destruct demo; cbn.
  - destruct (randoms w); cbn; eexists; apply lookup_insert_eq.
  - destruct (randoms w) as [| q qs]; cbn; unfold query, insertCode; cbn;
      destruct (store_up w); cbn; try done;
      destruct (negb _); cbn; try done;
      match goal with |- context [if ?b then _ else _] => destruct b end;
      cbn; try done;
      intros c Hin Hnew;
      (apply elem_of_app in Hin as [Hin | Hin]; [done |]);
      apply list_elem_of_singleton in Hin as ->; done.
Qed.

Lemma verifyCode_errors_distinct :
  no_code_found ≠ invalid_code ∧ no_code_found ≠ code_expired
  ∧ invalid_code ≠ code_expired.
Proof. repeat split; discriminate. Qed.

(** Live mode: a code that is the only unused match and has not expired is
    verified, marked used, and rejected when submitted again. *)
Lemma verifyCode_live_consumes (workerId code : string) (d : Code.t) (w : World) :
  store_up w = true →
  filter (matches workerId code) (verification_codes w) = [d] →
  clock w ≤ Code.expires_at d →
  let r := run (verifyCode false workerId code) w in
  r.1 = Ok ()
  ∧ (∀ c, c ∈ verification_codes r.2 → Code.id c = Code.id d →
          Code.used_at c = Some (clock w))
  ∧ (run (verifyCode false workerId code) r.2).1 = Fail invalid_code.
Proof.
  intros Hup Hf Hexp.
  assert (run (verifyCode false workerId code) w
          = (Ok (), markCodeUsed (Code.id d) (clock w) w)) as Hr.
  { cbn. unfold query. rewrite Hup. unfold selectCode.
    fold (matches workerId code). rewrite Hf. cbn.
    destruct (Z.ltb_spec (Code.expires_at d) (clock w)) as [? | _]; [lia |].
    cbn. unfold query. by rewrite Hup. }
  cbv zeta. rewrite Hr. cbn [fst snd]. split; [reflexivity |]. split.
  - intros c Hc Hid. cbn in Hc.
    apply list_elem_of_fmap in Hc as (c0 & -> & Hc0).
    destruct (decide (Code.id c0 = Code.id d)) as [_ | Hne]; [reflexivity |].
    done.
  - cbn. unfold query at 1. cbn [store_up markCodeUsed set_verification_codes].
    rewrite Hup. unfold selectCode. fold (matches workerId code). cbn.
    match goal with |- context [filter ?P ?l] =>
      assert (filter P l = []) as ->; [| reflexivity] end.
    apply filter_nil_iff. intros c Hc Hm.
    apply list_elem_of_fmap in Hc as (c0 & -> & Hc0).
    destruct (decide (Code.id c0 = Code.id d)) as [Hid | Hne].
    + destruct Hm as (_ & _ & Hu). discriminate.
    + assert (c0 ∈ filter (matches workerId code) (verification_codes w)) as Hin
        by (apply list_elem_of_filter; done).
      rewrite Hf in Hin. apply list_elem_of_singleton in Hin. congruence.
Qed.

(** C6 (the live path).  When no unused row of the worker holds the
    submitted code, [verifyCode] fails with [invalid_code]: this is the
    answer both when the worker has no code on record and when the code on
    record differs, so these two failures are not told apart in live mode. *)
Theorem verifyCode_live_no_match (workerId code : string) (w : World) :
  store_up w = true →
  (∀ c, c ∈ verification_codes w → ¬ matches workerId code c) →
  (run (verifyCode false workerId code) w).1 = Fail invalid_code.
Proof.
  intros Hup Hn. cbn. unfold query. rewrite Hup. unfold selectCode.
  match goal with |- context [filter ?P ?l] =>
    assert (filter P l = []) as ->; [| reflexivity] end.
  apply filter_nil_iff. exact Hn.
Qed.

End Verification.

(** The two situations on concrete stores: no code on record, and a
    different code on record. *)
Lemma verifyCode_live_no_match_witness :
  let none := mkWorld 1000 [] [] ∅ ∅ [] true 1
                [Worker.mk "uuid-0" "123456" "John Smith" "worker" true] [] [] [] in
  let other := mkWorld 1000 [] [] ∅ ∅ [] true 2
                 [Worker.mk "uuid-0" "123456" "John Smith" "worker" true] []
                 [Code.mk "uuid-1" "uuid-0" "111111" 600000 None 0] [] in
  (run (rt := iso_runtime 0) (verifyCode false "uuid-0" "222222") none).1
    = Fail invalid_code
  ∧ (run (rt := iso_runtime 0) (verifyCode false "uuid-0" "222222") other).1
    = Fail invalid_code.
Proof.
  intros none other. split.
  - apply (verifyCode_live_no_match (rt := iso_runtime 0));
      [reflexivity | intros c Hc; inversion Hc].
  - apply (verifyCode_live_no_match (rt := iso_runtime 0)); [reflexivity |].
    intros c Hc (_ & Hcode & _). apply list_elem_of_singleton in Hc as ->.
    discriminate.
Defined.

(** ** The time-off workflow *)

Section TimeOffWorkflow.
Context {rt : JsRuntime} {pg : Postgres}.

Lemma approveRequest_review (demo : bool) (requestId managerId : string) :
  approveRequest demo requestId managerId
  = review demo approved None requestId managerId.
Proof. reflexivity. Qed.

Lemma denyRequest_review (demo : bool) (requestId managerId : string)
    (reason : option string) :
  denyRequest demo requestId managerId reason
  = review demo denied (Some (or_null reason)) requestId managerId.
Proof. reflexivity. Qed.

Lemma addDemoRequest_run (workerId : string) (data : TimeOff.input) (w : World) :
  run (addDemoRequest workerId data) w =
    (Ok (demo_request workerId data (clock w)),
     set_DEMO_REQUESTS (demo_request workerId data (clock w) :: DEMO_REQUESTS w) w).
Proof. reflexivity. Qed.

Lemma submit_run (demo : bool) (workerId : string) (data : TimeOff.input)
    (w : World) :
  run (submitTimeOffRequest demo workerId data) w =
    if demo then
      run (addDemoRequest workerId data) (set_clock (clock w + 600) w)
    else
      match accepted workerId data w with
      | Some row => (Ok row, add_request row w)
      | None => run (addDemoRequest workerId data) w
      end.
Proof.
  destruct demo; [reflexivity |]. unfold submitTimeOffRequest, accepted. cbn.
  unfold query, insertRequest. destruct (store_up w); [| reflexivity].
  cbn [andb TimeOff.in_start_date TimeOff.in_end_date TimeOff.in_paid_hours
         TimeOff.in_unpaid_hours TimeOff.in_type TimeOff.in_comments].
  destruct (date_in (TimeOff.in_start_date data)); cbn;
    [| by destruct (has_worker workerId w)].
  destruct (date_in (TimeOff.in_end_date data)); cbn;
    [| by destruct (has_worker workerId w)].
  destruct (decimal_5_2 (TimeOff.in_paid_hours data)); cbn;
    [| by destruct (has_worker workerId w)].
  destruct (decimal_5_2 (TimeOff.in_unpaid_hours data)); cbn;
    [| by destruct (has_worker workerId w)].
  destruct (has_worker workerId w); reflexivity.
Qed.


Lemma review_run (demo : bool) (st : RequestStatus)
    (reason : option (option string)) (requestId managerId : string) (w : World) :
  run (review demo st reason requestId managerId) w =
    let u := TimeOff.mk_updates st managerId (clock w) reason in
    if demo || startsWith "demo-" requestId then
      (Ok (), set_DEMO_REQUESTS (map (review_one requestId u) (DEMO_REQUESTS w))
                (set_clock (clock w + 500) w))
    else if store_up w
            && (negb (existsb (λ r, bool_decide (TimeOff.id r = requestId))
                        (time_off_requests w))
                || has_worker managerId w) then
      (Ok (),
       if existsb (λ r, bool_decide (TimeOff.id r = requestId)) (time_off_requests w)
       then set_time_off_requests
              (map (review_one requestId u) (time_off_requests w)) w
       else w)
    else
      (Ok (), set_DEMO_REQUESTS (map (review_one requestId u) (DEMO_REQUESTS w)) w).
Proof.
  unfold review. cbn.
  destruct (demo || startsWith "demo-" requestId); [reflexivity |]. cbn.
  unfold query, updateRequest. destruct (store_up w); [| reflexivity]. cbn.
  destruct (existsb _ (time_off_requests w)); cbn; [| reflexivity].
  destruct (has_worker managerId w); reflexivity.
Qed.

(** *** Reviewed requests stay reviewed *)

Lemma same_request_refl (r : TimeOff.t) : same_request r r.
Proof. repeat split. Qed.

Lemma keeps_refl (l : list TimeOff.t) : keeps l l.
Proof. intros k r H. exists r. auto using same_request_refl. Qed.

Lemma keeps_trans (l1 l2 l3 : list TimeOff.t) :
  keeps l1 l2 → keeps l2 l3 → keeps l1 l3.
Proof.
  intros H12 H23 k r H.
  destruct (H12 k r H) as (r2 & H2 & S2 & R2).
  destruct (H23 k r2 H2) as (r3 & H3 & S3 & R3).
  exists r3. split; [done |]. split; [| tauto].
  unfold same_request in *. intuition congruence.
Qed.

Lemma keeps_snoc (l : list TimeOff.t) (x : TimeOff.t) : keeps l (l ++ [x]).
Proof.
  intros k r H. exists r. split; [| auto using same_request_refl].
  by apply lookup_app_l_Some.
Qed.

Lemma review_one_keeps (requestId : string) (u : TimeOff.updates) (r : TimeOff.t) :
  TimeOff.u_status u ≠ pending →
  same_request r (review_one requestId u r)
  ∧ (reviewed r → reviewed (review_one requestId u r)).
Proof.
  intros Hu. unfold review_one.
  destruct (decide (TimeOff.id r = requestId)); [| auto using same_request_refl].
  split; [repeat split |]. intros _. exact Hu.
Qed.

Lemma keeps_review (requestId : string) (u : TimeOff.updates) (l : list TimeOff.t) :
  TimeOff.u_status u ≠ pending → keeps l (map (review_one requestId u) l).
Proof.
  intros Hu k r H. exists (review_one requestId u r).
  split; [| by apply review_one_keeps].
  change (map ?f ?l) with (f <$> l). by rewrite list_lookup_fmap, H.
Qed.

Lemma keeps_demo_cons (l : list TimeOff.t) (x : TimeOff.t) :
  keeps (rev l) (rev (x :: l)).
Proof. simpl. apply keeps_snoc. Qed.

Lemma keeps_demo_review (requestId : string) (u : TimeOff.updates)
    (l : list TimeOff.t) :
  TimeOff.u_status u ≠ pending →
  keeps (rev l) (rev (map (review_one requestId u) l)).
Proof. intros Hu. rewrite <- map_rev. by apply keeps_review. Qed.

(** One operation keeps the requests of both tables. *)
Lemma step_keeps (demo : bool) (o : op) (w : World) :
  keeps (demo_requests w) (demo_requests (step demo w o))
  ∧ keeps (time_off_requests w) (time_off_requests (step demo w o)).
Proof.
  unfold demo_requests.
  destruct o as [workerId data | i m | i m reason | up | ms]; unfold step.
  - rewrite submit_run. destruct demo.
    + rewrite addDemoRequest_run. cbn. split; [apply keeps_snoc | apply keeps_refl].
    + destruct (accepted workerId data w).
      * cbn. split; [apply keeps_refl | apply keeps_snoc].
      * rewrite addDemoRequest_run. cbn.
        split; [apply keeps_snoc | apply keeps_refl].
  - rewrite approveRequest_review, review_run. cbv zeta.
    destruct (demo || startsWith "demo-" i); cbn.
    { split; [by apply keeps_demo_review | apply keeps_refl]. }
    destruct (store_up w && _); cbn.
    + destruct (existsb _ (time_off_requests w)); cbn.
      * split; [apply keeps_refl | by apply keeps_review].
      * split; apply keeps_refl.
    + split; [by apply keeps_demo_review | apply keeps_refl].
  - rewrite denyRequest_review, review_run. cbv zeta.
    destruct (demo || startsWith "demo-" i); cbn.
    { split; [by apply keeps_demo_review | apply keeps_refl]. }
    destruct (store_up w && _); cbn.
    + destruct (existsb _ (time_off_requests w)); cbn.
      * split; [apply keeps_refl | by apply keeps_review].
      * split; apply keeps_refl.
    + split; [by apply keeps_demo_review | apply keeps_refl].
  - split; apply keeps_refl.
  - split; apply keeps_refl.
Qed.

(** A submission adds a request and leaves the others as they are. *)
Lemma submit_extends (demo : bool) (workerId : string) (data : TimeOff.input)
    (w : World) :
  demo_requests w `prefix_of` demo_requests (step demo w (Submit workerId data))
  ∧ time_off_requests w
      `prefix_of` time_off_requests (step demo w (Submit workerId data)).
Proof.
  unfold step, demo_requests. rewrite submit_run. destruct demo.
  - rewrite addDemoRequest_run. cbn. split; [by eexists | done].
  - destruct (accepted workerId data w).
    + cbn. split; [done | by eexists].
    + rewrite addDemoRequest_run. cbn. split; [by eexists | done].
Qed.

(** C9, as the code has it.  Whatever operations follow (submissions,
    approvals, denials, in demo or live mode, the store failing or not),
    every request stays in its table as the same request, and one that was
    approved or denied is never pending again; a submission leaves the
    requests there are unchanged.  (An approval or denial of a reviewed
    request does overwrite its status: see [terminal_is_final_fails].) *)
Theorem reviewed_stays_reviewed (demo : bool) (ops : list op) (w : World) :
  keeps (demo_requests w) (demo_requests (exec demo ops w))
  ∧ keeps (time_off_requests w) (time_off_requests (exec demo ops w))
  ∧ ∀ workerId data,
      demo_requests w `prefix_of` demo_requests (step demo w (Submit workerId data))
      ∧ time_off_requests w
          `prefix_of` time_off_requests (step demo w (Submit workerId data)).
Proof.
  split; [| split].
  - revert w. induction ops as [| o ops IH]; intros w; [apply keeps_refl |].
    simpl. eapply keeps_trans; [apply (step_keeps demo o w) | apply IH].
  - revert w. induction ops as [| o ops IH]; intros w; [apply keeps_refl |].
    simpl. eapply keeps_trans; [apply (step_keeps demo o w) | apply IH].
  - intros workerId data. apply submit_extends.
Qed.

End TimeOffWorkflow.

Section TimeOffListings.
Context {rt : JsRuntime} {pg : Postgres}.

#[local] Instance older_total : Total older.
Proof. intros a b. unfold older. lia. Qed.
#[local] Instance older_trans : Transitive older.
Proof. intros a b c. unfold older. lia. Qed.
#[local] Instance newer_total : Total newer.
Proof. intros a b. unfold newer. lia. Qed.
#[local] Instance newer_trans : Transitive newer.
Proof. intros a b c. unfold newer. lia. Qed.


(** The listings in live mode, the store answering: the worker's rows, most
    recent first; the pending rows, oldest first; the 50 most recent rows,
    most recent first. *)
Lemma listings_live (workerId : string) (w : World) :
  store_up w = true →
  (∃ rows, (run (getMyTimeOffRequests false workerId) w).1
             = Ok (map (named_mine w) rows)
           ∧ rows ≡ₚ filter (λ r, TimeOff.worker_id r = workerId)
                       (time_off_requests w)
           ∧ StronglySorted newer rows)
  ∧ (∃ rows, (run (getAllPendingRequests false) w).1
               = Ok (map (named_pending w) rows)
             ∧ rows ≡ₚ filter (λ r, TimeOff.status r = pending)
                         (time_off_requests w)
             ∧ StronglySorted older rows)
  ∧ (∃ sorted, (run (getAllTimeOffRequests false) w).1
                 = Ok (map (named_all w) (take 50 sorted))
               ∧ sorted ≡ₚ time_off_requests w
               ∧ StronglySorted newer sorted
               ∧ (length (take 50 sorted) ≤ 50)%nat).
Proof.
  intros Hup. split; [| split].
  - eexists. split; [| split].
    + cbn. unfold query. rewrite Hup. cbn. unfold selectRequestsOf.
      rewrite map_map. reflexivity.
    + apply merge_sort_Permutation.
    + apply StronglySorted_merge_sort; apply _.
  - eexists. split; [| split].
    + cbn. unfold query. rewrite Hup. cbn. unfold selectPendingRequests.
      rewrite map_map. reflexivity.
    + apply merge_sort_Permutation.
    + apply StronglySorted_merge_sort; apply _.
  - eexists. split; [| split; [| split]].
    + cbn. unfold query. rewrite Hup. cbn. unfold selectAllRequests.
      rewrite map_map. reflexivity.
    + apply merge_sort_Permutation.
    + apply StronglySorted_merge_sort; apply _.
    + rewrite length_take. lia.
Qed.


End TimeOffListings.

Section Approval.
Context {rt : JsRuntime} {pg : Postgres}.

Lemma existsb_id (i : string) (l : list TimeOff.t) :
  existsb (λ r, bool_decide (TimeOff.id r = i)) l = true
  ↔ ∃ r, r ∈ l ∧ TimeOff.id r = i.
Proof.
  rewrite existsb_exists. split; intros (r & Hin & Hr); exists r.
  - apply bool_decide_eq_true in Hr. by rewrite list_elem_of_In.
  - rewrite <- list_elem_of_In. split; [done |]. by apply bool_decide_eq_true.
Qed.




End Approval.

(** *** Examples on concrete stores *)


(** C9 as stated fails: a request that was approved is denied by a later
    [denyRequest], which overwrites its status. *)
Lemma terminal_state_overwritten :
  let w1 := exec (rt := iso_runtime 0) true
              [Submit "demo-1" a_week_off;
               Approve "demo-req-1705510800600" "demo-3"] office in
  let w2 := exec (rt := iso_runtime 0) true
              [Deny "demo-req-1705510800600" "demo-3" (Some "short staffed")] w1 in
  TimeOff.status <$> demo_requests w1 !! 0%nat = Some approved
  ∧ TimeOff.status <$> demo_requests w2 !! 0%nat = Some denied.
Proof. split; reflexivity. Qed.

(** So the claim, as a statement over all sequences of operations, is
    false. *)
Lemma terminal_is_final_fails : ¬ terminal_is_final (rt := iso_runtime 0).
Proof.
  intros H.
  set (w1 := exec (rt := iso_runtime 0) true
               [Submit "demo-1" a_week_off;
                Approve "demo-req-1705510800600" "demo-3"] office).
  pose proof (H [Deny "demo-req-1705510800600" "demo-3" None] w1 0%nat) as H'.
  vm_compute in H'.
  specialize (H' _ _ eq_refl ltac:(discriminate) eq_refl). discriminate.
Qed.

(** C7 in demo mode: two requests submitted one after the other are listed
    as pending with the more recent one first, and the listing of all
    requests is not capped at 50. *)
Theorem demo_listings_newest_first_uncapped :
  let w2 := exec (rt := iso_runtime 0) true
              [Submit "demo-1" a_week_off; Submit "demo-3" a_week_off] office in
  let w51 := exec (rt := iso_runtime 0) true
               (replicate 51 (Submit "demo-1" a_week_off)) office in
  result_map (map TimeOff.created_at)
    (run (rt := iso_runtime 0) (getAllPendingRequests true) w2).1
    = Ok [1705510801200; 1705510800600]
  ∧ result_map length
      (run (rt := iso_runtime 0) (getAllTimeOffRequests true) w51).1
    = Ok 51%nat.
Proof. split; vm_compute; reflexivity. Qed.

(** ** Punch pairing *)

Section Pairing.
Context {rt : JsRuntime} {pg : Postgres}.

Lemma stamps_snoc (ty : PunchType) (d : string) (data : list Punch.t) (p : Punch.t) :
  stamps ty d (data ++ [p]) =
    stamps ty d data ++
      (if decide (dateOf p = d ∧ Punch.type p = ty) then [Punch.timestamp p] else []).
Proof.
  unfold stamps. rewrite filter_app, map_app. f_equal.
  rewrite filter_cons, filter_nil.
  by destruct (decide (dateOf p = d ∧ Punch.type p = ty)).
Qed.

Lemma stamps_absent (ty : PunchType) (d : string) (data : list Punch.t) :
  (¬ ∃ p, p ∈ data ∧ dateOf p = d) → stamps ty d data = [].
Proof.
  intros Hn. unfold stamps.
  assert (filter (λ p, dateOf p = d ∧ Punch.type p = ty) data = []) as ->; [| done].
  apply filter_nil_iff. intros p Hp [Hd _]. apply Hn. eauto.
Qed.

Lemma pm_has_spec (date : string) (m : PunchMap) :
  pm_has date m = true ↔ date ∈ map fst m.
Proof.
  unfold pm_has. rewrite existsb_exists. split.
  - intros (e & He & Hd). apply bool_decide_eq_true in Hd. subst date.
    apply list_elem_of_fmap. exists e. by rewrite list_elem_of_In.
  - intros Hd. apply list_elem_of_fmap in Hd as (e & -> & He).
    exists e. rewrite <- list_elem_of_In. split; [done |].
    by apply bool_decide_eq_true.
Qed.

Lemma pm_push_keys (date : string) (ty : PunchType) (ts : string) (m : PunchMap) :
  map fst (pm_push date ty ts m) = map fst m.
Proof.
  unfold pm_push. rewrite map_map. apply map_ext. intros e.
  by destruct (decide (e.1 = date)).
Qed.

(** One turn of the loop over the fetched punches. *)
Lemma add_punch_pairs (data : list Punch.t) (m : PunchMap) (p : Punch.t) :
  pairs_of data m → pairs_of (data ++ [p]) (add_punch m p).
Proof.
  intros (Hnd & Hkeys & Hval). unfold add_punch. fold (dateOf p).
  set (m1 := if pm_has (dateOf p) m then m else m ++ [(dateOf p, ([], []))]).
  assert (Hk1 : ∀ d, d ∈ map fst m1 ↔ d ∈ map fst m ∨ d = dateOf p).
  { intros d. subst m1. destruct (pm_has (dateOf p) m) eqn:E.
    - apply pm_has_spec in E. split; [auto |]. intros [? | ->]; done.
    - rewrite map_app, elem_of_app. simpl. by rewrite list_elem_of_singleton. }
  assert (Hnd1 : NoDup (map fst m1)).
  { subst m1. destruct (pm_has (dateOf p) m) eqn:E; [done |].
    rewrite map_app. apply NoDup_app. split; [done |]. split.
    - intros d Hd Hd'. simpl in Hd'. apply list_elem_of_singleton in Hd' as ->.
      apply pm_has_spec in Hd. congruence.
    - simpl. apply NoDup_singleton. }
  assert (Hv1 : ∀ e, e ∈ m1 → e.2 = (stamps IN e.1 data, stamps OUT e.1 data)).
  { intros e He. subst m1. destruct (pm_has (dateOf p) m) eqn:E; [auto |].
    apply elem_of_app in He as [He | He]; [auto |].
    apply list_elem_of_singleton in He as ->. simpl.
    assert (¬ ∃ q, q ∈ data ∧ dateOf q = dateOf p) as Hn.
    { rewrite <- Hkeys, <- pm_has_spec. congruence. }
    by rewrite !stamps_absent. }
  split; [| split].
  - by rewrite pm_push_keys.
  - intros d. rewrite pm_push_keys, Hk1, Hkeys. split.
    + intros [(q & Hq & Hd) | ->].
      * exists q. split; [| done]. apply elem_of_app. by left.
      * exists p. split; [| done]. apply elem_of_app. right. left.
    + intros (q & Hq & Hd). apply elem_of_app in Hq as [Hq | Hq]; [left; eauto |].
      apply list_elem_of_singleton in Hq as ->. by right.
  - intros e' He'. unfold pm_push in He'.
    apply list_elem_of_fmap in He' as (e & -> & He).
    pose proof (Hv1 e He) as Hv. rewrite !stamps_snoc.
    destruct (decide (e.1 = dateOf p)) as [Heq | Hne]; simpl.
    + rewrite Hv. simpl.
      destruct (Punch.type p) eqn:Ety.
      * rewrite decide_True by done. rewrite (decide_False (P := _ ∧ IN = OUT)) by (intros [_ ?]; done).
        by rewrite app_nil_r.
      * rewrite (decide_False (P := _ ∧ OUT = IN)) by (intros [_ ?]; done).
        rewrite decide_True by done. by rewrite app_nil_r.
    + rewrite Hv.
      rewrite !decide_False by (intros [? _]; congruence).
      by rewrite !app_nil_r.
Qed.

Lemma foldl_add_punch_pairs (data0 data : list Punch.t) (m : PunchMap) :
  pairs_of data0 m → pairs_of (data0 ++ data) (foldl add_punch m data).
Proof.
  revert data0 m. induction data as [| p data IH]; intros data0 m H; simpl.
  - by rewrite app_nil_r.
  - replace (data0 ++ p :: data) with ((data0 ++ [p]) ++ data)
      by (by rewrite <- app_assoc).
    apply IH. by apply add_punch_pairs.
Qed.

Lemma punchMap_pairs (data : list Punch.t) :
  pairs_of data (foldl add_punch [] data).
Proof.
  apply (foldl_add_punch_pairs [] data []). split; [constructor |]. split.
  - intros d. split; [intros H; inversion H |].
    intros (p & Hp & _). inversion Hp.
  - intros e He. inversion He.
Qed.

End Pairing.

Section PunchHistory.
Context {rt : JsRuntime} {pg : Postgres}.

(** The collation order is a total preorder (as every locale's is). *)
Hypothesis localeCompare_total :
  ∀ a b, localeCompare a b ≤ 0 ∨ localeCompare b a ≤ 0.
Hypothesis localeCompare_trans :
  ∀ a b c, localeCompare a b ≤ 0 → localeCompare b c ≤ 0 → localeCompare a c ≤ 0.

#[local] Instance date_desc_total : Total date_desc.
Proof. intros a b. apply localeCompare_total. Qed.

#[local] Instance date_desc_trans : Transitive date_desc.
Proof. intros a b c Hab Hbc. exact (localeCompare_trans _ _ _ Hbc Hab). Qed.

Lemma or_null_head (l : list string) :
  Forall (λ s, s ≠ "") l → or_null (head l) = head l.
Proof.
  destruct 1 as [| s l Hs _]; [done |]. simpl.
  by destruct (decide (s = "")).
Qed.

Lemma or_null_last (l : list string) :
  Forall (λ s, s ≠ "") l → or_null (last l) = last l.
Proof.
  intros H. destruct (last l) as [s |] eqn:E; [| done]. simpl.
  destruct (decide (s = "")) as [-> | _]; [| done].
  apply last_Some_elem_of in E. rewrite Forall_forall in H.
  by destruct (H "" E).
Qed.

Lemma stamps_nonempty (ty : PunchType) (d : string) (data : list Punch.t) :
  Forall (λ p, Punch.timestamp p ≠ "") data →
  Forall (λ s, s ≠ "") (stamps ty d data).
Proof.
  intros H. unfold stamps. apply Forall_forall. intros s Hs.
  apply list_elem_of_fmap in Hs as (p & -> & Hp).
  apply list_elem_of_filter in Hp as [_ Hp].
  rewrite Forall_forall in H. auto.
Qed.

(** C1. For every fetched sequence of punches (timestamps being non-empty
    strings), the history has exactly one pair per date that has a punch;
    its [clockIn] is the first IN of that date (null if none), its
    [clockOut] the last OUT of that date (null if none), its [totalMs] the
    difference of the two when both are there, whatever its sign, and 0
    otherwise; the history is sorted by date, descending.  [getPunchHistory]
    in live mode returns this history of the rows the store answers, and
    fails when the store does. *)
Theorem getPunchHistory_pairs (data : list Punch.t) :
  Forall (λ p, Punch.timestamp p ≠ "") data →
  let history := pairPunches data in
  NoDup (map PunchPair.date history)
  ∧ (∀ d, d ∈ map PunchPair.date history ↔ ∃ p, p ∈ data ∧ dateOf p = d)
  ∧ (∀ pp, pp ∈ history →
       PunchPair.clockIn pp = head (stamps IN (PunchPair.date pp) data)
       ∧ PunchPair.clockOut pp = last (stamps OUT (PunchPair.date pp) data)
       ∧ PunchPair.totalMs pp =
           match PunchPair.clockIn pp, PunchPair.clockOut pp with
           | Some i, Some o => Date_getTime o - Date_getTime i
           | _, _ => 0
           end)
  ∧ StronglySorted date_desc history
  ∧ (∀ workerId days w,
       (run (getPunchHistory false workerId days) w).1 =
         if store_up w then
           match selectPunches workerId
                   (Date_setHours (Date_addDays (clock w) (- days)) 0 0 0 0) w with
           | Data rows => Ok (pairPunches rows)
           | Error _ => Fail "Failed to load punch history."
           end
         else Fail "Failed to load punch history.").
Proof.
  intros Hts history.
  destruct (punchMap_pairs data) as (Hnd & Hkeys & Hval).
  assert (Hperm : history ≡ₚ map toPair (foldl add_punch [] data))
    by apply merge_sort_Permutation.
  assert (Hdates : map PunchPair.date (map toPair (foldl add_punch [] data))
                   = map fst (foldl add_punch [] data)).
  { rewrite map_map. by apply map_ext. }
  split; [| split; [| split; [| split]]].
  - change (map ?f ?l) with (f <$> l). rewrite Hperm.
    change (?f <$> ?l) with (map f l). by rewrite Hdates.
  - intros d. rewrite <- Hkeys, <- Hdates.
    change (map ?f ?l) with (f <$> l). by rewrite Hperm.
  - intros pp Hpp. rewrite Hperm in Hpp.
    apply list_elem_of_fmap in Hpp as (e & -> & He).
    unfold toPair. rewrite (Hval e He). simpl.
    rewrite or_null_head, or_null_last by (by apply stamps_nonempty).
    done.
  - apply StronglySorted_merge_sort; apply _.
  - intros workerId days w. cbn. unfold query.
    destruct (store_up w); reflexivity.
Qed.

End PunchHistory.

(** Code-unit comparison is a total preorder. *)
Lemma Iso_compare_total (a b : string) : Iso.compare a b ≤ 0 ∨ Iso.compare b a ≤ 0.
Proof.
  unfold Iso.compare.
  destruct (String_as_OT.cmp a b) eqn:E; try (left; lia).
  right. rewrite String_as_OT.cmp_antisym, E. simpl. lia.
Qed.

Lemma Iso_compare_le (a b : string) :
  Iso.compare a b ≤ 0 ↔ a = b ∨ String_as_OT.lt a b.
Proof.
  unfold Iso.compare. destruct (String_as_OT.cmp a b) eqn:E.
  - apply String_as_OT.cmp_eq in E. split; [tauto | lia].
  - apply String_as_OT.cmp_lt in E. split; [tauto | lia].
  - split; [lia |]. intros [-> | H].
    + assert (String_as_OT.cmp b b = Eq) as E' by (apply String_as_OT.cmp_eq; reflexivity).
      congruence.
    + apply String_as_OT.cmp_lt in H. congruence.
Qed.

Lemma Iso_compare_trans (a b c : string) :
  Iso.compare a b ≤ 0 → Iso.compare b c ≤ 0 → Iso.compare a c ≤ 0.
Proof.
  rewrite !Iso_compare_le. intros [-> | H1] [-> | H2]; auto.
  right. eapply String_as_OT.lt_trans; eassumption.
Qed.

(** The day of the specification's example, and a day with a single IN. *)
Lemma getPunchHistory_pairs_witness :
  let data :=
    [Punch.mk "uuid-1" "uuid-0" IN "2024-01-15T08:05:00+00:00";
     Punch.mk "uuid-2" "uuid-0" OUT "2024-01-15T12:00:00+00:00";
     Punch.mk "uuid-3" "uuid-0" IN "2024-01-15T12:30:00+00:00";
     Punch.mk "uuid-4" "uuid-0" OUT "2024-01-15T16:40:00+00:00";
     Punch.mk "uuid-5" "uuid-0" IN "2024-01-16T09:00:00+00:00"] in
  let history := pairPunches (rt := iso_runtime 0) data in
  Forall (λ p, Punch.timestamp p ≠ "") data
  ∧ history =
      [PunchPair.mk "2024-01-16" (Some "2024-01-16T09:00:00+00:00") None 0;
       PunchPair.mk "2024-01-15" (Some "2024-01-15T08:05:00+00:00")
         (Some "2024-01-15T16:40:00+00:00") 30900000]
  ∧ NoDup (map PunchPair.date history)
  ∧ StronglySorted (date_desc (rt := iso_runtime 0)) history.
Proof.
  intros data history.
  assert (H : Forall (λ p, Punch.timestamp p ≠ "") data)
    by (repeat constructor; discriminate).
  split; [exact H |]. split; [reflexivity |].
  pose proof (getPunchHistory_pairs (rt := iso_runtime 0)
                Iso_compare_total Iso_compare_trans data H) as (Hn & _ & _ & Hs & _).
  split; [exact Hn | exact Hs].
Defined.

(** ** The weekly aggregator *)

Section WeeklyHours.
Context {rt : JsRuntime} {pg : Postgres}.

Lemma day_hours_snoc (name : string) (l : list PunchPair.t) (x : PunchPair.t) :
  day_hours name (l ++ [x]) =
    if decide (dayName x = name)
    then Some (default 0%Q (day_hours name l) + hours (PunchPair.totalMs x))%Q
    else day_hours name l.
Proof.
  unfold day_hours. rewrite filter_app, filter_cons, filter_nil.
  destruct (decide (dayName x = name)); [| by rewrite app_nil_r].
  destruct (filter _ l) as [| a ps]; [reflexivity |].
  transitivity
    (Some (foldl (λ q p, (q + hours (PunchPair.totalMs p))%Q) 0%Q
             ((a :: ps) ++ [x]))); [reflexivity |].
  by rewrite foldl_snoc.
Qed.

(** What the loop of [getWeeklyHours] computes. *)
Lemma weekly_loop (start : Z) (history : list PunchPair.t) :
  let acc := foldl (addDay start) (0, ∅) history in
  acc.1 = sum_ms (kept start history)
  ∧ ∀ name, acc.2 !! name = day_hours name (kept start history).
Proof.
  induction history as [| x l IH] using rev_ind; [by split |].
  cbv zeta in *. rewrite foldl_snoc. unfold kept in *. rewrite filter_app.
  destruct IH as [IH1 IH2]. unfold addDay at 1 3.
  rewrite filter_cons, filter_nil.
  destruct (inWeek start x) eqn:E.
  - rewrite decide_True by done. cbn [fst snd]. split.
    + unfold sum_ms in *. rewrite foldl_snoc. by rewrite IH1.
    + intros name. rewrite day_hours_snoc. fold (dayName x).
      destruct (decide (dayName x = name)) as [-> | Hne].
      * by rewrite lookup_insert_eq, IH2.
      * by rewrite lookup_insert_ne, IH2.
  - rewrite decide_False by (by rewrite not_true_iff_false).
    rewrite app_nil_r. by split.
Qed.

(** The aggregate of a history: the sum over the kept pairs, that sum in
    hours, and per weekday name the added hours of the kept pairs of that
    name. *)
Lemma weekly_totals (start : Z) (history : list PunchPair.t) :
  let r := weekly start history in
  Weekly.totalMs r = sum_ms (kept start history)
  ∧ Weekly.totalHours r = hours (Weekly.totalMs r)
  ∧ ∀ name, Weekly.dailyHours r !! name = day_hours name (kept start history).
Proof.
  destruct (weekly_loop start history) as [H1 H2]. cbv zeta in *.
  unfold weekly. cbn [Weekly.totalMs Weekly.totalHours Weekly.dailyHours].
  by rewrite H1.
Qed.

Lemma localDay_setHours (t : Z) :
  Date_localDay (Date_setHours t 0 0 0 0) = Date_localDay t.
Proof.
  unfold Date_setHours, Date_localDay.
  replace (_ + tzOffsetMs) with (((t + tzOffsetMs) / 86400000) * 86400000) by lia.
  by rewrite Z.div_mul.
Qed.

Lemma localDay_addDays (t k : Z) :
  Date_localDay (Date_addDays t k) = Date_localDay t + k.
Proof.
  unfold Date_addDays, Date_localDay.
  replace (t + k * 86400000 + tzOffsetMs) with (t + tzOffsetMs + k * 86400000) by lia.
  by rewrite Z.div_add.
Qed.

(** The week start is the local midnight that began the Monday of the
    current week: six days back on a Sunday, [getDay() - 1] days back
    otherwise. *)
Lemma startOfWeek_monday (now : Z) :
  let back := if Date_getDay now =? 0 then 6 else Date_getDay now - 1 in
  startOfWeek now = (Date_localDay now - back) * 86400000 - tzOffsetMs
  ∧ Date_getDay (startOfWeek now) = 1
  ∧ 0 ≤ back ≤ 6.
Proof.
  cbv zeta. unfold startOfWeek.
  set (back := if Date_getDay now =? 0 then 6 else Date_getDay now - 1).
  assert (Hd : Date_localDay (Date_setHours (Date_addDays now (- back)) 0 0 0 0)
               = Date_localDay now - back).
  { rewrite localDay_setHours, localDay_addDays. lia. }
  pose proof (Z.mod_pos_bound (Date_localDay now + 4) 7 ltac:(lia)) as Hb.
  pose proof (Z.div_mod (Date_localDay now + 4) 7 ltac:(lia)) as Hq.
  fold (Date_getDay now) in Hb, Hq.
  split; [| split].
  - unfold Date_setHours at 1. rewrite localDay_addDays. lia.
  - unfold Date_getDay at 1. rewrite Hd. subst back.
    destruct (Z.eqb_spec (Date_getDay now) 0) as [E | E].
    + symmetry. apply (Z.mod_unique_pos _ 7 ((Date_localDay now + 4) / 7 - 1)); lia.
    + symmetry. apply (Z.mod_unique_pos _ 7 ((Date_localDay now + 4) / 7)); lia.
  - subst back. destruct (Z.eqb_spec (Date_getDay now) 0); lia.
Qed.

(** A pair whose date string denotes midnight UTC of day [d] against the
    week start on local day [monday]: at or east of Greenwich the pair is
    kept from Monday on and is filed under the weekday of [d]; west of
    Greenwich the pair of Monday itself is dropped and every kept pair is
    filed under the weekday before its date. *)
Lemma inWeek_by_offset (p : PunchPair.t) (d monday : Z) :
  Date_getTime (PunchPair.date p) = d * 86400000 →
  let start := monday * 86400000 - tzOffsetMs in
  (0 ≤ tzOffsetMs < 86400000 →
     (inWeek start p = true ↔ monday ≤ d)
     ∧ Date_localDay (Date_getTime (PunchPair.date p)) = d)
  ∧ (-86400000 < tzOffsetMs < 0 →
       (inWeek start p = true ↔ monday + 1 ≤ d)
       ∧ Date_localDay (Date_getTime (PunchPair.date p)) = d - 1).
Proof.
  intros Hp. cbv zeta. unfold inWeek, Date_localDay. rewrite Hp.
  split; intros Htz; (split; [rewrite Z.geb_le; lia |]).
  - symmetry. apply (Z.div_unique_pos _ _ d tzOffsetMs); lia.
  - symmetry. apply (Z.div_unique_pos _ _ (d - 1) (tzOffsetMs + 86400000)); lia.
Qed.

End WeeklyHours.

Section WeeklyRun.
Context {rt : JsRuntime} {pg : Postgres}.

Lemma getWeeklyHours_run (demo : bool) (workerId : string) (w : World) :
  (run (getWeeklyHours demo workerId) w).1 =
    match (run (getPunchHistory demo workerId 7) w).1 with
    | Ok history => weekly (startOfWeek (clock w)) history
    | Fail _ => Weekly.mk 0 0 ∅
    end.
Proof.
  transitivity
    (run (Vis DateNow (λ now,
            bind (getPunchHistory demo workerId 7) (λ result,
              match result with
              | Ok history => Ret (weekly (startOfWeek now) history)
              | Fail _ => Ret (Weekly.mk 0 0 ∅)
              end))) w).1; [reflexivity |].
  cbn [run handle]. rewrite run_bind.
  destruct (run (getPunchHistory demo workerId 7) w) as [[h | e] w']; reflexivity.
Qed.

End WeeklyRun.

(** C2 west of Greenwich.  The week start is Monday 15 January, 00:00 local
    time.  The history has the three dates, each on or after that Monday, yet
    the pair of Monday is left out of the total (10.5 hours instead of 18.5),
    Tuesday's eight hours are filed under Mon and Wednesday's under Tue.  At
    Greenwich the same store gives the three days under their own names. *)
Theorem getWeeklyHours_west_of_greenwich :
  let history rt := (run (rt := rt) (getPunchHistory (rt := rt) false "uuid-0" 7)
                       this_week).1 in
  let weekly rt := (run (rt := rt) (getWeeklyHours (rt := rt) false "uuid-0")
                      this_week).1 in
  let daily rt := map_to_list (Qred <$> Weekly.dailyHours (weekly rt)) in
  Iso.toISOString (startOfWeek (rt := new_york) wednesday_noon)
    = "2024-01-15T05:00:00.000Z"
  ∧ result_map (map (λ p, (PunchPair.date p, PunchPair.totalMs p)))
      (history new_york)
    = Ok [("2024-01-17", 9000000); ("2024-01-16", 28800000);
          ("2024-01-15", 28800000)]
  ∧ Weekly.totalMs (weekly new_york) = 37800000
  ∧ daily new_york = [("Mon", 8%Q); ("Tue", (5 # 2)%Q)]
  ∧ Weekly.totalMs (weekly (iso_runtime 0)) = 66600000
  ∧ daily (iso_runtime 0) = [("Wed", (5 # 2)%Q); ("Mon", 8%Q); ("Tue", 8%Q)].
Proof. repeat split; vm_compute; reflexivity. Qed.

(* ================================================================== *)
(** * Further properties                                               *)
(* ================================================================== *)

(** ** Status, clock-in and clock-out *)

Section KioskProperties.
Context {rt : JsRuntime} {pg : Postgres}.

Lemma set_core_core (s : Site) : set_core (core s) s = s.
Proof. by destruct s. Qed.

Lemma krun_lift {R : Type} (p : prog R) (s : Site) :
  krun (lift p) s = ((run p (core s)).1, set_core (run p (core s)).2 s).
Proof.
  revert s. induction p as [r | X e k IH]; intros s.
  - cbn. by rewrite set_core_core.
  - cbn. destruct (handle e (core s)) as [x w'] eqn:He. rewrite IH.
    by destruct s.
Qed.

#[local] Existing Instance later_dec.
#[local] Instance later_total : Total later.
Proof. intros a b. unfold later. lia. Qed.
#[local] Instance later_trans : Transitive later.
Proof. intros a b c. unfold later. lia. Qed.

(** The most recent punch of a worker heads the worker's punches. *)
Lemma punchesOf_spec (workerId : string) (w : World) :
  match punchesOf workerId w with
  | [] => ∀ p, p ∈ punches w → Punch.worker_id p ≠ workerId
  | p :: _ =>
      p ∈ punches w ∧ Punch.worker_id p = workerId
      ∧ ∀ q, q ∈ punches w → Punch.worker_id q = workerId →
             punchTime q ≤ punchTime p
  end.
Proof.
  unfold punchesOf.
  pose proof (merge_sort_Permutation later
                (filter (λ p, Punch.worker_id p = workerId) (punches w))) as HP.
  pose proof (StronglySorted_merge_sort later
                (filter (λ p, Punch.worker_id p = workerId) (punches w))) as HS.
  destruct (merge_sort later _) as [| p l].
  - intros q Hq Hw.
    assert (q ∈ ([] : list Punch.t)) as Hn; [| by apply elem_of_nil in Hn].
    rewrite HP. apply list_elem_of_filter. done.
  - assert (∀ q, q ∈ p :: l ↔ q ∈ punches w ∧ Punch.worker_id q = workerId) as Hin.
    { intros q. rewrite HP, list_elem_of_filter. tauto. }
    destruct (proj1 (Hin p)) as [Hp Hw]; [left |].
    split; [exact Hp |]. split; [exact Hw |].
    intros q Hq Hqw.
    assert (q ∈ p :: l) as Hql by (apply Hin; done).
    apply StronglySorted_inv in HS as [_ HF].
    apply elem_of_cons in Hql as [-> | Hql]; [unfold punchTime; lia |].
    rewrite Forall_forall in HF. exact (HF q Hql).
Qed.

(** X1. Demo mode.  After [clockIn] the status of the worker is clocked in
    since the instant of the call; after [clockOut], whatever clock-in time
    the caller passes, it is clocked out with no clock-in time; neither call
    touches the status of another worker. *)
Theorem clock_round_trip_demo (workerId other : string)
    (clockInTime : option string) (s : Site) :
  let s1 := (krun (lift (clockIn true workerId)) s).2 in
  let s2 := (krun (lift (clockOut true workerId clockInTime)) s1).2 in
  (krun (getWorkerStatus true workerId) s1).1
    = Status.mk true (Some (Date_toISOString (clock (core s)))) None
  ∧ (krun (getWorkerStatus true workerId) s2).1 = Status.mk false None None
  ∧ (other ≠ workerId →
       (krun (getWorkerStatus true other) s1).1
         = (krun (getWorkerStatus true other) s).1
       ∧ (krun (getWorkerStatus true other) s2).1
         = (krun (getWorkerStatus true other) s).1).
Proof.
  cbv zeta. rewrite !krun_lift.
  destruct s as [w de we pl]. cbn.
  destruct (or_null clockInTime); cbn;
    (split; [by rewrite lookup_insert_eq |]);
    (split; [by rewrite lookup_insert_eq |]);
    intros Hne; by rewrite !lookup_insert_ne.
Qed.

(** X2. Demo mode: a worker clocks in, [ms] milliseconds pass, the kiosk
    reads the status and clocks the worker out with the clock-in time of
    that status.  The time worked is the time between the two readings of
    the clock (the delays of the demo included), when the runtime reads an
    instant back from the string it printed. *)
Theorem session_time_demo (workerId : string) (ms : Z) (s : Site) :
  Date_toISOString (clock (core s)) ≠ "" →
  Date_getTime (Date_toISOString (clock (core s))) = clock (core s) →
  let s1 := wait ms (krun (lift (clockIn true workerId)) s).2 in
  let st := krun (getWorkerStatus true workerId) s1 in
  let out := krun (lift (clockOut true workerId (Status.clockInTime st.1))) st.2 in
  ∃ x, out.1 = Ok x
       ∧ timeWorkedMs x = clock (core st.2) - clock (core s)
       ∧ timeWorkedMs x = ms + 800
       ∧ timeWorked x = formatDuration (ms + 800).
Proof.
  intros Hne Hrt. cbv zeta. rewrite !krun_lift.
  destruct s as [w de we pl]. cbn in *.
  rewrite lookup_insert_eq. cbn.
  destruct (decide (Date_toISOString (clock w) = "")) as [? | _]; [done |].
  cbn. rewrite Hrt. eexists. split; [reflexivity |]. cbn.
  replace (clock w + 600 + ms + 200 - clock w) with (ms + 800) by lia.
  done.
Qed.

End KioskProperties.

Lemma clock_round_trip_demo_witness :
  "demo-3" ≠ "demo-1"
  ∧ (krun (rt := iso_runtime 0) (getWorkerStatus true "demo-3")
       (krun (rt := iso_runtime 0)
          (lift (clockIn (rt := iso_runtime 0) true "demo-1")) shop).2).1
    = (krun (rt := iso_runtime 0) (getWorkerStatus true "demo-3") shop).1.
Proof.
  split; [done |].
  exact (proj1 (proj2 (proj2 (clock_round_trip_demo (rt := iso_runtime 0)
                                "demo-1" "demo-3" None shop)) ltac:(done))).
Defined.

Lemma session_time_demo_witness :
  Iso.toISOString 1705510800000 ≠ ""
  ∧ Iso.getTime 0 (Iso.toISOString 1705510800000) = 1705510800000
  ∧ ∃ x,
      (krun (rt := iso_runtime 0)
         (lift (clockOut (rt := iso_runtime 0) true "demo-1"
                  (Status.clockInTime
                     (krun (rt := iso_runtime 0) (getWorkerStatus true "demo-1")
                        (wait 3600000
                           (krun (rt := iso_runtime 0)
                              (lift (clockIn (rt := iso_runtime 0) true "demo-1"))
                              shop).2)).1)))
         (krun (rt := iso_runtime 0) (getWorkerStatus true "demo-1")
            (wait 3600000
               (krun (rt := iso_runtime 0)
                  (lift (clockIn (rt := iso_runtime 0) true "demo-1")) shop).2)).2).1
      = Ok x
      ∧ timeWorked x = "1h 0m".
Proof.
  assert (Iso.toISOString 1705510800000 ≠ "") as H1 by (vm_compute; discriminate).
  assert (Iso.getTime 0 (Iso.toISOString 1705510800000) = 1705510800000) as H2
    by (vm_compute; reflexivity).
  split; [exact H1 |]. split; [exact H2 |].
  destruct (session_time_demo (rt := iso_runtime 0) "demo-1" 3600000 shop H1 H2)
    as (x & Hx & _ & _ & Hf).
  exists x. split; [exact Hx |]. rewrite Hf. vm_compute. reflexivity.
Defined.

Section KioskLive.
Context {rt : JsRuntime} {pg : Postgres}.

#[local] Existing Instance later_dec.
#[local] Existing Instance later_total.
#[local] Existing Instance later_trans.

Lemma selectLastPunch_spec (workerId : string) (w : World) :
  selectLastPunch workerId w =
    match punchesOf workerId w with
    | [] => Error not_a_single_row
    | p :: _ => Data (Punch.type p, Punch.timestamp p)
    end.
Proof.
  unfold selectLastPunch. by destruct (punchesOf workerId w) as [| p [| q l]].
Qed.

(** X3. Live mode.  [getWorkerStatus] changes nothing.  The most recent
    punch of the worker decides: the worker is clocked in exactly when that
    punch is an IN, and the clock-in time is then its timestamp.  A worker
    without a punch is clocked out, and so is every worker while the store
    does not answer. *)
Theorem getWorkerStatus_live (workerId : string) (s : Site) :
  let r := krun (getWorkerStatus false workerId) s in
  r.2 = s
  ∧ (store_up (core s) = false → r.1 = Status.mk false None None)
  ∧ (store_up (core s) = true →
       (∀ p, p ∈ punches (core s) → Punch.worker_id p ≠ workerId) →
       r.1 = Status.mk false None None)
  ∧ (store_up (core s) = true →
       (∃ q, q ∈ punches (core s) ∧ Punch.worker_id q = workerId) →
       ∃ p, p ∈ punches (core s) ∧ Punch.worker_id p = workerId
            ∧ (∀ q, q ∈ punches (core s) → Punch.worker_id q = workerId →
                    punchTime q ≤ punchTime p)
            ∧ r.1 = Status.mk (bool_decide (Punch.type p = IN))
                      (if decide (Punch.type p = IN)
                       then Some (Punch.timestamp p) else None)
                      (Some (Punch.type p, Punch.timestamp p))).
Proof.
  cbv zeta. cbn. unfold kquery. rewrite selectLastPunch_spec.
  pose proof (punchesOf_spec workerId (core s)) as Hspec.
  destruct (store_up (core s)) eqn:Hup.
  - destruct (punchesOf workerId (core s)) as [| p l]; cbn.
    + split; [done |]. split; [done |]. split; [done |].
      intros _ (q & Hq & Hw). by destruct (Hspec q Hq).
    + destruct Hspec as (Hp & Hw & Hmax).
      split; [done |]. split; [done |]. split.
      * intros _ Hnone. by destruct (Hnone p Hp).
      * intros _ _. exists p. done.
  - cbn. split; [done |]. split; [done |]. split; done.
Qed.



(** X5. [clockIn] in live mode fails, and stores nothing, exactly when the
    store does not answer or the worker is not a row of [workers] (the foreign
    key of [punches.worker_id]); in demo mode it never fails. *)
Theorem clockIn_failure (workerId : string) (w : World) :
  (success (run (clockIn true workerId) w).1 = true)
  ∧ (success (run (clockIn false workerId) w).1
     = store_up w && has_worker workerId w)
  ∧ (success (run (clockIn false workerId) w).1 = false →
     (run (clockIn false workerId) w) = (Fail clock_in_failed, w)).
Proof.
  split; [reflexivity |]. cbn. unfold query, insertPunch.
  destruct (store_up w); [| by cbn].
  destruct (has_worker workerId w); by cbn.
Qed.

End KioskLive.


Lemma clockIn_failure_witness :
  success (run (rt := iso_runtime 0) (clockIn (rt := iso_runtime 0) false "uuid-9")
             office).1 = false
  ∧ run (rt := iso_runtime 0) (clockIn (rt := iso_runtime 0) false "uuid-9") office
    = (Fail clock_in_failed, office).
Proof.
  assert (success (run (rt := iso_runtime 0)
                     (clockIn (rt := iso_runtime 0) false "uuid-9") office).1
          = false) as H by reflexivity.
  split; [exact H |].
  exact (proj2 (proj2 (clockIn_failure (rt := iso_runtime 0) "uuid-9" office)) H).
Defined.

(** ** Production logs *)

Section Production.
Context {rt : JsRuntime} {pg : Postgres}.


Lemma validEntries_nil (entries : list ProductionEntry.t) :
  validEntries entries = []
  ↔ Forall (λ e, (ProductionEntry.quantity e <= 0)%Q) entries.
Proof.
  unfold validEntries. rewrite filter_nil_iff, Forall_forall.
  split; intros H e He; specialize (H e He); lra.
Qed.

(** X6. [logProduction] fails with the no-tasks error, and without a single
    call, exactly when no entry has a positive quantity (the empty list
    included); this is so in both modes. *)
Theorem logProduction_no_tasks (demo : bool) (workerId : string)
    (entries : list ProductionEntry.t) :
  logProduction demo workerId entries = KRet (Fail no_tasks)
  ↔ Forall (λ e, (ProductionEntry.quantity e <= 0)%Q) entries.
Proof.
  rewrite <- validEntries_nil. unfold logProduction.
  destruct (validEntries entries) as [| e l] eqn:Hv; cbn.
  - done.
  - split; [| done]. destruct demo; discriminate.
Qed.

Lemma krun_bind {A B : Type} (m : kprog A) (f : A → kprog B) (s : Site) :
  krun (kbind m f) s = let '(a, s') := krun m s in krun (f a) s'.
Proof.
  revert s. induction m as [r | X ev k IH]; intros s; [reflexivity |].
  cbn. destruct (khandle ev s) as [x s']. apply IH.
Qed.

Lemma demoLogs_run (workerId : string) (i : nat)
    (entries : list ProductionEntry.t) (s : Site) :
  krun (demoLogs workerId i entries) s =
    (imap (λ j e, ProductionLog.mk ("demo-log-" +:+ pretty (i + j)%nat) workerId
                    (ProductionEntry.taskName e) (ProductionEntry.quantity e)
                    (Date_toISOString (clock (core s))))
       entries, s).
Proof.
  revert i. induction entries as [| e es IH]; intros i; [reflexivity |].
  cbn [demoLogs]. unfold mbind, kprog_bind. cbn [kcall kbind krun khandle handle].
  rewrite set_core_core, krun_bind, IH. cbn. rewrite Nat.add_0_r. f_equal. f_equal.
  apply imap_ext. intros j x _. cbn. by rewrite Nat.add_succ_r.
Qed.

(** X7. Demo mode, some entry with a positive quantity.  [logProduction]
    answers one log per entry with a positive quantity, in the order of the
    entries, numbered from 0 (["demo-log-0"], ["demo-log-1"], ...), all
    stamped with the instant after the delay; nothing is stored: but for the
    clock the site is as before. *)
Theorem logProduction_demo (workerId : string)
    (entries : list ProductionEntry.t) (s : Site) :
  validEntries entries ≠ [] →
  krun (logProduction true workerId entries) s =
    (Ok (imap (λ j e, ProductionLog.mk ("demo-log-" +:+ pretty j) workerId
                        (ProductionEntry.taskName e) (ProductionEntry.quantity e)
                        (Date_toISOString (clock (core s) + 800)))
           (validEntries entries)),
     wait 800 s).
Proof.
  intros Hne. unfold logProduction.
  destruct (validEntries entries) as [| e l] eqn:Hv; [done |].
  cbn [length Nat.eqb]. unfold mbind, kprog_bind.
  cbn [kcall kbind krun khandle handle].
  rewrite krun_bind, demoLogs_run. reflexivity.
Qed.





End Production.

Lemma logProduction_demo_witness :
  let entries := [ProductionEntry.mk "Picking" 12; ProductionEntry.mk "Packing" 0;
                  ProductionEntry.mk "Loading" (5 # 2)] in
  validEntries entries ≠ []
  ∧ (krun (rt := iso_runtime 0)
       (logProduction (rt := iso_runtime 0) true "demo-1" entries) shop).1
    = Ok [ProductionLog.mk "demo-log-0" "demo-1" "Picking" 12
            "2024-01-17T17:00:00.800Z";
          ProductionLog.mk "demo-log-1" "demo-1" "Loading" (5 # 2)
            "2024-01-17T17:00:00.800Z"].
Proof.
  cbv zeta.
  assert (validEntries [ProductionEntry.mk "Picking" 12;
                        ProductionEntry.mk "Packing" 0;
                        ProductionEntry.mk "Loading" (5 # 2)] ≠ []) as H
    by (vm_compute; discriminate).
  split; [exact H |].
  rewrite (logProduction_demo (rt := iso_runtime 0) "demo-1" _ shop H).
  vm_compute. reflexivity.
Defined.


(** ** Logging in: the dashboard and the kiosk *)

Section Dashboard.
Context {rt : JsRuntime} {pg : Postgres}.

Lemma filter_singleton {A : Type} (P : A → Prop) `{∀ x, Decision (P x)}
    (l : list A) (x : A) :
  filter P l = [x] → x ∈ l ∧ P x.
Proof.
  intros Hf. assert (x ∈ filter P l) as Hx by (rewrite Hf; left).
  apply list_elem_of_filter in Hx. tauto.
Qed.

Lemma selectWorkerByPin_data (pin : string) (w : World) (i : WorkerInfo.t) :
  selectWorkerByPin pin w = Data i →
  ∃ x, x ∈ workers w ∧ Worker.pin x = pin ∧ Worker.is_active x = true
       ∧ i = Worker.info x.
Proof.
  unfold selectWorkerByPin, single.
  destruct (filter _ (workers w)) as [| x [| y l]] eqn:Hf; try discriminate.
  intros [= <-]. apply filter_singleton in Hf as (Hx & Hp & Ha). by exists x.
Qed.

(** X9. [authenticateWorkerForDashboard] has no administrator: when it
    succeeds, a stored worker has the PIN (a demo worker in demo mode, an
    active row of [workers] in live mode), the identity returned is that
    worker's and the e-mail address returned is not empty (in live mode it is
    the one of the row).  For every PIN but the administrator's, the kiosk
    login [authenticateWorker] then succeeds as well, with the same identity.
    A failure is the invalid-PIN error or, in live mode only, the missing
    e-mail error. *)
Theorem authenticateWorkerForDashboard_spec (demo : bool) (pin : string)
    (s : Site) :
  let r := (krun (authenticateWorkerForDashboard demo pin) s).1 in
  (∀ d, r = Ok d →
     DashboardWorker.email d ≠ ""
     ∧ (if demo
        then ∃ x, x ∈ DEMO_WORKERS (core s) ∧ DemoWorker.pin x = pin
                  ∧ DashboardWorker.info d = DemoWorker.info x
        else ∃ x, x ∈ workers (core s) ∧ Worker.pin x = pin
                  ∧ Worker.is_active x = true
                  ∧ DashboardWorker.info d = Worker.info x
                  ∧ worker_emails s !! Worker.id x
                    = Some (DashboardWorker.email d))
     ∧ (pin ≠ "000000" →
        (run (authenticateWorker demo pin) (core s)).1
          = Ok (mkAuthOk (DashboardWorker.info d) false)))
  ∧ (∀ e, r = Fail e → e = invalid_pin ∨ demo = false ∧ e = no_email).
Proof.
  cbv zeta. unfold authenticateWorkerForDashboard, authenticateWorker.
  destruct demo.
  - unfold mbind, kprog_bind, prog_bind.
    cbn [kcall kbind krun khandle handle call bind run fst snd core set_core
           DEMO_WORKERS set_clock].
    pose proof (find_pin pin (DEMO_WORKERS (core s))) as Hfind.
    destruct (List.find _ (DEMO_WORKERS (core s))) as [x |] eqn:Hf.
    + cbn. split; [| intros e [=]]. intros d [= <-]. cbn.
      destruct Hfind as [Hx Hp]. split.
      * destruct (DEMO_EMAILS s !! DemoWorker.id x) as [m |]; cbn; [| done].
        by destruct (decide (m = "")).
      * split; [by exists x |]. intros Hne.
        destruct (decide (pin = "000000")) as [? | _]; [done |].
        cbn. by rewrite Hf.
    + cbn. split; [intros d [=] |]. intros e [= <-]. by left.
  - unfold mbind, kprog_bind, prog_bind.
    cbn [kcall kbind krun khandle handle call bind run fst snd].
    unfold kquery, query, selectWorkerWithEmail.
    destruct (store_up (core s)) eqn:Hup.
    + destruct (selectWorkerByPin pin (core s)) as [i | c] eqn:Hsel.
      * destruct (selectWorkerByPin_data _ _ _ Hsel) as (x & Hx & Hp & Ha & ->).
        cbn. destruct (worker_emails s !! Worker.id x) as [m |] eqn:Hm; cbn.
        -- destruct (decide (m = "")) as [-> | Hm']; cbn.
           ++ split; [intros d [=] |]. intros e [= <-]. by right.
           ++ split; [| intros e [=]]. intros d [= <-]. cbn.
              split; [done |]. split; [by exists x |]. intros Hne.
              destruct (decide (pin = "000000")) as [? | _]; [done |].
              cbn. unfold query. by rewrite Hup, Hsel.
        -- split; [intros d [=] |]. intros e [= <-]. by right.
      * cbn. split; [intros d [=] |]. intros e [= <-]. by left.
    + cbn. split; [intros d [=] |]. intros e [= <-]. by left.
Qed.

Lemma find_append {A : Type} (f : A → bool) (l l' : list A) :
  List.find f (l ++ l') =
    match List.find f l with Some x => Some x | None => List.find f l' end.
Proof. induction l as [| a l IH]; cbn; [done |]. by destruct (f a). Qed.

(** X10. A worker that [createWorker] has just created logs in at the kiosk
    with the PIN and gets the identity [createWorker] returned: the name is
    the trimmed one.  This is so for every PIN but ["000000"]: [createWorker]
    accepts that PIN like any other six digits, and [authenticateWorker] then
    still answers the administrator, never the worker. *)
Theorem createWorker_then_authenticate (demo : bool) (pin fullName role : string)
    (w : World) (x : DemoWorker.t) :
  let c := run (createWorker demo pin fullName role) w in
  c.1 = Ok x →
  DemoWorker.pin x = pin ∧ DemoWorker.full_name x = trim fullName
  ∧ DemoWorker.role x = role
  ∧ (run (authenticateWorker demo pin) c.2).1
    = if decide (pin = "000000") then Ok admin
      else Ok (mkAuthOk (DemoWorker.info x) false).
Proof.
  cbv zeta.
  destruct (six_digits pin) eqn:Hsix.
  2:{ unfold createWorker. rewrite Hsix. cbn. discriminate. }
  destruct (decide (trim fullName = "")) as [Hb | Hb].
  { unfold createWorker. rewrite Hsix. cbn.
    destruct (decide (trim fullName = "")); [| done]. cbn. discriminate. }
  destruct demo.
  - rewrite createWorker_demo by done.
    destruct (existsb _ (DEMO_WORKERS w)) eqn:Hex; [discriminate |].
    cbv zeta. cbn [fst snd]. intros [= <-]. cbn [DemoWorker.pin
      DemoWorker.full_name DemoWorker.role]. repeat (split; [done |]).
    unfold authenticateWorker.
    destruct (decide (pin = "000000")) as [_ | Hne]; [reflexivity |].
    unfold mbind, prog_bind. cbn [call bind run handle fst snd DEMO_WORKERS
      set_DEMO_WORKERS set_clock].
    pose proof (find_pin pin (DEMO_WORKERS w)) as Hfind.
    rewrite find_append.
    destruct (List.find _ (DEMO_WORKERS w)) as [y |] eqn:Hf.
    + destruct Hfind as [Hy Hp].
      assert (existsb (λ d, bool_decide (DemoWorker.pin d = pin)) (DEMO_WORKERS w)
              = true) as Hex'; [| by rewrite Hex' in Hex].
      apply existsb_pin_demo. by exists y.
    + cbn. by rewrite bool_decide_eq_true_2.
  - rewrite createWorker_live by done.
    destruct (store_up w) eqn:Hup; [| discriminate].
    unfold insertWorker.
    destruct (negb _); [discriminate |].
    destruct (existsb _ (workers w)) eqn:Hex; [discriminate |].
    cbv zeta. cbn [fst snd]. intros [= <-].
    cbn [Worker.created DemoWorker.pin DemoWorker.full_name DemoWorker.role
         Worker.pin Worker.full_name Worker.role Worker.id].
    repeat (split; [done |]).
    unfold authenticateWorker.
    destruct (decide (pin = "000000")) as [_ | Hne]; [reflexivity |].
    unfold mbind, prog_bind. cbn [call bind run handle fst snd].
    unfold query. cbn [store_up add_worker]. rewrite Hup.
    unfold selectWorkerByPin. cbn [workers add_worker].
    rewrite filter_app.
    assert (filter (λ r, Worker.pin r = pin ∧ Worker.is_active r = true) (workers w)
            = []) as ->.
    { apply filter_nil_iff. intros y Hy [Hp _].
      assert (existsb (λ d, bool_decide (Worker.pin d = pin)) (workers w) = true)
        as Hex'; [| by rewrite Hex' in Hex].
      apply existsb_pin. by exists y. }
    rewrite filter_cons_True by done. cbn. reflexivity.
Qed.

End Dashboard.

Lemma authenticateWorkerForDashboard_spec_witness :
  let d := DashboardWorker.mk (WorkerInfo.mk "uuid-0" "John Smith" "worker")
             "john.smith@example.com" in
  (krun (rt := iso_runtime 0) (authenticateWorkerForDashboard false "123456")
     shop).1 = Ok d
  ∧ "123456" ≠ "000000"
  ∧ (run (rt := iso_runtime 0) (authenticateWorker false "123456") (core shop)).1
    = Ok (mkAuthOk (DashboardWorker.info d) false).
Proof.
  cbv zeta.
  assert ((krun (rt := iso_runtime 0)
             (authenticateWorkerForDashboard false "123456") shop).1
          = Ok (DashboardWorker.mk (WorkerInfo.mk "uuid-0" "John Smith" "worker")
                  "john.smith@example.com")) as H by (vm_compute; reflexivity).
  split; [exact H |]. split; [done |].
  exact (proj2 (proj2 (proj1 (authenticateWorkerForDashboard_spec
                                (rt := iso_runtime 0) false "123456" shop) _ H))
           ltac:(done)).
Defined.

Lemma createWorker_then_authenticate_witness :
  let c := run (rt := iso_runtime 0) (createWorker true "000000" " Ann Lee " "worker")
             office in
  c.1 = Ok (DemoWorker.mk "demo-1705510800600" "000000" "Ann Lee" "worker")
  ∧ (run (rt := iso_runtime 0) (authenticateWorker true "000000") c.2).1
    = Ok admin.
Proof.
  cbv zeta.
  assert ((run (rt := iso_runtime 0)
             (createWorker true "000000" " Ann Lee " "worker") office).1
          = Ok (DemoWorker.mk "demo-1705510800600" "000000" "Ann Lee" "worker"))
    as H by (vm_compute; reflexivity).
  split; [exact H |].
  exact (proj2 (proj2 (proj2 (createWorker_then_authenticate (rt := iso_runtime 0)
                                true "000000" " Ann Lee " "worker" office _ H)))).
Defined.

(** ** Time off: denial, failures that stay hidden, submission *)

Section TimeOffMore.
Context {rt : JsRuntime} {pg : Postgres}.

(** What a denial by [managerId] at [t] leaves on a request. *)
Lemma review_one_denied (i m : string) (t : Z) (reason : option string)
    (r : TimeOff.t) :
  let r' := review_one i (TimeOff.mk_updates denied m t (Some (or_null reason))) r in
  if decide (TimeOff.id r = i)
  then TimeOff.status r' = denied ∧ TimeOff.reviewed_by r' = Some m
       ∧ TimeOff.reviewed_at r' = Some t
       ∧ TimeOff.denial_reason r' = or_null reason
       ∧ same_request r r'
  else r' = r.
Proof.
  cbv zeta. unfold review_one.
  destruct (decide (TimeOff.id r = i)); [| done]. by repeat split.
Qed.

(** X11. [denyRequest].  The table that is written is the demo table in
    demo mode and for a request whose id starts with ["demo-"], the table
    [time_off_requests] otherwise (there: the store answers and the manager
    is a row of [workers]).  The call succeeds; every request of that table
    with the given id becomes denied, reviewed by the manager at the instant
    of the call, with the reason given, an empty reason being stored as null;
    it stays the same request at the same place; every other request is
    untouched. *)
Theorem denyRequest_spec (demo : bool) (i m : string) (reason : option string)
    (w : World) :
  let demo_table := demo || startsWith "demo-" i in
  let table w := if demo_table then DEMO_REQUESTS w else time_off_requests w in
  (if demo_table then True else store_up w = true ∧ has_worker m w = true) →
  let a := run (denyRequest demo i m reason) w in
  a.1 = Ok ()
  ∧ length (table a.2) = length (table w)
  ∧ ∀ k r, table w !! k = Some r →
      ∃ r', table a.2 !! k = Some r'
            ∧ if decide (TimeOff.id r = i)
              then TimeOff.status r' = denied ∧ TimeOff.reviewed_by r' = Some m
                   ∧ TimeOff.reviewed_at r' = Some (clock w)
                   ∧ TimeOff.denial_reason r' = or_null reason
                   ∧ same_request r r'
              else r' = r.
Proof.
  cbv zeta. intros Hpre. rewrite denyRequest_review, review_run. cbv zeta.
  destruct (demo || startsWith "demo-" i) eqn:Hd.
  - cbn. split; [done |]. split; [by rewrite length_map |].
    intros k r Hk. eexists. split.
    + rewrite list_lookup_fmap, Hk. reflexivity.
    + apply review_one_denied.
  - destruct Hpre as [Hup Hm]. rewrite Hup, Hm, orb_true_r. cbn [andb fst snd].
    destruct (existsb _ (time_off_requests w)) eqn:Hex.
    + cbn. split; [done |]. split; [by rewrite length_map |].
      intros k r Hk. eexists. split.
      * rewrite list_lookup_fmap, Hk. reflexivity.
      * apply review_one_denied.
    + split; [done |]. split; [done |].
      intros k r Hk. exists r. split; [done |].
      destruct (decide (TimeOff.id r = i)) as [Hid | _]; [| done].
      assert (existsb (λ r, bool_decide (TimeOff.id r = i)) (time_off_requests w)
              = true) as Hex'; [| by rewrite Hex' in Hex].
      apply existsb_id. exists r. split; [| done].
      by eapply list_elem_of_lookup_2.
Qed.

(** X12. [approveRequest] and [denyRequest] answer success in every
    situation.  In live mode, for a request of the store, when the store does
    not answer or the manager is not a row of [workers] (the update is
    refused), the caller still sees success while the row is unchanged, so the
    request stays pending; so does the answer for an id that no request has,
    and then no table changes. *)
Theorem review_failure_masked (i m : string) (reason : option string) (w : World) :
  startsWith "demo-" i = false →
  let a := run (approveRequest false i m) w in
  let d := run (denyRequest false i m reason) w in
  (∀ demo i' m' reason' w',
     (run (approveRequest demo i' m') w').1 = Ok ()
     ∧ (run (denyRequest demo i' m' reason') w').1 = Ok ())
  ∧ (store_up w = false ∨ has_worker m w = false →
     time_off_requests a.2 = time_off_requests w
     ∧ time_off_requests d.2 = time_off_requests w)
  ∧ ((∀ r, r ∈ time_off_requests w ++ DEMO_REQUESTS w → TimeOff.id r ≠ i) →
     time_off_requests a.2 = time_off_requests w
     ∧ DEMO_REQUESTS a.2 = DEMO_REQUESTS w
     ∧ time_off_requests d.2 = time_off_requests w
     ∧ DEMO_REQUESTS d.2 = DEMO_REQUESTS w).
Proof.
  intros Hid. cbv zeta. split; [| split].
  - intros demo i' m' reason' w'.
    rewrite approveRequest_review, denyRequest_review, !review_run. cbv zeta.
    split.
    + destruct (demo || startsWith "demo-" i'); [done |]. by destruct (_ && _).
    + destruct (demo || startsWith "demo-" i'); [done |]. by destruct (_ && _).
  - intros Hfail.
    rewrite approveRequest_review, denyRequest_review, !review_run. cbv zeta.
    rewrite Hid. cbn [orb].
    destruct (store_up w) eqn:Hup; [| done].
    destruct Hfail as [? | Hm]; [done |]. rewrite Hm. cbn [andb orb].
    destruct (existsb _ (time_off_requests w)); by cbn.
  - intros Hnone.
    assert (∀ u, map (review_one i u) (time_off_requests w) = time_off_requests w)
      as Ht.
    { intros u. rewrite <- (list_fmap_id (time_off_requests w)) at 2.
      apply list_fmap_ext. intros k r Hk. unfold review_one.
      destruct (decide (TimeOff.id r = i)) as [Hr | _]; [| done].
      destruct (Hnone r); [| done]. apply elem_of_app. left.
      by eapply list_elem_of_lookup_2. }
    assert (∀ u, map (review_one i u) (DEMO_REQUESTS w) = DEMO_REQUESTS w)
      as Hdm.
    { intros u. rewrite <- (list_fmap_id (DEMO_REQUESTS w)) at 2.
      apply list_fmap_ext. intros k r Hk. unfold review_one.
      destruct (decide (TimeOff.id r = i)) as [Hr | _]; [| done].
      destruct (Hnone r); [| done]. apply elem_of_app. right.
      by eapply list_elem_of_lookup_2. }
    rewrite approveRequest_review, denyRequest_review, !review_run. cbv zeta.
    rewrite Hid. cbn [orb].
    destruct (store_up w && _); cbn [fst snd].
    + destruct (existsb _ (time_off_requests w)); cbn; by rewrite ?Ht.
    + cbn. by rewrite !Hdm.
Qed.


(** X14. A request submitted in live mode while the store does not answer
    is kept in the demo table only: once the store answers again, the three
    live listings are what they would be had the request never been
    submitted. *)
Theorem submitted_during_outage_is_unlisted (workerId other : string)
    (data : TimeOff.input) (w : World) :
  store_up w = false →
  let s := set_store_up true (run (submitTimeOffRequest false workerId data) w).2 in
  let w' := set_store_up true w in
  (run (getAllPendingRequests false) s).1 = (run (getAllPendingRequests false) w').1
  ∧ (run (getAllTimeOffRequests false) s).1 = (run (getAllTimeOffRequests false) w').1
  ∧ (run (getMyTimeOffRequests false other) s).1
    = (run (getMyTimeOffRequests false other) w').1.
Proof.
  intros Hup. cbv zeta. rewrite submit_run. unfold accepted. rewrite Hup.
  cbn [andb]. rewrite addDemoRequest_run. by cbn.
Qed.

End TimeOffMore.


Lemma denyRequest_spec_witness :
  let w := (run (rt := iso_runtime 0)
              (submitTimeOffRequest false "uuid-0" a_week_off) office).2 in
  let a := run (rt := iso_runtime 0) (denyRequest false "uuid-2" "uuid-1" (Some ""))
             w in
  (store_up w = true ∧ has_worker "uuid-1" w = true)
  ∧ a.1 = Ok ()
  ∧ (TimeOff.status <$> time_off_requests a.2) = [denied]
  ∧ (TimeOff.denial_reason <$> time_off_requests a.2) = [None].
Proof.
  cbv zeta.
  pose proof (denyRequest_spec (rt := iso_runtime 0) false "uuid-2" "uuid-1"
                (Some "")
                (run (rt := iso_runtime 0)
                   (submitTimeOffRequest false "uuid-0" a_week_off) office).2
                (conj eq_refl eq_refl)) as (Ha & _ & _).
  split; [by split |]. split; [exact Ha |]. split; vm_compute; reflexivity.
Defined.

Lemma review_failure_masked_witness :
  let w := (run (rt := iso_runtime 0)
              (submitTimeOffRequest false "uuid-0" a_week_off) office).2 in
  let a := run (rt := iso_runtime 0) (approveRequest false "uuid-2" "nobody") w in
  startsWith "demo-" "uuid-2" = false ∧ has_worker "nobody" w = false
  ∧ a.1 = Ok ()
  ∧ (TimeOff.status <$> time_off_requests w) = [pending]
  ∧ time_off_requests a.2 = time_off_requests w.
Proof.
  cbv zeta.
  pose proof (review_failure_masked (rt := iso_runtime 0) "uuid-2" "nobody" None
                (run (rt := iso_runtime 0)
                   (submitTimeOffRequest false "uuid-0" a_week_off) office).2
                eq_refl) as (Hok & Hmask & _).
  split; [reflexivity |]. split; [reflexivity |].
  split; [exact (proj1 (Hok false "uuid-2" "nobody" None _)) |].
  split; [reflexivity |].
  exact (proj1 (Hmask (or_intror eq_refl))).
Defined.

Lemma submitted_during_outage_is_unlisted_witness :
  let w := set_store_up false office in
  let s := set_store_up true
             (run (rt := iso_runtime 0)
                (submitTimeOffRequest false "uuid-0" a_week_off) w).2 in
  store_up w = false
  ∧ (run (rt := iso_runtime 0) (getAllPendingRequests false) s).1
    = (run (rt := iso_runtime 0) (getAllPendingRequests false)
         (set_store_up true w)).1.
Proof.
  cbv zeta. split; [reflexivity |].
  exact (proj1 (submitted_during_outage_is_unlisted (rt := iso_runtime 0)
                  "uuid-0" "uuid-0" a_week_off (set_store_up false office)
                  eq_refl)).
Defined.

(** ** Verification codes *)

Section Codes.
Context {rt : JsRuntime} {pg : Postgres}.

Lemma pretty_N_char_digit (x : N) : is_digit (pretty_N_char x) = true.
Proof. unfold pretty_N_char. by repeat case_match. Qed.

(** A number of six digits prints as six digits. *)
Lemma six_digits_pretty (n : Z) :
  100000 ≤ n ≤ 999999 → six_digits (pretty n) = true.
Proof.
  intros Hn. destruct n as [| p | p]; try lia.
  unfold pretty, pretty_Z, pretty, pretty_positive, pretty, pretty_N.
  destruct (decide (N.pos p = 0%N)) as [? | _]; [done |].
  assert (100000 ≤ N.pos p ≤ 999999)%N as Hp by lia.
  revert Hp. generalize (N.pos p). clear. intros x Hx.
  assert (0 < x ∧ 0 < x / 10 ∧ 0 < x / 10 / 10
          ∧ 0 < x / 10 / 10 / 10
          ∧ 0 < x / 10 / 10 / 10 / 10
          ∧ 0 < x / 10 / 10 / 10 / 10 / 10
          ∧ x / 10 / 10 / 10 / 10 / 10 / 10 = 0)%N
    as (H0 & H1 & H2 & H3 & H4 & H5 & H6).
  { rewrite !N.Div0.div_div. change (10 * 10)%N with 100%N.
    change (100 * 10)%N with 1000%N. change (1000 * 10)%N with 10000%N.
    change (10000 * 10)%N with 100000%N. change (100000 * 10)%N with 1000000%N.
    repeat split; try (apply N.div_str_pos; lia); try lia.
    apply N.div_small. lia. }
  rewrite (pretty_N_go_step _ _ H0), (pretty_N_go_step _ _ H1),
    (pretty_N_go_step _ _ H2), (pretty_N_go_step _ _ H3),
    (pretty_N_go_step _ _ H4), (pretty_N_go_step _ _ H5), H6, pretty_N_go_0.
  unfold six_digits. cbn. by rewrite !pretty_N_char_digit.
Qed.

Lemma code_in_range (q : Q) :
  (0 <= q < 1)%Q → 100000 ≤ Qfloor (100000 + q * 900000) ≤ 999999.
Proof.
  intros Hq. split.
  - change 100000 with (Qfloor (inject_Z 100000)) at 1.
    apply Qfloor_resp_le. change (inject_Z 100000) with 100000%Q. lra.
  - pose proof (Qfloor_le (100000 + q * 900000)) as Hle.
    assert (inject_Z (Qfloor (100000 + q * 900000)) < inject_Z 1000000)%Q as Hlt.
    { change (inject_Z 1000000) with 1000000%Q. lra. }
    rewrite <- Zlt_Qlt in Hlt. lia.
Qed.

(** The random number the next call of [Math.random] gives. *)
Lemma next_random (w : World) :
  Forall (λ q, 0 <= q < 1)%Q (randoms w) →
  (0 <= (handle MathRandom w).1 < 1)%Q.
Proof.
  intros HF. cbn. destruct (randoms w) as [| q qs]; cbn.
  - lra.
  - by apply Forall_cons in HF as [? _].
Qed.

(** X15. Demo mode, the random source giving numbers of [0, 1).
    [sendVerificationCode] stores for the worker one code of six digits that
    expires ten minutes after the call, in place of any code stored before.
    When [verifyCode] is called [ms] milliseconds after the code was sent, a
    different code is refused as invalid; the code itself is accepted if no
    more than ten minutes have gone by since it was made (the delays of the
    two calls, a second in all, count) and is refused as expired otherwise;
    once accepted it is gone.  *)
Theorem verification_round_trip_demo (workerId email : string) (ms : Z)
    (w : World) :
  Forall (λ q, 0 <= q < 1)%Q (randoms w) →
  let s := run (sendVerificationCode true workerId email) w in
  let later := set_clock (clock s.2 + ms) s.2 in
  s.1 = Ok "Code sent!"
  ∧ ∃ code, demoVerificationCodes s.2 !! workerId = Some (code, clock w + 600000)
      ∧ six_digits code = true
      ∧ (∀ other, other ≠ code →
           (run (verifyCode true workerId other) later).1 = Fail invalid_code)
      ∧ let v := run (verifyCode true workerId code) later in
        if ms + 1000 >? 600000 then v.1 = Fail code_expired
        else v.1 = Ok ()
             ∧ (run (verifyCode true workerId code) v.2).1 = Fail no_code_found.
Proof.
  intros HF. cbv zeta. pose proof (next_random w HF) as Hq.
  unfold sendVerificationCode. unfold mbind, prog_bind.
  cbn [call bind run]. destruct (handle MathRandom w) as [q w1] eqn:Hh.
  assert (clock w1 = clock w ∧ demoVerificationCodes w1 = demoVerificationCodes w)
    as [Hc Hd].
  { cbn in Hh. destruct (randoms w); by injection Hh as _ <-. }
  cbn [fst] in Hq. cbn [handle fst snd]. rewrite Hc.
  split; [reflexivity |].
  exists (pretty (Qfloor (100000 + q * 900000))).
  split; [cbn; by rewrite lookup_insert_eq |].
  split; [apply six_digits_pretty, code_in_range, Hq |].
  split.
  - intros other Hne.
    match goal with |- (run _ ?w').1 = _ =>
      pose proof (verifyCode_demo workerId other w') as Hv
    end.
    cbv zeta in Hv. cbn [demoVerificationCodes set_clock
      set_demoVerificationCodes] in Hv. rewrite lookup_insert_eq in Hv.
    destruct (decide (pretty (Qfloor (100000 + q * 900000)) ≠ other)) as [_ | Heq];
      [exact Hv |].
    destruct Hne. apply dec_stable in Heq. done.
  - match goal with |- context [run _ ?w'] =>
      pose proof (verifyCode_demo workerId
                    (pretty (Qfloor (100000 + q * 900000))) w') as Hv
    end.
    cbv zeta in Hv. cbn [demoVerificationCodes set_clock
      set_demoVerificationCodes clock] in Hv. rewrite lookup_insert_eq in Hv.
    destruct (decide (pretty (Qfloor (100000 + q * 900000))
                      ≠ pretty (Qfloor (100000 + q * 900000)))) as [? | _];
      [done |].
    change (10 * 60 * 1000) with 600000 in Hv.
    replace (clock w + 500 + ms + 500 >? clock w + 600000)
      with (ms + 1000 >? 600000) in Hv.
    2:{ rewrite !Z.gtb_ltb. destruct (600000 <? ms + 1000) eqn:E.
        - symmetry. apply Z.ltb_lt. apply Z.ltb_lt in E. lia.
        - symmetry. apply Z.ltb_ge. apply Z.ltb_ge in E. lia. }
    destruct (ms + 1000 >? 600000); [exact Hv |].
    destruct Hv as (H1 & _ & H3). split; [exact H1 | exact H3].
Qed.

Lemma insertCode_run (workerId code : string) (expires_at : Z) (w : World) :
  six_digits code = true →
  insertCode workerId code expires_at w =
    if has_worker workerId w
    then (Data (), add_code (Code.mk (fresh_id (next_id w)) workerId code
                               expires_at None (clock w)) w)
    else (Error foreign_key_violation, w).
Proof.
  intros Hsix. unfold insertCode. apply six_digits_length in Hsix.
  by rewrite Hsix.
Qed.

(** X16. Live mode, the random source giving numbers of [0, 1).
    [sendVerificationCode] succeeds exactly when the store answers and the
    worker is a row of [workers].  It then appends to [verification_codes]
    one unused row of the worker with a code of six digits (which fits the
    column) that expires ten minutes after the call; every row stored
    before stays as it is, so a code sent earlier stays valid.  When it fails
    no row is stored. *)
Theorem sendVerificationCode_live (workerId email : string) (w : World) :
  Forall (λ q, 0 <= q < 1)%Q (randoms w) →
  let s := run (sendVerificationCode false workerId email) w in
  if store_up w && has_worker workerId w
  then s.1 = Ok "Code sent!"
       ∧ ∃ code, six_digits code = true
           ∧ verification_codes s.2
             = verification_codes w
               ++ [Code.mk (fresh_id (next_id w)) workerId code
                     (clock w + 600000) None (clock w)]
  else s.1 = Fail "Failed to send code. Please try again."
       ∧ verification_codes s.2 = verification_codes w.
Proof.
  intros HF. cbv zeta. pose proof (next_random w HF) as Hq.
  unfold sendVerificationCode. unfold mbind, prog_bind.
  cbn [call bind run]. destruct (handle MathRandom w) as [q w1] eqn:Hh.
  assert (clock w1 = clock w ∧ verification_codes w1 = verification_codes w
          ∧ store_up w1 = store_up w ∧ has_worker workerId w1 = has_worker workerId w
          ∧ next_id w1 = next_id w)
    as (Hc & Hv & Hu & Hw & Hn).
  { cbn in Hh. destruct (randoms w); by injection Hh as _ <-. }
  cbn [fst] in Hq. cbn [handle fst snd]. unfold query.
  rewrite insertCode_run by apply six_digits_pretty, code_in_range, Hq.
  rewrite Hu, Hw. destruct (store_up w); cbn [andb].
  - destruct (has_worker workerId w); cbn.
    + split; [done |]. eexists. split;
        [apply six_digits_pretty, code_in_range, Hq |].
      by rewrite Hv, Hc, Hn.
    + by rewrite Hv.
  - cbn. by rewrite Hv.
Qed.

(** X17. Live mode, the store answering, exactly one unused row of the worker
    holding the code.  If the row has not expired, [verifyCode] accepts the
    code and marks the row used at the instant of the call, and the same code
    is refused as invalid from then on.  If it has expired the code is
    refused as expired and the rows stay as they are. *)
Theorem verifyCode_live_spec (workerId code : string) (d : Code.t) (w : World) :
  store_up w = true →
  filter (matches workerId code) (verification_codes w) = [d] →
  let r := run (verifyCode false workerId code) w in
  if Code.expires_at d <? clock w
  then r = (Fail code_expired, w)
  else r.1 = Ok ()
       ∧ (∀ c, c ∈ verification_codes r.2 → Code.id c = Code.id d →
               Code.used_at c = Some (clock w))
       ∧ (run (verifyCode false workerId code) r.2).1 = Fail invalid_code.
Proof.
  intros Hup Hf. cbv zeta. destruct (Code.expires_at d <? clock w) eqn:Hexp.
  - unfold verifyCode, mbind, prog_bind. cbn [call bind run handle fst snd].
    unfold query, selectCode. rewrite Hup.
    match goal with |- context [filter ?P (verification_codes w)] =>
      change (filter P (verification_codes w))
        with (filter (matches workerId code) (verification_codes w))
    end.
    rewrite Hf. cbn. by rewrite Hexp.
  - apply verifyCode_live_consumes; [done | done |].
    apply Z.ltb_ge in Hexp. lia.
Qed.

End Codes.

Lemma verification_round_trip_demo_witness :
  let w := set_randoms [(1 # 2)%Q] office in
  let s := run (rt := iso_runtime 0) (sendVerificationCode true "demo-1" "j@x.org")
             w in
  Forall (λ q, 0 <= q < 1)%Q (randoms w)
  ∧ s.1 = Ok "Code sent!"
  ∧ demoVerificationCodes s.2 !! "demo-1" = Some ("550000", 1705511400000).
Proof.
  cbv zeta.
  assert (Forall (λ q, 0 <= q < 1)%Q (randoms (set_randoms [(1 # 2)%Q] office)))
    as H.
  { cbn. constructor; [| constructor]. split; [discriminate | reflexivity]. }
  split; [exact H |].
  split; [| vm_compute; reflexivity].
  exact (proj1 (verification_round_trip_demo (rt := iso_runtime 0)
                  "demo-1" "j@x.org" 0 _ H)).
Defined.

Lemma sendVerificationCode_live_witness :
  let w := set_randoms [(1 # 2)%Q] office in
  let s := run (rt := iso_runtime 0) (sendVerificationCode false "uuid-0" "j@x.org")
             w in
  Forall (λ q, 0 <= q < 1)%Q (randoms w)
  ∧ s.1 = Ok "Code sent!"
  ∧ Code.code <$> verification_codes s.2 = ["550000"].
Proof.
  cbv zeta.
  assert (Forall (λ q, 0 <= q < 1)%Q (randoms (set_randoms [(1 # 2)%Q] office)))
    as H.
  { cbn. constructor; [| constructor]. split; [discriminate | reflexivity]. }
  split; [exact H |].
  split; [| vm_compute; reflexivity].
  exact (proj1 (sendVerificationCode_live (rt := iso_runtime 0)
                  "uuid-0" "j@x.org" _ H)).
Defined.

Lemma verifyCode_live_spec_witness :
  let d := Code.mk "uuid-2" "uuid-0" "550000" 1705511400000 None 1705510800000 in
  let w := set_verification_codes [d] office in
  store_up w = true
  ∧ filter (matches "uuid-0" "550000") (verification_codes w) = [d]
  ∧ (run (rt := iso_runtime 0) (verifyCode false "uuid-0" "550000") w).1 = Ok ().
Proof.
  cbv zeta.
  assert (filter (matches "uuid-0" "550000")
            (verification_codes
               (set_verification_codes
                  [Code.mk "uuid-2" "uuid-0" "550000" 1705511400000 None
                     1705510800000] office))
          = [Code.mk "uuid-2" "uuid-0" "550000" 1705511400000 None 1705510800000])
    as H by (vm_compute; reflexivity).
  split; [reflexivity |]. split; [exact H |].
  exact (proj1 (verifyCode_live_spec (rt := iso_runtime 0) "uuid-0" "550000"
                  (Code.mk "uuid-2" "uuid-0" "550000" 1705511400000 None
                     1705510800000)
                  (set_verification_codes
                     [Code.mk "uuid-2" "uuid-0" "550000" 1705511400000 None
                        1705510800000] office)
                  eq_refl H)).
Defined.

(** ** Durations below zero *)



(** ** The made-up history of demo mode *)

Section DemoHistory.
Context {rt : JsRuntime} {pg : Postgres}.

Lemma random_step (w : World) :
  Forall (λ q, 0 <= q < 1)%Q (randoms w) →
  ∃ q w', handle MathRandom w = (q, w') ∧ (0 <= q < 1)%Q
          ∧ Forall (λ q, 0 <= q < 1)%Q (randoms w') ∧ clock w' = clock w.
Proof.
  intros HF. cbn. destruct (randoms w) as [| q qs] eqn:Hr.
  - exists 0%Q, w. rewrite Hr. split; [reflexivity |]. split; [lra |].
    split; [constructor | reflexivity].
  - apply Forall_cons in HF as [Hq HF]. exists q, (set_randoms qs w). by cbn.
Qed.

Lemma minutes_in_range (q : Q) (n : Z) :
  (0 <= q < 1)%Q → 0 < n → 0 ≤ Qfloor (q * inject_Z n) < n.
Proof.
  intros Hq Hn.
  assert (0 < inject_Z n)%Q as Hn' by (rewrite Zlt_Qlt in Hn; exact Hn).
  split.
  - change 0 with (Qfloor (inject_Z 0)). apply Qfloor_resp_le.
    change (inject_Z 0) with 0%Q. apply Qmult_le_0_compat; [tauto | lra].
  - pose proof (Qfloor_le (q * inject_Z n)) as Hle.
    assert (q * inject_Z n < inject_Z n)%Q as Hlt.
    { rewrite <- (Qmult_1_l (inject_Z n)) at 2.
      apply Qmult_lt_compat_r; tauto. }
    assert (inject_Z (Qfloor (q * inject_Z n)) < inject_Z n)%Q as H by lra.
    by rewrite <- Zlt_Qlt in H.
Qed.

Lemma demoHistory_run (idx : list Z) (history : list PunchPair.t) (w : World) :
  Forall (λ q, 0 <= q < 1)%Q (randoms w) →
  ∃ new, (run (demoHistory idx history) w).1 = history ++ new
         ∧ length new
           = length (filter (λ i, isWeekday (Date_addDays (clock w) (- i)) = true)
                       idx)
         ∧ Forall demo_shift new.
Proof.
  revert history w. induction idx as [| i idx IH]; intros history w HF.
  { exists []. cbn. by rewrite app_nil_r. }
  cbn [demoHistory]. unfold mbind, prog_bind. cbn [call bind run handle].
  rewrite filter_cons.
  change (negb (Date_getDay (Date_addDays (clock w) (- i)) =? 0)
          && negb (Date_getDay (Date_addDays (clock w) (- i)) =? 6))
    with (isWeekday (Date_addDays (clock w) (- i))).
  destruct (isWeekday (Date_addDays (clock w) (- i))) eqn:Hday.
  - destruct (random_step w HF) as (q1 & w1 & H1 & Hq1 & HF1 & Hc1).
    destruct (random_step w1 HF1) as (q2 & w2 & H2 & Hq2 & HF2 & Hc2).
    cbn [call bind run]. rewrite H1. cbn [call bind run]. rewrite H2.
    match goal with |- context [demoHistory idx (history ++ [?p])] =>
      destruct (IH (history ++ [p]) w2 HF2) as (new & Hr & Hlen & Hall);
      exists (p :: new)
    end.
    split; [by rewrite Hr, <- app_assoc |].
    rewrite decide_True by done. cbn [length].
    split; [by rewrite Hlen, Hc2, Hc1 |].
    constructor; [| done].
    split; [by eexists |]. split; [by eexists |]. cbn [PunchPair.totalMs].
    pose proof (minutes_in_range q1 15 Hq1 ltac:(lia)) as M1.
    pose proof (minutes_in_range q2 45 Hq2 ltac:(lia)) as M2.
    change (inject_Z 15) with 15%Q in M1. change (inject_Z 45) with 45%Q in M2.
    unfold Date_setHours. lia.
  - destruct (IH history w HF) as (new & Hr & Hlen & Hall). exists new.
    rewrite decide_False by done. done.
Qed.

(** Of seven days in a row, five are working days. *)
Lemma five_working_days (t : Z) :
  length (filter (λ i, isWeekday (Date_addDays t (- i)) = true) (seqZ 1 7))
  = 5%nat.
Proof.
  assert (∀ i, isWeekday (Date_addDays t (- i))
               = negb ((Date_getDay t - i) mod 7 =? 0)
                 && negb ((Date_getDay t - i) mod 7 =? 6)) as Hw.
  { intros i. unfold isWeekday, Date_getDay. rewrite localDay_addDays.
    rewrite Zminus_mod_idemp_l.
    by replace (Date_localDay t + - i + 4) with (Date_localDay t + 4 - i) by lia. }
  rewrite (list_filter_iff _
             (λ i, negb ((Date_getDay t - i) mod 7 =? 0)
                   && negb ((Date_getDay t - i) mod 7 =? 6) = true))
    by (intros i; by rewrite Hw).
  pose proof (Z.mod_pos_bound (Date_localDay t + 4) 7 ltac:(lia)) as Hb.
  fold (Date_getDay t) in Hb.
  assert (Date_getDay t = 0 ∨ Date_getDay t = 1 ∨ Date_getDay t = 2
          ∨ Date_getDay t = 3 ∨ Date_getDay t = 4 ∨ Date_getDay t = 5
          ∨ Date_getDay t = 6) as Hd by lia.
  destruct Hd as [-> | [-> | [-> | [-> | [-> | [-> | ->]]]]]];
    vm_compute; reflexivity.
Qed.

(** X19. Demo mode, the random source giving numbers of [0, 1).
    [getPunchHistory] makes up one pair for each working day (of the local
    calendar) among the [min(days, 7)] days before today, whoever the worker
    is: at most seven pairs, exactly five when a week or more is asked for.
    Each pair has a clock-in and a clock-out and lasts between 7 h 46 min and
    8 h 44 min. *)
Theorem getPunchHistory_demo (workerId : string) (days : Z) (w : World) :
  Forall (λ q, 0 <= q < 1)%Q (randoms w) →
  ∃ history, (run (getPunchHistory true workerId days) w).1 = Ok history
    ∧ length history
      = length (filter (λ i, isWeekday (Date_addDays (clock w + 300) (- i)) = true)
                  (seqZ 1 (Z.min days 7)))
    ∧ (length history ≤ 7)%nat
    ∧ (7 ≤ days → length history = 5%nat)
    ∧ Forall demo_shift history.
Proof.
  intros HF. unfold getPunchHistory, mbind, prog_bind.
  cbn [call bind run handle]. rewrite run_bind.
  match goal with |- context [run (demoHistory ?idx []) ?w'] =>
    destruct (demoHistory_run idx [] w' HF) as (new & Hr & Hlen & Hall);
    destruct (run (demoHistory idx []) w') as [h w''] eqn:Hrun
  end.
  cbn [fst] in Hr. cbn [app] in Hr. subst h. cbn [run fst clock set_clock] in *.
  exists new. split; [done |]. split; [exact Hlen |]. split; [| split; [| done]].
  - rewrite Hlen. etransitivity; [apply length_filter |].
    rewrite length_seqZ. lia.
  - intros Hd. rewrite Hlen. replace (Z.min days 7) with 7 by lia.
    apply five_working_days.
Qed.

End DemoHistory.

Lemma getPunchHistory_demo_witness :
  let w := set_randoms [(1 # 2)%Q; (1 # 3)%Q] office in
  Forall (λ q, 0 <= q < 1)%Q (randoms w)
  ∧ ∃ history,
      (run (rt := iso_runtime 0) (getPunchHistory (rt := iso_runtime 0) true "demo-1" 30)
         w).1 = Ok history
      ∧ length history = 5%nat ∧ Forall demo_shift history.
Proof.
  cbv zeta.
  assert (Forall (λ q, 0 <= q < 1)%Q
            (randoms (set_randoms [(1 # 2)%Q; (1 # 3)%Q] office))) as H.
  { cbn. repeat constructor; discriminate. }
  split; [exact H |].
  destruct (getPunchHistory_demo (rt := iso_runtime 0) "demo-1" 30 _ H)
    as (history & Hr & _ & _ & H5 & Hall).
  exists history. split; [exact Hr |]. split; [apply H5; lia | exact Hall].
Defined.

(** ** The week of [getWeeklyHours] *)

Section Week.
Context {rt : JsRuntime} {pg : Postgres}.

(** X20. The week start [getWeeklyHours] computes is a Monday of the local
    calendar at local midnight, it is not after now and less than seven days
    before now, and it is its own week start. *)
Theorem startOfWeek_spec (now : Z) :
  let start := startOfWeek now in
  Date_getDay start = 1
  ∧ Date_setHours start 0 0 0 0 = start
  ∧ start ≤ now < start + 7 * 86400000
  ∧ startOfWeek start = start.
Proof.
  cbv zeta. destruct (startOfWeek_monday now) as (Hs & Hd & Hb). cbv zeta in *.
  set (back := if Date_getDay now =? 0 then 6 else Date_getDay now - 1) in *.
  assert (Date_localDay (startOfWeek now) = Date_localDay now - back) as Hl.
  { rewrite Hs. unfold Date_localDay at 1.
    replace ((Date_localDay now - back) * 86400000 - tzOffsetMs + tzOffsetMs)
      with ((Date_localDay now - back) * 86400000) by lia.
    by rewrite Z.div_mul. }
  assert (Date_setHours (startOfWeek now) 0 0 0 0 = startOfWeek now) as Hm.
  { unfold Date_setHours. rewrite Hl, Hs. lia. }
  split; [exact Hd |]. split; [exact Hm |]. split.
  - pose proof (Z.div_mod (now + tzOffsetMs) 86400000 ltac:(lia)) as E.
    pose proof (Z.mod_pos_bound (now + tzOffsetMs) 86400000 ltac:(lia)) as B.
    fold (Date_localDay now) in E. rewrite Hs. lia.
  - unfold startOfWeek at 1. rewrite Hd. cbn [Z.eqb Z.sub Z.opp Z.add Z.pos_sub].
    unfold Date_addDays. rewrite Z.mul_0_l, Z.add_0_r. exact Hm.
Qed.

(** X21. What [getWeeklyHours] answers from the history [getPunchHistory]
    gives for seven days: the total is the sum of the durations of the pairs
    it keeps, the hours are that total in hours, and the entry of a weekday
    name holds the hours of the kept pairs filed under that name, added up
    (a name without a kept pair has no entry).  When the history cannot be
    loaded (live mode, the store not answering) it answers zero hours and no
    day, as it does for a worker who did not work. *)
Theorem getWeeklyHours_totals (demo : bool) (workerId : string) (w : World) :
  let r := (run (getWeeklyHours demo workerId) w).1 in
  match (run (getPunchHistory demo workerId 7) w).1 with
  | Ok history =>
      let k := kept (startOfWeek (clock w)) history in
      Weekly.totalMs r = sum_ms k
      ∧ Weekly.totalHours r = hours (sum_ms k)
      ∧ ∀ name, Weekly.dailyHours r !! name = day_hours name k
  | Fail _ => r = Weekly.mk 0 0 ∅
  end
  ∧ (demo = false → store_up w = false → r = Weekly.mk 0 0 ∅).
Proof.
  cbv zeta. rewrite getWeeklyHours_run. split.
  - destruct (run (getPunchHistory demo workerId 7) w).1 as [history | e];
      [| done].
    destruct (weekly_totals (startOfWeek (clock w)) history) as (H1 & H2 & H3).
    cbv zeta in *. split; [exact H1 |]. split; [by rewrite H2, H1 | exact H3].
  - intros -> Hup. cbn. unfold query. by rewrite Hup.
Qed.

(** X22. A pair whose date is read as midnight UTC of day [d] (what
    [new Date("YYYY-MM-DD")] gives).  In a time zone at or east of Greenwich
    [getWeeklyHours] keeps the pair exactly when [d] is the Monday of the
    week start or a later day, and files it under the weekday of [d].  West
    of Greenwich it keeps the pair exactly when [d] is after that Monday, and
    files it under the weekday of the day before [d]. *)
Theorem weekly_filter_by_offset (now : Z) (p : PunchPair.t) (d : Z) :
  Date_getTime (PunchPair.date p) = d * 86400000 →
  let monday := Date_localDay (startOfWeek now) in
  (0 ≤ tzOffsetMs < 86400000 →
     (inWeek (startOfWeek now) p = true ↔ monday ≤ d)
     ∧ Date_getDay (Date_getTime (PunchPair.date p)) = (d + 4) mod 7)
  ∧ (-86400000 < tzOffsetMs < 0 →
       (inWeek (startOfWeek now) p = true ↔ monday + 1 ≤ d)
       ∧ Date_getDay (Date_getTime (PunchPair.date p)) = (d - 1 + 4) mod 7).
Proof.
  intros Hp. cbv zeta.
  destruct (startOfWeek_monday now) as (Hs & _ & _). cbv zeta in Hs.
  set (back := if Date_getDay now =? 0 then 6 else Date_getDay now - 1) in *.
  assert (Date_localDay (startOfWeek now) = Date_localDay now - back) as Hl.
  { rewrite Hs. unfold Date_localDay at 1.
    replace ((Date_localDay now - back) * 86400000 - tzOffsetMs + tzOffsetMs)
      with ((Date_localDay now - back) * 86400000) by lia.
    by rewrite Z.div_mul. }
  destruct (inWeek_by_offset p d (Date_localDay now - back) Hp) as [He Hw].
  cbv zeta in He, Hw. rewrite <- Hs in He, Hw. rewrite Hl.
  split.
  - intros Htz. destruct (He Htz) as [Hk Hday]. split; [exact Hk |].
    unfold Date_getDay. by rewrite Hday.
  - intros Htz. destruct (Hw Htz) as [Hk Hday]. split; [exact Hk |].
    unfold Date_getDay. by rewrite Hday.
Qed.

End Week.

Lemma weekly_filter_by_offset_witness :
  let p := PunchPair.mk "2024-01-15" None None 0 in
  Iso.getTime 0 (PunchPair.date p) = 19737 * 86400000
  ∧ 0 ≤ 0 < 86400000
  ∧ (inWeek (rt := iso_runtime 0) (startOfWeek (rt := iso_runtime 0) wednesday_noon)
       p = true
     ↔ Date_localDay (rt := iso_runtime 0)
         (startOfWeek (rt := iso_runtime 0) wednesday_noon) ≤ 19737).
Proof.
  cbv zeta.
  assert (Iso.getTime 0 "2024-01-15" = 19737 * 86400000) as H
    by (vm_compute; reflexivity).
  split; [exact H |]. split; [lia |].
  exact (proj1 (proj1 (weekly_filter_by_offset (rt := iso_runtime 0)
                         wednesday_noon (PunchPair.mk "2024-01-15" None None 0)
                         19737 H) ltac:(cbn; lia))).
Defined.

Lemma getWeeklyHours_totals_witness :
  let w := set_store_up false this_week in
  store_up w = false
  ∧ (run (rt := iso_runtime 0) (getWeeklyHours (rt := iso_runtime 0) false "uuid-0")
       w).1 = Weekly.mk 0 0 ∅.
Proof.
  cbv zeta. split; [reflexivity |].
  exact (proj2 (getWeeklyHours_totals (rt := iso_runtime 0) false "uuid-0"
                  (set_store_up false this_week)) eq_refl eq_refl).
Defined.

(** ** The listings of the time-off requests in live mode *)

Section LiveListings.
Context {rt : JsRuntime} {pg : Postgres}.

(** X23. Live mode.  While the store answers, each listing is read from
    [time_off_requests] alone: a worker's own requests newest first, the
    pending requests oldest first, and of all the requests the fifty newest,
    newest first, each with the names the query joins.  While the store does
    not answer, each listing answers what demo mode would answer: the demo
    table, in its own order and without limit. *)
Theorem listings_live_and_fallback (workerId : string) (w : World) :
  (store_up w = true →
     (∃ rows, (run (getMyTimeOffRequests false workerId) w).1
                = Ok (map (named_mine w) rows)
              ∧ rows ≡ₚ filter (λ r, TimeOff.worker_id r = workerId)
                          (time_off_requests w)
              ∧ StronglySorted newer rows)
     ∧ (∃ rows, (run (getAllPendingRequests false) w).1
                  = Ok (map (named_pending w) rows)
                ∧ rows ≡ₚ filter (λ r, TimeOff.status r = pending)
                            (time_off_requests w)
                ∧ StronglySorted older rows)
     ∧ (∃ sorted, (run (getAllTimeOffRequests false) w).1
                    = Ok (map (named_all w) (take 50 sorted))
                  ∧ sorted ≡ₚ time_off_requests w
                  ∧ StronglySorted newer sorted))
  ∧ (store_up w = false →
       (run (getMyTimeOffRequests false workerId) w).1
         = (run (getMyTimeOffRequests true workerId) w).1
       ∧ (run (getAllPendingRequests false) w).1
         = (run (getAllPendingRequests true) w).1
       ∧ (run (getAllTimeOffRequests false) w).1
         = (run (getAllTimeOffRequests true) w).1).
Proof.
  split.
  - intros Hup. destruct (listings_live workerId w Hup) as (H1 & H2 & H3).
    split; [exact H1 |]. split; [exact H2 |].
    destruct H3 as (sorted & Hr & Hp & Hs & _). by exists sorted.
  - intros Hup. cbn. unfold query. rewrite Hup. by cbn.
Qed.

End LiveListings.

Lemma listings_live_and_fallback_witness :
  let w := set_store_up false office in
  store_up w = false
  ∧ (run (rt := iso_runtime 0) (getAllTimeOffRequests false) w).1
    = (run (rt := iso_runtime 0) (getAllTimeOffRequests true) w).1.
Proof.
  cbv zeta. split; [reflexivity |].
  exact (proj2 (proj2 (proj2 (listings_live_and_fallback (rt := iso_runtime 0)
                                "uuid-0" (set_store_up false office)) eq_refl))).
Defined.

(** ** The components that feed the layer *)

Lemma chars_append (s t : string) :
  list_ascii_of_string (s +:+ t)
  = list_ascii_of_string s ++ list_ascii_of_string t.
Proof. induction s as [| c s IH]; simpl; [done |]. by f_equal. Qed.

Lemma chars_length (s : string) :
  String.length s = length (list_ascii_of_string s).
Proof. induction s as [| c s IH]; simpl; [done |]. by f_equal. Qed.

Lemma chars_substring (n : nat) (s : string) :
  list_ascii_of_string (String.substring 0 n s)
  = take n (list_ascii_of_string s).
Proof.
  revert n. induction s as [| c s IH]; intros [| n]; simpl; try done.
  by f_equal.
Qed.

Lemma forallb_take {A : Type} (f : A → bool) (n : nat) (l : list A) :
  forallb f l = true → forallb f (take n l) = true.
Proof.
  revert n. induction l as [| a l IH]; intros [| n]; cbn; try done.
  intros [Ha Hl]%andb_true_iff. rewrite Ha. cbn. by apply IH.
Qed.

Lemma one_digit_spec (key : string) :
  one_digit key = true → ∃ c, key = String c "" ∧ is_digit c = true.
Proof.
  destruct key as [| c [| c' k]]; cbn; try done. intros H. by exists c.
Qed.

Lemma digitButtons_digits (n : nat) (d : string) :
  Keypad.digitButtons !! n = Some d → one_digit d = true.
Proof.
  unfold Keypad.digitButtons. intros H.
  do 10 (destruct n as [| n]; [by injection H as <- |]). done.
Qed.

Lemma all_digits_snoc (value digit : string) :
  all_digits value = true → one_digit digit = true →
  all_digits (value +:+ digit) = true
  ∧ String.length (value +:+ digit) = S (String.length value).
Proof.
  intros Hv (c & -> & Hc)%one_digit_spec. unfold all_digits.
  rewrite !chars_length, chars_append, forallb_app, length_app. cbn.
  split; [| lia]. unfold all_digits in Hv. by rewrite Hv, Hc.
Qed.

Lemma all_digits_drop_last (value : string) :
  all_digits value = true →
  all_digits (drop_last value) = true
  ∧ (String.length (drop_last value) ≤ String.length value)%nat.
Proof.
  intros Hv. unfold all_digits, drop_last.
  rewrite !chars_length, chars_substring. split.
  - by apply forallb_take.
  - rewrite length_take. lia.
Qed.

Lemma press_invariant (maxLength : nat) (value : string) (e : bool * Keypad.input) :
  all_digits value = true ∧ (String.length value ≤ maxLength)%nat →
  all_digits (Keypad.press maxLength value e) = true
  ∧ (String.length (Keypad.press maxLength value e) ≤ maxLength)%nat.
Proof.
  intros [Hd Hl]. destruct e as [isLoading i]. unfold Keypad.press.
  assert (∀ d, one_digit d = true →
            let v := default value
                       (Keypad.handleDigitPress value maxLength isLoading d) in
            all_digits v = true ∧ (String.length v ≤ maxLength)%nat) as Hdigit.
  { intros d Hone. unfold Keypad.handleDigitPress.
    destruct (String.length value <? maxLength)%nat eqn:Hlt; cbn; [| done].
    destruct isLoading; cbn; [done |].
    destruct (all_digits_snoc value d Hd Hone) as [H1 H2].
    split; [exact H1 |]. rewrite H2. apply Nat.ltb_lt in Hlt. lia. }
  assert (let v := default value (Keypad.handleBackspace value isLoading) in
          all_digits v = true ∧ (String.length v ≤ maxLength)%nat) as Hback.
  { unfold Keypad.handleBackspace. destruct isLoading; cbn; [done |].
    destruct (all_digits_drop_last value Hd) as [H1 H2]. split; [done | lia]. }
  destruct i as [n | | | key].
  - destruct (Keypad.digitButtons !! n) as [d |] eqn:Hn; cbn; [| done].
    apply Hdigit. by eapply digitButtons_digits.
  - unfold Keypad.handleClear. destruct isLoading; cbn; [done |].
    split; [done | lia].
  - exact Hback.
  - unfold Keypad.handleKeyDown. destruct isLoading eqn:Hload; cbn; [done |].
    destruct (one_digit key) eqn:Hone; [by apply Hdigit |].
    destruct (_ || _); [exact Hback | done].
Qed.

(** X24. [NumericKeypad].  Starting from the empty value, whatever the user
    does (digit buttons, Clear, Backspace, keys of the keyboard, while the
    component is loading or not), the value is made of decimal digits and is
    no longer than [maxLength].  So when a keypad of six digits submits (the
    value has reached its full length), what it submits is a PIN of six
    digits, the format [createWorker] checks with [/^\d{6}$/]. *)
Theorem keypad_value_is_a_pin (maxLength : nat)
    (inputs : list (bool * Keypad.input)) :
  let value := foldl (Keypad.press maxLength) "" inputs in
  all_digits value = true
  ∧ (String.length value ≤ maxLength)%nat
  ∧ (maxLength = 6%nat →
     ∀ isLoading submitted,
       Keypad.submits maxLength value isLoading submitted = true →
       six_digits value = true).
Proof.
  cbv zeta.
  assert (all_digits (foldl (Keypad.press maxLength) "" inputs) = true
          ∧ (String.length (foldl (Keypad.press maxLength) "" inputs)
             ≤ maxLength)%nat) as [Hd Hl].
  { assert (all_digits "" = true ∧ (String.length "" ≤ maxLength)%nat) as H0
      by (split; [done | cbn; lia]).
    revert H0. generalize "". induction inputs as [| e inputs IH]; intros v Hv.
    - exact Hv.
    - cbn [foldl]. apply IH. by apply press_invariant. }
  split; [exact Hd |]. split; [exact Hl |].
  intros -> isLoading submitted Hs. unfold Keypad.submits in Hs.
  apply andb_true_iff in Hs as [Hs _]. apply andb_true_iff in Hs as [Hs _].
  unfold six_digits. rewrite Hs. exact Hd.
Qed.

Lemma keypad_value_is_a_pin_witness :
  let value := foldl (Keypad.press 6) ""
                 [(false, Keypad.Digit 0); (false, Keypad.Key "x");
                  (false, Keypad.Key "2"); (true, Keypad.Digit 5);
                  (false, Keypad.Digit 2); (false, Keypad.Backspace);
                  (false, Keypad.Key "3"); (false, Keypad.Digit 3);
                  (false, Keypad.Digit 4); (false, Keypad.Digit 5)] in
  value = "123456"
  ∧ Keypad.submits 6 value false false = true
  ∧ six_digits value = true.
Proof.
  cbv zeta. split; [reflexivity |]. split; [reflexivity |].
  exact (proj2 (proj2 (keypad_value_is_a_pin 6
                         [(false, Keypad.Digit 0); (false, Keypad.Key "x");
                          (false, Keypad.Key "2"); (true, Keypad.Digit 5);
                          (false, Keypad.Digit 2); (false, Keypad.Backspace);
                          (false, Keypad.Key "3"); (false, Keypad.Digit 3);
                          (false, Keypad.Digit 4); (false, Keypad.Digit 5)]))
           eq_refl false false eq_refl).
Defined.

Lemma trim_start_idem (l : list ascii) : trim_start (trim_start l) = trim_start l.
Proof.
  induction l as [| c l IH]; cbn; [done |].
  destruct (is_space c) eqn:Hc; [done |]. cbn. by rewrite Hc.
Qed.

Lemma trim_start_head (l : list ascii) (c : ascii) (t : list ascii) :
  trim_start l = c :: t → is_space c = false.
Proof.
  induction l as [| a l IH]; cbn; [done |].
  destruct (is_space a) eqn:Ha; [done |]. by intros [= <- _].
Qed.

Lemma trim_start_snoc (l : list ascii) (c : ascii) :
  is_space c = false → trim_start (l ++ [c]) = trim_start l ++ [c].
Proof.
  intros Hc. induction l as [| a l IH]; cbn; [by rewrite Hc |].
  by destruct (is_space a).
Qed.

(** [trim] leaves a trimmed string as it is. *)
Lemma trim_idem (s : string) : trim (trim s) = trim s.
Proof.
  unfold trim. rewrite list_ascii_of_string_of_list_ascii. f_equal.
  destruct (trim_start (list_ascii_of_string s)) as [| c t] eqn:Hs; [done |].
  pose proof (trim_start_head _ _ _ Hs) as Hc.
  cbn [rev]. change (reverse t ++ [c]) with (rev t ++ [c]).
  rewrite trim_start_snoc by done.
  rewrite rev_app_distr. cbn [rev app]. cbn [trim_start]. rewrite Hc.
  cbn [rev]. rewrite rev_involutive, trim_start_snoc by done.
  by rewrite trim_start_idem, rev_app_distr.
Qed.

(** X25. [AddWorker].  What [handlePinChange] keeps of any input is made of
    digits and is at most six characters long.  [handleSubmit] passes on
    exactly the PINs of six characters with a name that is not blank, and it
    passes the trimmed name: so the PIN has six digits and the name is not
    empty and already trimmed, neither validation of [createWorker] can
    fail, and in demo mode [createWorker] either reports the PIN as taken or
    stores the worker under exactly that name. *)
Theorem addWorker_submits_valid (value name role : string) :
  let pin := AddWorker.handlePinChange value in
  all_digits pin = true
  ∧ (String.length pin ≤ 6)%nat
  ∧ (AddWorker.handleSubmit pin name role = inr (pin, trim name, role)
     ↔ String.length pin = 6%nat ∧ trim name ≠ "")
  ∧ ∀ p n r, AddWorker.handleSubmit pin name role = inr (p, n, r) →
      p = pin ∧ n = trim name ∧ r = role
      ∧ six_digits p = true ∧ trim n = n ∧ n ≠ ""
      ∧ ∀ (rt : JsRuntime) (pg : Postgres) demo w,
          createWorker demo p n r ≠ Ret (Fail pin_format_error)
          ∧ createWorker demo p n r ≠ Ret (Fail name_required)
          ∧ let c := (run (createWorker true p n r) w).1 in
            c = Fail pin_in_use
            ∨ ∃ x, c = Ok x ∧ DemoWorker.pin x = p ∧ DemoWorker.full_name x = n.
Proof.
  cbv zeta.
  assert (all_digits (AddWorker.handlePinChange value) = true) as Hd.
  { unfold all_digits, AddWorker.handlePinChange.
    rewrite chars_substring, list_ascii_of_string_of_list_ascii.
    apply forallb_take, forallb_forall. intros c Hc.
    by apply filter_In in Hc as [_ Hc]. }
  assert (String.length (AddWorker.handlePinChange value) ≤ 6)%nat as Hl.
  { unfold AddWorker.handlePinChange.
    rewrite chars_length, chars_substring, length_take. lia. }
  split; [exact Hd |]. split; [exact Hl |]. split.
  { unfold AddWorker.handleSubmit.
    destruct (String.length (AddWorker.handlePinChange value) =? 6)%nat eqn:Hlen;
      cbn [negb].
    - apply Nat.eqb_eq in Hlen.
      destruct (decide (trim name = "")) as [Hb | Hb]; [| done].
      split; [discriminate | tauto].
    - apply Nat.eqb_neq in Hlen. split; [discriminate | tauto]. }
  intros p n r Hs. unfold AddWorker.handleSubmit in Hs.
  destruct (String.length (AddWorker.handlePinChange value) =? 6)%nat eqn:Hlen;
    [| discriminate].
  cbn [negb] in Hs. destruct (decide (trim name = "")) as [| Hne]; [discriminate |].
  injection Hs as <- <- <-.
  assert (six_digits (AddWorker.handlePinChange value) = true) as Hsix.
  { unfold six_digits. rewrite Hlen. exact Hd. }
  split; [done |]. split; [done |]. split; [done |].
  split; [exact Hsix |]. split; [apply trim_idem |].
  split; [exact Hne |].
  intros rt pg demo w.
  assert (∀ e, e = pin_format_error ∨ e = name_required →
            createWorker demo (AddWorker.handlePinChange value) (trim name) role
            ≠ Ret (Fail e)) as Hval.
  { intros e He. unfold createWorker. rewrite Hsix. cbn [negb].
    destruct (decide (trim (trim name) = "")) as [Hb | _].
    { by rewrite trim_idem in Hb. }
    destruct demo; [discriminate |]. discriminate. }
  split; [apply Hval; by left |]. split; [apply Hval; by right |].
  cbv zeta. rewrite createWorker_demo; [| done | by rewrite trim_idem].
  destruct (existsb _ (DEMO_WORKERS w)); [by left |].
  right. eexists. split; [reflexivity |]. cbn. by rewrite trim_idem.
Qed.

(** A name with a no-break space at either end is trimmed; a name of
    no-break spaces only is not passed on. *)
Lemma addWorker_submits_valid_witness :
  let nbsp := String (ascii_of_nat 160) "" in
  AddWorker.handlePinChange "12-34 56x7" = "123456"
  ∧ AddWorker.handleSubmit "123456" (nbsp +:+ " Ann Lee" +:+ nbsp) "worker"
    = inr ("123456", "Ann Lee", "worker")
  ∧ AddWorker.handleSubmit "123456" (nbsp +:+ nbsp) "worker"
    = inl "Name is required"
  ∧ six_digits "123456" = true ∧ trim "Ann Lee" = "Ann Lee".
Proof.
  cbv zeta.
  assert (AddWorker.handleSubmit (AddWorker.handlePinChange "12-34 56x7")
            (String (ascii_of_nat 160) "" +:+ " Ann Lee"
             +:+ String (ascii_of_nat 160) "") "worker"
          = inr ("123456", "Ann Lee", "worker")) as H
    by (vm_compute; reflexivity).
  split; [reflexivity |]. split; [exact H |]. split; [reflexivity |].
  destruct (proj2 (proj2 (proj2 (addWorker_submits_valid "12-34 56x7"
                                   (String (ascii_of_nat 160) "" +:+ " Ann Lee"
                                    +:+ String (ascii_of_nat 160) "")
                                   "worker"))) _ _ _ H)
    as (_ & _ & _ & H1 & H2 & _).
  split; [exact H1 | exact H2].
Defined.

(** ** Counting days *)

Section DayCounts.
Context {rt : JsRuntime} {pg : Postgres}.

Lemma daysUpTo_after (current end_ : Z) :
  end_ < current → daysUpTo current end_ = 0%nat.
Proof.
  intros H. unfold daysUpTo.
  assert ((end_ - current) / 86400000 < 0) by (apply Z.div_lt_upper_bound; lia).
  lia.
Qed.

Lemma daysUpTo_step (current end_ : Z) :
  current ≤ end_ →
  daysUpTo current end_ = S (daysUpTo (Date_addDays current 1) end_).
Proof.
  intros H. unfold daysUpTo, Date_addDays.
  replace (end_ - (current + 1 * 86400000))
    with (end_ - current + (-1) * 86400000) by lia.
  rewrite Z.div_add by lia.
  assert (0 ≤ (end_ - current) / 86400000) by (apply Z.div_pos; lia).
  lia.
Qed.

Lemma workDaysLoop_spec (fuel : nat) (current end_ count : Z) :
  (daysUpTo current end_ < fuel)%nat →
  workDaysLoop fuel current end_ count
  = Some (count + Z.of_nat (length (workDays current end_))).
Proof.
  revert current count. induction fuel as [| fuel IH]; intros current count Hf;
    [lia |].
  cbn [workDaysLoop]. unfold workDays.
  destruct (Z.leb_spec current end_) as [Hle | Hgt].
  - rewrite daysUpTo_step in * by done. cbn [daysFrom]. rewrite filter_cons.
    cbv zeta. rewrite IH by lia. unfold workDays.
    change (negb (Date_getDay current =? 0) && negb (Date_getDay current =? 6))
      with (isWeekday current).
    destruct (isWeekday current).
    + rewrite decide_True by done. cbn [length]. f_equal. lia.
    + by rewrite decide_False by done.
  - rewrite daysUpTo_after by done. cbn. f_equal. lia.
Qed.

(** X26. [calculateWorkDays] (the loop run with enough fuel: more than the
    number of days from the start date to the end date).  With both dates
    given, it answers the number of working days of the local calendar among
    the instants start, start + 1 day, ... that are not after the end, and 1
    when there is none (an end before the start, a weekend): never less than
    1, never more than the number of days unless that is 0.  The suggested
    total is eight hours for each.  Without one of the dates it answers 1. *)
Theorem calculateWorkDays_spec (fuel : nat) (startDate endDate : string) :
  (daysUpTo (Date_getTime startDate) (Date_getTime endDate) < fuel)%nat →
  let n := Z.of_nat (length (workDays (Date_getTime startDate)
                               (Date_getTime endDate))) in
  (startDate ≠ "" → endDate ≠ "" →
     calculateWorkDays fuel startDate endDate = Some (Z.max n 1)
     ∧ suggestedTotal fuel startDate endDate = Some (Z.max n 1 * 8)
     ∧ 1 ≤ Z.max n 1
         ≤ Z.max (Z.of_nat (daysUpTo (Date_getTime startDate)
                              (Date_getTime endDate))) 1)
  ∧ (startDate = "" ∨ endDate = "" →
       calculateWorkDays fuel startDate endDate = Some 1
       ∧ suggestedTotal fuel startDate endDate = Some 8).
Proof.
  intros Hf. cbv zeta. split.
  - intros Hs He. unfold suggestedTotal, calculateWorkDays.
    rewrite !bool_decide_eq_false_2 by done. cbn [orb].
    rewrite workDaysLoop_spec by done. cbn. rewrite Z.add_0_l.
    split; [done |]. split; [done |]. split; [lia |].
    unfold workDays.
    pose proof (length_filter (λ t, isWeekday t = true)
                  (daysFrom (daysUpTo (Date_getTime startDate)
                               (Date_getTime endDate))
                     (Date_getTime startDate))) as Hlen.
    assert (∀ n t, length (daysFrom n t) = n) as Hd.
    { intros n. induction n as [| n IHn]; intros t; cbn; [done |].
      by rewrite IHn. }
    rewrite Hd in Hlen. lia.
  - intros Hempty. unfold suggestedTotal, calculateWorkDays.
    destruct Hempty as [-> | ->]; cbn; [done |].
    by rewrite orb_true_r.
Qed.

(** X27. [getDayCount] counts the days of a request with both ends: it does
    not depend on the order of the two dates, and for dates [n] whole days
    apart it is ["1 day"] when [n] is 0 and ["{|n| + 1} days"] otherwise. *)
Theorem getDayCount_spec (a b : string) (n : Z) :
  Date_getTime b - Date_getTime a = n * 86400000 →
  getDayCount a b = getDayCount b a
  ∧ getDayCount a b
    = if n =? 0 then "1 day" else pretty (Z.abs n + 1) +:+ " days".
Proof.
  intros Hn. unfold getDayCount. cbv zeta.
  replace (Date_getTime a - Date_getTime b)
    with (- (Date_getTime b - Date_getTime a)) by lia.
  rewrite Z.abs_opp. split; [done |].
  rewrite Hn, Z.abs_mul. change (Z.abs 86400000) with 86400000.
  change (1000 * 60 * 60 * 24) with 86400000.
  rewrite <- Z.mul_opp_l, Z.div_mul by lia. rewrite Z.opp_involutive.
  destruct (Z.eqb_spec n 0) as [-> | Hne]; [done |].
  destruct (Z.eqb_spec (Z.abs n + 1) 1) as [H1 | _]; [lia | done].
Qed.

End DayCounts.

Lemma calculateWorkDays_spec_witness :
  (daysUpTo (Iso.getTime 0 "2024-01-15") (Iso.getTime 0 "2024-01-21") < 10)%nat
  ∧ "2024-01-15" ≠ "" ∧ "2024-01-21" ≠ ""
  ∧ calculateWorkDays (rt := iso_runtime 0) 10 "2024-01-15" "2024-01-21" = Some 5
  ∧ suggestedTotal (rt := iso_runtime 0) 10 "2024-01-15" "2024-01-21" = Some 40.
Proof.
  assert (daysUpTo (Iso.getTime 0 "2024-01-15") (Iso.getTime 0 "2024-01-21") < 10)%nat
    as H by (vm_compute; lia).
  split; [exact H |]. split; [done |]. split; [done |].
  destruct (proj1 (calculateWorkDays_spec (rt := iso_runtime 0) 10 "2024-01-15"
                     "2024-01-21" H) ltac:(done) ltac:(done)) as (H1 & H2 & _).
  split.
  - rewrite H1. vm_compute. reflexivity.
  - rewrite H2. vm_compute. reflexivity.
Defined.

Lemma getDayCount_spec_witness :
  Iso.getTime 0 "2024-07-05" - Iso.getTime 0 "2024-07-01" = 4 * 86400000
  ∧ getDayCount (rt := iso_runtime 0) "2024-07-01" "2024-07-05" = "5 days".
Proof.
  assert (Iso.getTime 0 "2024-07-05" - Iso.getTime 0 "2024-07-01" = 4 * 86400000)
    as H by (vm_compute; reflexivity).
  split; [exact H |].
  exact (proj2 (getDayCount_spec (rt := iso_runtime 0) "2024-07-01" "2024-07-05"
                  4 H)).
Defined.

(** ** More examples and an invariant of the PINs *)

Lemma getWorkerStatus_live_witness :
  let s := mkSite this_week ∅ ∅ [] in
  store_up (core s) = true
  ∧ (∃ q, q ∈ punches (core s) ∧ Punch.worker_id q = "uuid-0")
  ∧ ∃ p, p ∈ punches (core s) ∧ Punch.worker_id p = "uuid-0"
         ∧ (krun (rt := iso_runtime 0) (getWorkerStatus false "uuid-0") s).1
           = Status.mk (bool_decide (Punch.type p = IN))
               (if decide (Punch.type p = IN)
                then Some (Punch.timestamp p) else None)
               (Some (Punch.type p, Punch.timestamp p)).
Proof.
  cbv zeta.
  assert (∃ q, q ∈ punches (core (mkSite this_week ∅ ∅ []))
               ∧ Punch.worker_id q = "uuid-0") as H.
  { eexists. split; [left | reflexivity]. }
  split; [reflexivity |]. split; [exact H |].
  destruct (proj2 (proj2 (proj2 (getWorkerStatus_live (rt := iso_runtime 0)
                                   "uuid-0" (mkSite this_week ∅ ∅ []))))
              eq_refl H) as (p & Hp & Hw & _ & Hr).
  exists p. split; [exact Hp |]. split; [exact Hw | exact Hr].
Defined.

Section UniquePins.
Context {rt : JsRuntime} {pg : Postgres}.

Lemma createWorker_keeps_demo_pins_unique (demo : bool)
    (pin fullName role : string) (w : World) :
  NoDup (map DemoWorker.pin (DEMO_WORKERS w)) →
  NoDup (map DemoWorker.pin
           (DEMO_WORKERS (run (createWorker demo pin fullName role) w).2)).
Proof.
  intros Hnd. unfold createWorker.
  destruct (negb (six_digits pin)); [done |].
  destruct (decide (trim fullName = "")); [done |].
  destruct demo; cbn.
  - destruct (existsb _ (DEMO_WORKERS w)) eqn:E; [done |]. cbn.
    rewrite map_app. apply NoDup_app. split; [done |]. split.
    + intros p Hp Hp'. simpl in Hp'. apply list_elem_of_singleton in Hp' as ->.
      apply list_elem_of_fmap in Hp as (d & Hd & Hin).
      apply not_true_iff_false in E. apply E, existsb_pin_demo. eauto.
    + simpl. apply NoDup_singleton.
  - unfold query, insertWorker. destruct (store_up w); [| done].
    destruct (negb _); [done |]. by destruct (existsb _ (workers w)).
Qed.

(** X28. No two workers share a PIN, and no sequence of calls of
    [createWorker] changes that, whatever their arguments and whether they
    succeed: in the demo table because [createWorker] looks the PIN up
    before it adds the worker, in table [workers] because the column is
    unique. *)
Theorem pins_stay_unique (demo : bool) (calls : list (string * string * string))
    (w : World) :
  NoDup (map DemoWorker.pin (DEMO_WORKERS w)) →
  NoDup (map Worker.pin (workers w)) →
  let w' := foldl (λ w c, (run (createWorker demo c.1.1 c.1.2 c.2) w).2) w calls in
  NoDup (map DemoWorker.pin (DEMO_WORKERS w'))
  ∧ NoDup (map Worker.pin (workers w')).
Proof.
  cbv zeta. revert w. induction calls as [| c calls IH]; intros w Hd Hw.
  - by split.
  - cbn [foldl]. apply IH.
    + by apply createWorker_keeps_demo_pins_unique.
    + by apply createWorker_keeps_pins_unique.
Qed.

End UniquePins.

Lemma pins_stay_unique_witness :
  let w' := foldl (λ w c, (run (rt := iso_runtime 0)
                             (createWorker true c.1.1 c.1.2 c.2) w).2)
              office
              [("234567", "Ann Lee", "worker"); ("234567", "Bob Ray", "worker");
               ("123456", "Cy Dole", "worker")] in
  NoDup (map DemoWorker.pin (DEMO_WORKERS office))
  ∧ NoDup (map Worker.pin (workers office))
  ∧ map DemoWorker.pin (DEMO_WORKERS w') = ["123456"; "345678"; "234567"]
  ∧ NoDup (map DemoWorker.pin (DEMO_WORKERS w')).
Proof.
  cbv zeta.
  assert (NoDup (map DemoWorker.pin (DEMO_WORKERS office))) as H1.
  { cbn. apply NoDup_cons. split; [| apply NoDup_singleton].
    intros H%list_elem_of_singleton. discriminate. }
  assert (NoDup (map Worker.pin (workers office))) as H2.
  { cbn. apply NoDup_cons. split; [| apply NoDup_singleton].
    intros H%list_elem_of_singleton. discriminate. }
  split; [exact H1 |]. split; [exact H2 |].
  split; [vm_compute; reflexivity |].
  exact (proj1 (pins_stay_unique (rt := iso_runtime 0) true
                  [("234567", "Ann Lee", "worker"); ("234567", "Bob Ray", "worker");
                   ("123456", "Cy Dole", "worker")] office H1 H2)).
Defined.
